(** * matscipy: cubic elastic moduli and near-tip crack fields

    A shallow embedding of [matscipy/elasticity.py] and
    [matscipy/fracture_mechanics/crack.py].

    Conventions of the embedding.
    - Python and numpy floats are idealised as the real numbers [R];
      rounding, infinities and NaN are outside the model.  A division
      of two Python floats raises [ZeroDivisionError] on a zero divisor
      ([py_div]); a division that involves a numpy scalar or array does
      not raise, and is written [x / y].  Where a statement is about
      exact equality of floats, [rotate] is modelled a second time on
      binary64 numbers (module [Binary64]).
    - A function that can raise returns a [result]; a function that
      mutates an object it was handed runs in the state monad [M] over
      the [world] holding that object.
    - numpy arrays of fixed small shape are tuples ([vec3], [mat3]);
      per-atom arrays are lists.
    - A bare name that the module never binds raises [NameError] where
      it is looked up.  The library routines the code calls are fields
      of the class [External]; so is, for each name that [crack.py]
      uses and never binds, what the name would resolve to were it
      bound ([None] for the module as it stands). *)

From Stdlib Require Import Reals Lra Lia.
From stdpp Require Import gmap strings list.
From Stdlib Require Import RNsatz.
From Stdlib Require Floats.

Open Scope R_scope.

(** ** Exceptions *)

Inductive exn : Type :=
| RuntimeError (msg : string)
| NotImplementedError
| ValueError (msg : string)
| KeyError (key : string)
| TypeError (msg : string)
| IndexError (msg : string)
| NameError (name : string)
| ZeroDivisionError.

Inductive result (A : Type) : Type :=
| Ok (a : A)
| Raise (e : exn).
Arguments Ok {A} a.
Arguments Raise {A} e.

Definition rbind {A B : Type} (m : result A) (k : A -> result B) : result B :=
  match m with
  | Ok a => k a
  | Raise e => Raise e
  end.

Declare Scope result_scope.
Delimit Scope result_scope with result.
Notation "'let?' x ':=' m 'in' k" :=
  (rbind m (fun x => k))
  (at level 10, x pattern, m at level 100, k at level 200) : result_scope.

(** ** Comparisons of floats *)

#[global] Instance Rlt_decision (x y : R) : Decision (x < y) := Rlt_dec x y.
#[global] Instance Req_decision : EqDecision R := Req_dec_T.

(** [x > y] and [x < y] as Python evaluates them. *)
Definition Rgtb (x y : R) : bool := bool_decide (y < x).
Definition Rltb (x y : R) : bool := bool_decide (x < y).

(** [x / y] on two Python floats. *)
Definition py_div (x y : R) : result R :=
  if bool_decide (y = 0) then Raise ZeroDivisionError else Ok (x / y).

(** A bare name looked up in the module's globals: [binding] is what it
    is bound to, if it is bound at all. *)
Definition lookup_global {A : Type} (name : string) (binding : option A)
  : result A :=
  match binding with
  | Some v => Ok v
  | None => Raise (NameError name)
  end.

(** ** numpy on small arrays *)

Definition vec3 : Type := R * R * R.
Definition mat3 : Type := vec3 * vec3 * vec3.

(** [v[a]] for [a] in [range(3)]. *)
Definition vget (v : vec3) (a : nat) : R :=
  match v, a with
  | (x, _, _), O => x
  | (_, y, _), S O => y
  | (_, _, z), _ => z
  end.

(** [A[i,:]] for [i] in [range(3)]. *)
Definition row (A : mat3) (i : nat) : vec3 :=
  match A, i with
  | (r0, _, _), O => r0
  | (_, r1, _), S O => r1
  | (_, _, r2), _ => r2
  end.

Definition mget (A : mat3) (i j : nat) : R := vget (row A i) j.

Definition range3 : list nat := [0; 1; 2]%nat.

(** [np.sum] of a one-dimensional array. *)
Definition np_sum (l : list R) : R := fold_left Rplus l 0.

Definition vmul (u v : vec3) : vec3 :=
  (vget u 0 * vget v 0, vget u 1 * vget v 1, vget u 2 * vget v 2).
Definition vdiv (v : vec3) (c : R) : vec3 :=
  (vget v 0 / c, vget v 1 / c, vget v 2 / c).
Definition vneg (v : vec3) : vec3 :=
  (- vget v 0, - vget v 1, - vget v 2).
Definition vsum (v : vec3) : R := np_sum [vget v 0; vget v 1; vget v 2].

(** [np.dot] of two vectors. *)
Definition np_dot (u v : vec3) : R := vsum (vmul u v).

(** [np.cross]. *)
Definition np_cross (u v : vec3) : vec3 :=
  (vget u 1 * vget v 2 - vget u 2 * vget v 1,
   vget u 2 * vget v 0 - vget u 0 * vget v 2,
   vget u 0 * vget v 1 - vget u 1 * vget v 0).

(** [np.linalg.det] of a 3x3 matrix. *)
Definition np_linalg_det (A : mat3) : R :=
  mget A 0 0 * (mget A 1 1 * mget A 2 2 - mget A 1 2 * mget A 2 1)
  - mget A 0 1 * (mget A 1 0 * mget A 2 2 - mget A 1 2 * mget A 2 0)
  + mget A 0 2 * (mget A 1 0 * mget A 2 1 - mget A 1 1 * mget A 2 0).

(** [np.eye(3)], as an array and entry by entry. *)
Definition eye3 : mat3 := ((1, 0, 0), (0, 1, 0), (0, 0, 1)).
Definition eye (i j : nat) : R := mget eye3 i j.

(** Entry [(i, j)] of [np.dot(A, np.transpose(A))]. *)
Definition dot_AAt (A : mat3) (i j : nat) : R := np_dot (row A i) (row A j).

(** ** elasticity.py: [CubicElasticModuli] *)

Module CubicElasticModuli.

Definition tol : R := 1 / 1000000.

(** The indices of the full stiffness matrix of (orthorhombic) interest. *)
Definition t : list (nat * nat * nat * nat) :=
  [ (0, 0, 0, 0); (1, 1, 1, 1); (2, 2, 2, 2);    (* C11 *)
    (1, 1, 2, 2); (0, 0, 2, 2); (0, 0, 1, 1);    (* C12 *)
    (1, 2, 1, 2); (0, 2, 0, 2); (0, 1, 0, 1) ]%nat.  (* C44 *)

(** The instance attributes; the three [_rot] arrays are absent (here
    empty) until [rotate] has run once. *)
Record self_t : Type := mk_self {
  C11 : R; C12 : R; C44 : R;
  la : R; mu : R; al : R;
  C11_rot : list R; C12_rot : list R; C44_rot : list R
}.

Definition set_rot (self : self_t) (c11 c12 c44 : list R) : self_t :=
  {| C11 := C11 self; C12 := C12 self; C44 := C44 self;
     la := la self; mu := mu self; al := al self;
     C11_rot := c11; C12_rot := c12; C44_rot := c44 |}.

(** [np.sometrue(np.abs(np.dot(A, A.T) - np.eye(3)) > self.tol)]. *)
Definition not_a_rotation (A : mat3) : bool :=
  existsb (fun i =>
    existsb (fun j => Rgtb (Rabs (dot_AAt A i j - eye i j)) tol) range3)
    range3.

(** The isotropic part assembled by the three [if]s shared by [rotate]
    and [_rotate_explicit]. *)
Definition isotropic_part (self : self_t) (i j k m : nat) : R :=
  let h := 0 in
  let h := if (i =? j)%nat && (k =? m)%nat then h + la self else h in
  let h := if (i =? k)%nat && (j =? m)%nat then h + mu self else h in
  let h := if (i =? m)%nat && (j =? k)%nat then h + mu self else h in
  h.

(** [C[0:3]], [C[3:6]], [C[6:9]]. *)
Definition slice (C : list R) (lo hi : nat) : list R :=
  firstn (hi - lo) (skipn lo C).

Definition store_rot (self : self_t) (C : list R)
  : self_t * (list R * list R * list R) :=
  let c11 := slice C 0 3 in
  let c12 := slice C 3 6 in
  let c44 := slice C 6 9 in
  (set_rot self c11 c12 c44, (c11, c12, c44)).

(** Compute the rotated stiffness matrix. *)
Definition rotate (self : self_t) (A : mat3)
  : result (self_t * (list R * list R * list R)) :=
  if not_a_rotation A
  then Raise (RuntimeError "Matrix *A* does not describe a rotation.")
  else
    let C :=
      map (fun '(i, j, k, m) =>
             let h := isotropic_part self i j k m in
             h + al self *
                 vsum (vmul (vmul (vmul (row A i) (row A j)) (row A k))
                            (row A m)))
          t in
    Ok (store_rot self C).

(** The unrotated stiffness tensor built by the four nested loops. *)
Definition unrotated (self : self_t) (i j k m : nat) : R :=
  let h := isotropic_part self i j k m in
  let h := if (i =? j)%nat && (j =? k)%nat && (k =? m)%nat
           then h + al self else h in
  h.

(** [np.einsum('ia,jb,kc,ld,abcd->ijkl', A, A, A, A, C)] at [(i,j,k,l)]. *)
Definition einsum (A : mat3) (C : nat -> nat -> nat -> nat -> R)
  (i j k l : nat) : R :=
  np_sum (a ← range3; b ← range3; c ← range3; d ← range3;
          [mget A i a * mget A j b * mget A k c * mget A l d * C a b c d]).

(** Compute the rotated stiffness matrix by applying the rotation to the
    full stiffness matrix. *)
Definition _rotate_explicit (self : self_t) (A : mat3)
  : result (self_t * (list R * list R * list R)) :=
  if not_a_rotation A
  then Raise (RuntimeError "Matrix *A* does not describe a rotation.")
  else
    let C := einsum A (unrotated self) in
    let C9 := map (fun '(i, j, k, m) => C i j k m) t in
    Ok (store_rot self C9).

(** [__init__]: a cubic system with elastic constants C11, C12, C44. *)
Definition __init__ (C11 C12 C44 : R) : result self_t :=
  let la := C12 in
  let mu := C44 in
  let al := C11 - la - 2 * mu in
  let self := mk_self C11 C12 C44 la mu al [] [] [] in
  let A := eye3 in
  (let? (self, _) := rotate self A in Ok self)%result.

Definition stiffness (self : self_t) : list R * list R * list R :=
  (C11_rot self, C12_rot self, C44_rot self).

(** Return the compliance coefficients: the body is a bare [raise]. *)
Definition compliance (self : self_t) : result (nat -> nat -> R) :=
  Raise NotImplementedError.

End CubicElasticModuli.

(** ** elasticity.py on binary64 numbers

    [rotate] and [__init__] once more, with every float a binary64
    number and every operation rounded as the hardware rounds it; the
    sums are taken left to right. *)

Module Binary64.

Import Floats.

Definition vec3 : Type := float * float * float.
Definition mat3 : Type := vec3 * vec3 * vec3.

Definition vget (v : vec3) (a : nat) : float :=
  match v, a with
  | (x, _, _), O => x
  | (_, y, _), S O => y
  | (_, _, z), _ => z
  end.

Definition row (A : mat3) (i : nat) : vec3 :=
  match A, i with
  | (r0, _, _), O => r0
  | (_, r1, _), S O => r1
  | (_, _, r2), _ => r2
  end.

Definition mget (A : mat3) (i j : nat) : float := vget (row A i) j.

Definition np_sum (l : list float) : float := fold_left PrimFloat.add l 0%float.

Definition vmul (u v : vec3) : vec3 :=
  (vget u 0 * vget v 0, vget u 1 * vget v 1, vget u 2 * vget v 2)%float.
Definition vsum (v : vec3) : float := np_sum [vget v 0; vget v 1; vget v 2].
Definition np_dot (u v : vec3) : float := vsum (vmul u v).

Definition eye3 : mat3 := ((1, 0, 0), (0, 1, 0), (0, 0, 1))%float.

(** [1e-6], as the nearest binary64 number. *)
Definition tol : float := 0x1.0c6f7a0b5ed8dp-20%float.

Record self_t : Type := mk_self {
  C11 : float; C12 : float; C44 : float;
  la : float; mu : float; al : float;
  C11_rot : list float; C12_rot : list float; C44_rot : list float
}.

Definition set_rot (self : self_t) (c11 c12 c44 : list float) : self_t :=
  {| C11 := C11 self; C12 := C12 self; C44 := C44 self;
     la := la self; mu := mu self; al := al self;
     C11_rot := c11; C12_rot := c12; C44_rot := c44 |}.

(** [np.sometrue(np.abs(np.dot(A, A.T) - np.eye(3)) > self.tol)]. *)
Definition not_a_rotation (A : mat3) : bool :=
  existsb (fun i =>
    existsb (fun j =>
      PrimFloat.ltb tol
        (PrimFloat.abs (np_dot (row A i) (row A j) - mget eye3 i j)%float))
      range3)
    range3.

(** [h = 0.0] followed by the three conditional [h += ...]. *)
Definition isotropic_part (self : self_t) (i j k m : nat) : float :=
  let h := 0%float in
  let h := if (i =? j)%nat && (k =? m)%nat then (h + la self)%float else h in
  let h := if (i =? k)%nat && (j =? m)%nat then (h + mu self)%float else h in
  let h := if (i =? m)%nat && (j =? k)%nat then (h + mu self)%float else h in
  h.

Definition slice (C : list float) (lo hi : nat) : list float :=
  firstn (hi - lo) (skipn lo C).

Definition store_rot (self : self_t) (C : list float)
  : self_t * (list float * list float * list float) :=
  let c11 := slice C 0 3 in
  let c12 := slice C 3 6 in
  let c44 := slice C 6 9 in
  (set_rot self c11 c12 c44, (c11, c12, c44)).

(** Compute the rotated stiffness matrix. *)
Definition rotate (self : self_t) (A : mat3)
  : result (self_t * (list float * list float * list float)) :=
  if not_a_rotation A
  then Raise (RuntimeError "Matrix *A* does not describe a rotation.")
  else
    let C :=
      map (fun '(i, j, k, m) =>
             let h := isotropic_part self i j k m in
             (h + al self *
                  vsum (vmul (vmul (vmul (row A i) (row A j)) (row A k))
                             (row A m)))%float)
          CubicElasticModuli.t in
    Ok (store_rot self C).

(** [__init__]: a cubic system with elastic constants C11, C12, C44. *)
Definition __init__ (C11 C12 C44 : float) : result self_t :=
  let la := C12 in
  let mu := C44 in
  let al := (C11 - la - 2 * mu)%float in
  let self := mk_self C11 C12 C44 la mu al [] [] [] in
  let A := eye3 in
  (let? (self, _) := rotate self A in Ok self)%result.

(** The number is neither an infinity nor a NaN. *)
Definition finite (x : float) : Prop :=
  match Prim2SF x with
  | S754_zero _ | S754_finite _ _ _ => True
  | S754_infinity _ | S754_nan => False
  end.

End Binary64.

(** ** Complex numbers (numpy's complex128 over the idealised floats) *)

Record complex : Type := mk_complex { real : R; imag : R }.

#[global] Instance complex_eq_decision : EqDecision complex.
Proof. solve_decision. Defined.

Definition of_real (x : R) : complex := mk_complex x 0.
Definition cadd (z w : complex) : complex :=
  mk_complex (real z + real w) (imag z + imag w).
Definition csub (z w : complex) : complex :=
  mk_complex (real z - real w) (imag z - imag w).
Definition cmul (z w : complex) : complex :=
  mk_complex (real z * real w - imag z * imag w)
             (real z * imag w + imag z * real w).
Definition cdiv (z w : complex) : complex :=
  let d := real w * real w + imag w * imag w in
  mk_complex ((real z * real w + imag z * imag w) / d)
             ((imag z * real w - real z * imag w) / d).
Definition conjugate (z : complex) : complex := mk_complex (real z) (- imag z).

(** [np.sqrt] of a complex number: the principal branch. *)
Definition csqrt (z : complex) : complex :=
  let m := sqrt (real z * real z + imag z * imag z) in
  mk_complex (sqrt ((m + real z) / 2))
             ((if Rltb (imag z) 0 then -1 else 1) * sqrt ((m - real z) / 2)).

(** [np.arctan2(y, x)]. *)
Definition arctan2 (y x : R) : R :=
  if Rltb 0 x then atan (y / x)
  else if Rltb x 0 then (if Rltb y 0 then atan (y / x) - PI else atan (y / x) + PI)
  else if Rltb 0 y then PI / 2
  else if Rltb y 0 then - (PI / 2)
  else 0.

(** [math.sqrt]: a negative argument is a [ValueError]. *)
Definition math_sqrt (x : R) : result R :=
  if Rltb x 0 then Raise (ValueError "math domain error") else Ok (sqrt x).

(** Elementwise binary operation on one-dimensional arrays, with numpy's
    broadcasting of a length-one operand. *)
Definition broadcast2 (f : R -> R -> R) (xs ys : list R) : result (list R) :=
  if (length xs =? length ys)%nat then Ok (zip_with f xs ys)
  else match xs, ys with
       | [x], _ => Ok (map (f x) ys)
       | _, [y] => Ok (map (fun x => f x y) xs)
       | _, _ => Raise (ValueError "operands could not be broadcast together")
       end.

(** [arr[mask]] for a boolean mask of the array's length. *)
Definition take_mask {A : Type} (mask : list bool) (arr : list A)
  : result (list A) :=
  if (length mask =? length arr)%nat
  then Ok (map snd (filter (fun p => Is_true (fst p)) (zip mask arr)))
  else Raise (IndexError "boolean index did not match indexed array").

(** ** Library routines the code calls *)

(** What [scipy.optimize.leastsq] hands back: the solution, the estimated
    covariance ([None] when singular) and the integer status flag. *)
Record leastsq_out : Type := mk_leastsq_out {
  lsq_x : list R;
  lsq_cov_x : option (list (list R));
  lsq_ier : Z
}.

(** A calculator, through its [get_stresses] method on the positions. *)
Definition Calculator : Type := list vec3 -> list mat3.

(** [np.poly1d] drops the leading zero coefficients ([trim_zeros]); what
    is left fixes the degree (0 for the zero polynomial). *)
Fixpoint trim_zeros (c : list R) : list R :=
  match c with
  | [] => []
  | x :: c' => if bool_decide (x = 0) then trim_zeros c' else c
  end.
Definition degree (c : list R) : nat := pred (length (trim_zeros c)).

(** The routines [crack.py] calls and does not define: the numerical
    library routines, left abstract, and the three names that the module
    uses and never binds ([IrwinStressField], [MPA_SQRT_M], [GPA]), each
    with what it would resolve to were it bound. *)
Class External : Type := {
  (** [np.poly1d(c).r]: the roots numpy finds for the coefficients [c]
      (highest power first), as many as the degree. *)
  poly1d_r : list R -> list complex;
  poly1d_r_length : forall c, length (poly1d_r c) = degree c;
  (** The MINPACK iteration [lmdif] that [scipy.optimize.leastsq] runs
      once it has checked its input. *)
  lmdif : (list R -> result (list R)) -> list R -> result leastsq_out;
  (** The stresses of an [IrwinStressField] built from the parameters. *)
  IrwinStressField : option (gmap string R -> list vec3 -> list mat3);
  (** The unit constants [MPA_SQRT_M] and [GPA]. *)
  MPA_SQRT_M : option R;
  GPA : option R
}.

(** [scipy.optimize.leastsq(func, x0, ...)]: the function is evaluated
    at [x0] before anything else, and it must return at least as many
    residuals as there are parameters. *)
Definition leastsq `{External} (func : list R -> result (list R))
  (x0 : list R) : result leastsq_out :=
  (let? fx := func x0 in
   if (length fx <? length x0)%nat
   then Raise (TypeError "Improper input: N must not exceed M")
   else lmdif func x0)%result.

(** ** crack.py: [RectilinearAnisotropicCrack] *)

Definition PLANE_STRAIN : string := "plane strain".
Definition PLANE_STRESS : string := "plane stress".

Module RectilinearAnisotropicCrack.

(** The attributes of a configured instance (before [set_plane_stress]
    or [set_plane_strain] the six coefficients are [None] and the rest
    is absent). *)
Record self_t : Type := mk_self {
  a11 : R; a22 : R; a12 : R; a16 : R; a26 : R; a66 : R;
  mu1 : complex; mu2 : complex;
  p1 : complex; p2 : complex; q1 : complex; q2 : complex;
  h1 : complex; h2 : complex; h3 : complex; h4 : complex; h5 : complex
}.

(** Initialize dependent parameters. *)
Definition _init_crack `{External} (a11 a22 a12 a16 a26 a66 : R)
  : result self_t :=
  let p := [ a11; -2 * a16; 2 * a12 + a66; -2 * a26; a22 ] in
  match poly1d_r p with
  | [ mu1; mu2; mu3; mu4 ] =>
      if bool_decide (mu1 <> conjugate mu2)
      then Raise (RuntimeError "Roots not in pairs.")
      else if bool_decide (mu3 <> conjugate mu4)
      then Raise (RuntimeError "Roots not in pairs.")
      else
        let mu2 := mu3 in
        let r := of_real in
        let p1 := csub (cadd (cmul (r a11) (cmul mu1 mu1)) (r a12))
                       (cmul (r a16) mu1) in
        let p2 := csub (cadd (cmul (r a11) (cmul mu2 mu2)) (r a12))
                       (cmul (r a16) mu2) in
        let q1 := csub (cadd (cmul (r a12) mu1) (cdiv (r a22) mu1))
                       (r a26) in
        let q2 := csub (cadd (cmul (r a12) mu2) (cdiv (r a22) mu2))
                       (r a26) in
        Ok {| a11 := a11; a22 := a22; a12 := a12;
              a16 := a16; a26 := a26; a66 := a66;
              mu1 := mu1; mu2 := mu2;
              p1 := p1; p2 := p2; q1 := q1; q2 := q2;
              h1 := cdiv (r 1) (csub mu1 mu2);
              h2 := cmul mu1 p2;
              h3 := cmul mu2 p1;
              h4 := cmul mu1 q2;
              h5 := cmul mu2 q1 |}
  | _ => Raise (ValueError "wrong number of values to unpack")
  end.

Definition set_plane_stress `{External} (a11 a22 a12 a16 a26 a66 : R)
  : result self_t :=
  _init_crack a11 a22 a12 a16 a26 a66.

(** The five reduced coefficients are computed one after the other,
    each with a division by [b33] (Python floats). *)
Definition set_plane_strain `{External}
  (b11 b22 b33 b12 b13 b23 b16 b26 b36 b66 : R) : result self_t :=
  (let? d := py_div (b13 * b13) b33 in
   let a11 := b11 - d in
   let? d := py_div (b23 * b23) b33 in
   let a22 := b22 - d in
   let? d := py_div (b13 * b23) b33 in
   let a12 := b12 - d in
   let? d := py_div (b13 * b36) b33 in
   let a16 := b16 - d in
   let? d := py_div (b23 * b36) b33 in
   let a26 := b26 - d in
   let a66 := b66 in
   _init_crack a11 a22 a12 a16 a26 a66)%result.

(** Displacement field in mode I fracture. *)
Definition displacements (self : self_t) (r theta k : R) : R * R :=
  let h1' := k * sqrt (2 * r / PI) in
  let h2' := csqrt (cadd (of_real (cos theta))
                         (cmul (mu2 self) (of_real (sin theta)))) in
  let h3' := csqrt (cadd (of_real (cos theta))
                         (cmul (mu1 self) (of_real (sin theta)))) in
  let u := h1' * real (cmul (h1 self)
               (csub (cmul (h2 self) h2') (cmul (h3 self) h3'))) in
  let v := h1' * real (cmul (h1 self)
               (csub (cmul (h4 self) h2') (cmul (h5 self) h3'))) in
  (u, v).

(** K1G, Griffith critical stress intensity in mode I fracture. *)
Definition k1g (self : self_t) (surface_energy : R) : result R :=
  math_sqrt (-4 * surface_energy /
    (a22 self *
     imag (cdiv (cadd (mu1 self) (mu2 self)) (cmul (mu1 self) (mu2 self))))).

Definition k1gsqG (self : self_t) : R :=
  -2 / (a22 self *
        imag (cdiv (cadd (mu1 self) (mu2 self)) (cmul (mu1 self) (mu2 self)))).

End RectilinearAnisotropicCrack.

(** ** crack.py: [CubicCrystalCrack] *)

Module CubicCrystalCrack.

(** [self.E] and [self.crack]; the latter stays unconfigured ([None])
    when [stress_state] is neither of the two constants. *)
Record self_t : Type := mk_self {
  E : CubicElasticModuli.self_t;
  crack : option RectilinearAnisotropicCrack.self_t
}.

(** The matrix [A] handed to [self.E.rotate]: rows are the normalised
    third direction, crack surface and crack front. *)
Definition orientation (crack_surface crack_front : vec3) : mat3 :=
  let third_dir := np_cross crack_surface crack_front in
  let third_dir := vdiv third_dir (sqrt (np_dot third_dir third_dir)) in
  let crack_surface :=
    vdiv crack_surface (sqrt (np_dot crack_surface crack_surface)) in
  let crack_front :=
    vdiv crack_front (sqrt (np_dot crack_front crack_front)) in
  let A := (third_dir, crack_surface, crack_front) in
  let third_dir :=
    if Rltb (np_linalg_det A) 0 then vneg third_dir else third_dir in
  (third_dir, crack_surface, crack_front).

(** Initialize a crack in a cubic crystal with elastic constants C11,
    C12 and C44. *)
Definition __init__ `{External} (C11 C12 C44 : R)
  (crack_surface crack_front : vec3) (stress_state : string)
  : result self_t :=
  (let? E := CubicElasticModuli.__init__ C11 C12 C44 in
   let A := orientation crack_surface crack_front in
   let? (E, _) := CubicElasticModuli.rotate E A in
   let? S6 := CubicElasticModuli.compliance E in
   if bool_decide (stress_state = PLANE_STRESS) then
     let? c := RectilinearAnisotropicCrack.set_plane_stress
                 (S6 0 0) (S6 1 1) (S6 0 1)
                 (S6 0 5) (S6 1 5) (S6 5 5) in
     Ok (mk_self E (Some c))
   else if bool_decide (stress_state = PLANE_STRAIN) then
     let? c := RectilinearAnisotropicCrack.set_plane_strain
                 (S6 0 0) (S6 1 1) (S6 2 2)
                 (S6 0 1) (S6 0 2) (S6 1 2)
                 (S6 0 5) (S6 1 5) (S6 2 5)
                 (S6 5 5) in
     Ok (mk_self E (Some c))
   else Ok (mk_self E None))%result%nat.

(** [self.crack.<method>] on an unconfigured crack fails. *)
Definition the_crack (self : self_t)
  : result RectilinearAnisotropicCrack.self_t :=
  match crack self with
  | Some c => Ok c
  | None => Raise (TypeError "unconfigured crack")
  end.

(** Compute Griffith critical stress intensity in mode I fracture. *)
Definition k1g (self : self_t) (surface_energy : R) : result R :=
  (let? c := the_crack self in
   RectilinearAnisotropicCrack.k1g c surface_energy)%result.

(** Displacement field in mode I fracture from cylindrical coordinates. *)
Definition displacements_from_cylinder_coordinates (self : self_t)
  (r theta : list R) (k : R) : result (list R * list R) :=
  (let? c := the_crack self in
   let? u := broadcast2
               (fun r t =>
                  fst (RectilinearAnisotropicCrack.displacements c r t k))
               r theta in
   let? v := broadcast2
               (fun r t =>
                  snd (RectilinearAnisotropicCrack.displacements c r t k))
               r theta in
   Ok (u, v))%result.

(** Displacement field in mode I fracture from cartesian coordinates. *)
Definition displacements_from_cartesian_coordinates (self : self_t)
  (dx dz : list R) (k : R) : result (list R * list R) :=
  (let? dx2 := broadcast2 Rmult dx dx in
   let? dz2 := broadcast2 Rmult dz dz in
   let? s := broadcast2 Rplus dx2 dz2 in
   let abs_dr := map sqrt s in
   let? theta := broadcast2 arctan2 dz dx in
   displacements_from_cylinder_coordinates self abs_dr theta k)%result.

(** Displacement field for a list of cartesian positions. *)
Definition displacements (self : self_t) (ref_x ref_y : list R)
  (x0 y0 k : R) : result (list R * list R) :=
  let dx := map (fun r => r - x0) ref_x in
  let dy := map (fun r => r - y0) ref_y in
  displacements_from_cartesian_coordinates self dx dy k.

(** Return actual displacement field minus ideal displacement field. *)
Definition displacement_residuals (self : self_t)
  (x y ref_x ref_y : list R) (x0 y0 k : R) : result (list R * list R) :=
  (let? u1x := broadcast2 Rminus x ref_x in
   let? u1y := broadcast2 Rminus y ref_y in
   let? (u2x, u2y) := displacements self ref_x ref_y x0 y0 k in
   let? rx := broadcast2 Rminus u1x u2x in
   let? ry := broadcast2 Rminus u1y u2y in
   Ok (rx, ry))%result.

Definition _residual (self : self_t) (r0 : list R)
  (x y ref_x ref_y : list R) (k : R) (mask : list bool)
  : result (list R) :=
  match r0 with
  | [x0; y0] =>
      (let? (dux, duy) := displacement_residuals self x y ref_x ref_y x0 y0 k in
       let? mx := take_mask mask dux in
       let? my := take_mask mask duy in
       let? sx := broadcast2 Rmult mx mx in
       let? sy := broadcast2 Rmult my my in
       broadcast2 Rplus sx sy)%result
  | _ => Raise (ValueError "wrong number of values to unpack")
  end.

(** [if mask is None: mask = np.ones(len(a), dtype=bool)]: no [a] is
    in scope there (the arguments are [x], [y], [ref_x], ...), so
    falling back on the default raises. *)
Definition default_mask (mask : option (list bool)) : result (list bool) :=
  match mask with
  | None => Raise (NameError "a")
  | Some m => Ok m
  end.

(** Return an estimate of the real crack tip position assuming the
    stress intensity factor is k. *)
Definition crack_tip_position `{External} (self : self_t)
  (x y ref_x ref_y : list R) (x0 y0 k : R) (mask : option (list bool))
  : result (R * R) :=
  (let? mask := default_mask mask in
   let? out := leastsq (fun r0 => _residual self r0 x y ref_x ref_y k mask)
                       [x0; y0] in
   match lsq_x out with
   | [x0; y0] =>
       let ier := lsq_ier out in
       if bool_decide (ier ∉ [1; 2; 3; 4]%Z)
       then Raise (RuntimeError "Could not find crack tip")
       else Ok (x0, y0)
   | _ => Raise (ValueError "wrong number of values to unpack")
   end)%result.

Definition _residual_z (self : self_t) (y0 x0 : R)
  (x y ref_x ref_y : list R) (k : R) (mask : list bool)
  : result (list R) :=
  (let? (dux, duy) := displacement_residuals self x y ref_x ref_y x0 y0 k in
   let? mx := take_mask mask dux in
   let? my := take_mask mask duy in
   let? sx := broadcast2 Rmult mx mx in
   let? sy := broadcast2 Rmult my my in
   broadcast2 Rplus sx sy)%result.

(** Return an estimate of the y-coordinate of the real crack tip
    position assuming the stress intensity factor is k. *)
Definition crack_tip_position_y `{External} (self : self_t)
  (x y ref_x ref_y : list R) (x0 y0 k : R) (mask : option (list bool))
  : result R :=
  (let? mask := default_mask mask in
   let? out := leastsq
                 (fun r0 => match r0 with
                            | [y0] => _residual_z self y0 x0 x y ref_x ref_y
                                                  k mask
                            | _ => Raise (TypeError "not a scalar")
                            end)
                 [y0] in
   match lsq_x out with
   | [y0] =>
       let ier := lsq_ier out in
       if bool_decide (ier ∉ [1; 2; 3; 4]%Z)
       then Raise (RuntimeError "Could not find crack tip")
       else Ok y0
   | _ => Raise (ValueError "wrong number of values to unpack")
   end)%result.

(** Rescale atomic positions from stress intensity factor old_k to the
    new stress intensity factor new_k.  [new_k/old_k] (two floats) is
    evaluated before the difference it multiplies, once for each
    coordinate. *)
Definition scale_displacements (self : self_t)
  (x y ref_x ref_y : list R) (old_k new_k : R)
  : result (list R * list R) :=
  (let? ratio := py_div new_k old_k in
   let? dx := broadcast2 Rminus x ref_x in
   let? x' := broadcast2 Rplus ref_x (map (Rmult ratio) dx) in
   let? ratio := py_div new_k old_k in
   let? dy := broadcast2 Rminus y ref_y in
   let? y' := broadcast2 Rplus ref_y (map (Rmult ratio) dy) in
   Ok (x', y'))%result.

End CubicCrystalCrack.

(** ** The atomic configuration and the arrays shared with the caller *)

(** Values kept in [atoms.info]: a float, or a sequence of three floats
    (a tuple or an array). *)
Inductive pyval : Type :=
| VFloat (x : R)
| VTriple (x y z : R).

(** A float is required where the code does arithmetic on the value. *)
Definition as_float (v : pyval) : result R :=
  match v with
  | VFloat x => Ok x
  | VTriple _ _ _ => Raise (TypeError "unsupported operand type(s)")
  end.

(** [a, b, c = v]. *)
Definition as_triple (v : pyval) : result (R * R * R) :=
  match v with
  | VTriple x y z => Ok (x, y, z)
  | VFloat _ => Raise (TypeError "object is not iterable")
  end.

Record Atoms : Type := mk_Atoms {
  positions : list vec3;
  cell : mat3;
  info : gmap string pyval;
  get_calculator : Calculator
}.

(** An array of shape [(n, 3, 3)], and the address of one. *)
Abbreviation ndarray := (list mat3).
Abbreviation loc := nat.

(** The objects a call can mutate: the [atoms] object it is handed (its
    [info] dictionary) and the arrays the caller may hold on to. *)
Record world : Type := mk_world {
  atoms : Atoms;
  heap : gmap loc ndarray
}.

Definition M (A : Type) : Type := world -> world * result A.

Definition ret {A : Type} (a : A) : M A := fun w => (w, Ok a).
Definition raise {A : Type} (e : exn) : M A := fun w => (w, Raise e).
Definition lift {A : Type} (r : result A) : M A := fun w => (w, r).
Definition bind {A B : Type} (m : M A) (k : A -> M B) : M B :=
  fun w => match m w with
           | (w', Ok a) => k a w'
           | (w', Raise e) => (w', Raise e)
           end.

Declare Scope M_scope.
Delimit Scope M_scope with M.
Notation "'do' x <- m ; k" :=
  (bind m (fun x => k))
  (at level 10, x pattern, m at level 100, k at level 200) : M_scope.

(** [try: body except KeyError: handler]; what [body] had already
    mutated stays mutated. *)
Definition try_except_KeyError {A : Type} (body handler : M A) : M A :=
  fun w => match body w with
           | (w', Raise (KeyError _)) => handler w'
           | r => r
           end.

(** [d[key]] on a dictionary. *)
Definition getitem {V : Type} (d : gmap string V) (key : string) : result V :=
  match d !! key with
  | Some v => Ok v
  | None => Raise (KeyError key)
  end.

(** [atoms.info[key]] and [atoms.info[key] = v]. *)
Definition info_get (key : string) : M pyval :=
  fun w => (w, getitem (info (atoms w)) key).
Definition info_set (key : string) (v : pyval) : M unit :=
  fun w =>
    let a := atoms w in
    (mk_world (mk_Atoms (positions a) (cell a) (<[key := v]> (info a))
                        (get_calculator a))
              (heap w),
     Ok tt).
Definition get_atoms : M Atoms := fun w => (w, Ok (atoms w)).

(** Reading, overwriting in place and allocating an array. *)
Definition read (l : loc) : M ndarray :=
  fun w => match heap w !! l with
           | Some arr => (w, Ok arr)
           | None => (w, Raise (TypeError "not an array"))
           end.
Definition write (l : loc) (arr : ndarray) : M unit :=
  fun w => (mk_world (atoms w) (<[l := arr]> (heap w)), Ok tt).
Definition alloc (arr : ndarray) : M loc :=
  fun w => let l := fresh (dom (heap w)) in
           (mk_world (atoms w) (<[l := arr]> (heap w)), Ok l).

(** [arr.max()] and [arr.min()]: an empty array is a [ValueError]. *)
Definition np_max (l : list R) : result R :=
  match l with
  | [] => Raise (ValueError "zero-size array to reduction operation")
  | x :: l' => Ok (fold_left Rmax l' x)
  end.
Definition np_min (l : list R) : result R :=
  match l with
  | [] => Raise (ValueError "zero-size array to reduction operation")
  | x :: l' => Ok (fold_left Rmin l' x)
  end.

(** The bare name [sqrt].  At module level [crack.py] binds [math],
    [warnings], [np], [brentq], [leastsq], [NeighborList],
    [CubicElasticModuli], [MillerDirection], [MillerPlane] and its own
    definitions; [sqrt] is not among them, so looking it up raises.
    [bound] is what the name would resolve to were it imported. *)
Definition global_sqrt (bound : option (R -> R)) : result (R -> R) :=
  match bound with
  | Some f => Ok f
  | None => Raise (NameError "sqrt")
  end.

(** ** crack.py: strain bookkeeping for the thin strip *)

(** Convert from strain to energy release rate G for thin strip geometry. *)
Definition strain_to_G (strain E nu orig_height : R) : result R :=
  (let? c := py_div (0.5 * E) (1 - nu * nu) in
   Ok (c * strain * strain * orig_height))%result.

(** Return the current strain on thin strip configuration [atoms]; also
    updates the value stored in [atoms.info]. *)
Definition get_strain : M R :=
  (do orig_height <- info_get "OrigHeight";
   do a <- get_atoms;
   let y := map (fun p => vget p 1) (positions a) in
   do hi <- lift (np_max y);
   do lo <- lift (np_min y);
   let current_height := hi - lo in
   do orig_height <- lift (as_float orig_height);
   let strain := current_height / orig_height - 1 in
   do _ <- info_set "strain" (VFloat strain);
   ret strain)%M.

(** Return the current energy release rate G for [atoms]; also updates
    the value stored in [atoms.info]. *)
Definition get_energy_release_rate : M R :=
  (do current_strain <- get_strain;
   do orig_height <- info_get "OrigHeight";
   do E <- info_get "YoungsModulus";
   do nu <- info_get "PoissonRatio_yx";
   do E <- lift (as_float E);
   do nu <- lift (as_float nu);
   do orig_height <- lift (as_float orig_height);
   do G <- lift (strain_to_G current_strain E nu orig_height);
   do _ <- info_set "G" (VFloat G);
   ret G)%M.

(** Return stress intensity factor K_I; also updates the value stored in
    [atoms.info].  The body, given what the bare name [sqrt] is bound
    to. *)
Definition get_stress_intensity_factor_in (bound : option (R -> R)) : M R :=
  (do G <- get_energy_release_rate;
   do E <- info_get "YoungsModulus";
   do nu <- info_get "PoissonRatio_yx";
   do E <- lift (as_float E);
   do nu <- lift (as_float nu);
   do Ep <- lift (py_div E (1 - nu ^ 2));
   do sqrt <- lift (global_sqrt bound);
   let K := sqrt (G * Ep) in
   do _ <- info_set "K" (VFloat K);
   ret K)%M.

(** The function as the module has it: [sqrt] is unbound. *)
Definition get_stress_intensity_factor : M R :=
  get_stress_intensity_factor_in None.

(** ** crack.py: [fit_crack_stress_field] *)

Definition vset (v : vec3) (a : nat) (x : R) : vec3 :=
  match v, a with
  | (_, y, z), O => (x, y, z)
  | (x0, _, z), S O => (x0, x, z)
  | (x0, y, _), _ => (x0, y, x)
  end.

(** [T[i,j] = x] on one 3x3 tensor. *)
Definition mset (T : mat3) (i j : nat) (x : R) : mat3 :=
  match T, i with
  | (r0, r1, r2), O => (vset r0 j x, r1, r2)
  | (r0, r1, r2), S O => (r0, vset r1 j x, r2)
  | (r0, r1, r2), _ => (r0, r1, vset r2 j x)
  end.

Definition vmap2 (f : R -> R -> R) (u v : vec3) : vec3 :=
  (f (vget u 0) (vget v 0), f (vget u 1) (vget v 1), f (vget u 2) (vget v 2)).
Definition mmap2 (f : R -> R -> R) (S T : mat3) : mat3 :=
  (vmap2 f (row S 0) (row T 0), vmap2 f (row S 1) (row T 1),
   vmap2 f (row S 2) (row T 2)).

(** Elementwise binary operation on two [(n,3,3)] arrays, a leading axis
    of length one being broadcast. *)
Definition broadcast_t (f : R -> R -> R) (xs ys : ndarray) : result ndarray :=
  if (length xs =? length ys)%nat then Ok (zip_with (mmap2 f) xs ys)
  else match xs, ys with
       | [x], _ => Ok (map (mmap2 f x) ys)
       | _, [y] => Ok (map (fun x => mmap2 f x y) xs)
       | _, _ => Raise (ValueError "operands could not be broadcast together")
       end.

(** The value stored by [dst[...] = value]. *)
Definition assign_ellipsis (dst value : ndarray) : result ndarray :=
  if (length value =? length dst)%nat then Ok value
  else match value with
       | [v] => Ok (map (fun _ => v) dst)
       | _ => Raise (ValueError "could not broadcast input array")
       end.

(** [exp(-avg_decay) * o + (1 - exp(-avg_decay)) * s], entry by entry. *)
Definition exponential_average (avg_decay o s : R) : R :=
  exp (- avg_decay) * o + (1 - exp (- avg_decay)) * s.

(** The five assignments zeroing the components out of the xy plane. *)
Definition zero_out_of_plane (T : mat3) : mat3 :=
  let T := mset T 2 2 0 in
  let T := mset T 0 2 0 in
  let T := mset T 2 0 0 in
  let T := mset T 1 2 0 in
  let T := mset T 2 1 0 in
  T.

(** [arr[mask]] where [mask] may be [Ellipsis] (here [None]). *)
Definition apply_mask {A : Type} (mask : option (list bool)) (arr : list A)
  : result (list A) :=
  match mask with
  | None => Ok arr
  | Some m => take_mask m arr
  end.

(** [mask = (r > rmin) & (r < rmax)], or [Ellipsis] without a range. *)
Definition fit_mask (r_range : option (R * R)) (r : list R)
  : option (list bool) :=
  match r_range with
  | None => None
  | Some (rmin, rmax) => Some (map (fun ri => Rgtb ri rmin && Rltb ri rmax) r)
  end.

(** [delta_sigma.reshape(delta_sigma.size)]. *)
Definition reshape_flat (arr : ndarray) : list R :=
  T ← arr; i ← range3; j ← range3; [mget T i j].

(** [sorted] on a list of strings. *)
Fixpoint insert_sorted (s : string) (l : list string) : list string :=
  match l with
  | [] => [s]
  | s' :: l' => if String.leb s s' then s :: l else s' :: insert_sorted s l'
  end.
Definition sorted (l : list string) : list string :=
  foldr insert_sorted [] l.

(** [dict(zip(keys, values))]; the keys used here are distinct. *)
Definition dict_zip (keys : list string) (values : list R) : gmap string R :=
  list_to_map (zip keys values).

(** [d.update(other)]. *)
Definition update (d other : gmap string R) : gmap string R := other ∪ d.

(** [np.diag] of a nested list. *)
Definition np_diag (cov : list (list R)) : list R :=
  imap (fun i row => nth i row 0) cov.

Section fit.
Context `{External}.

(** The closure [objective_function]; [fix_params], [mask] and [atoms]
    come from the enclosing call. *)
Definition objective_function (a : Atoms) (fix_params : gmap string R)
  (mask : option (list bool))
  (params : list R) (sigma : ndarray) (var_params : list string)
  : result (list R) :=
  let params := dict_zip var_params params in
  let params := update params fix_params in
  (let? IrwinStressField := lookup_global "IrwinStressField"
                                           IrwinStressField in
   let irwin_sigma := IrwinStressField params (positions a) in
   let? s := apply_mask mask sigma in
   let? i := apply_mask mask irwin_sigma in
   let? delta_sigma := broadcast_t Rminus s i in
   Ok (reshape_flat delta_sigma))%result.

(** The guess for the stress intensity factor K. *)
Definition guess_K (params : gmap string R) : M (gmap string R) :=
  (do a <- get_atoms;
   match info a !! "K" with
   | Some v => do k <- lift (as_float v); ret (<["K" := k]> params)
   | None =>
       try_except_KeyError
         (do k <- get_stress_intensity_factor; ret (<["K" := k]> params))
         (do MPA_SQRT_M <- lift (lookup_global "MPA_SQRT_M" MPA_SQRT_M);
          ret (<["K" := 1.0 * MPA_SQRT_M]> params))
   end)%M.

(** The guess for the far-field stress. *)
Definition guess_sigma0 (params : gmap string R) : M (gmap string R) :=
  (do a <- get_atoms;
   match info a !! "sigma0" with
   | Some v =>
       do (sxx0, syy0, sxy0) <- lift (as_triple v);
       ret (<["sxy0" := sxy0]> (<["syy0" := syy0]> (<["sxx0" := sxx0]> params)))
   | None =>
       try_except_KeyError
         (do E <- info_get "YoungsModulus";
          do nu <- info_get "PoissonRatio_yx";
          do E <- lift (as_float E);
          do nu <- lift (as_float nu);
          do Ep <- lift (py_div E (1 - nu ^ 2));
          do strain <- info_get "strain";
          do strain <- lift (as_float strain);
          let syy0 := Ep * strain in
          let params := <["syy0" := syy0]> params in
          let params := <["sxx0" := nu * syy0]> params in
          ret (<["sxy0" := 0]> params))
         (ret (<["sxy0" := 0]> (<["sxx0" := 0]> (<["syy0" := 0]> params))))
   end)%M.

(** The guess for the crack position. *)
Definition guess_position (params : gmap string R) : M (gmap string R) :=
  try_except_KeyError
    (do v <- info_get "CrackPos";
     do (x0, y0, _) <- lift (as_triple v);
     ret (<["y0" := y0]> (<["x0" := x0]> params)))%M
    (do a <- get_atoms;
     let x := map (fun p => vget p 0) (positions a) in
     do lo <- lift (np_min x);
     do hi <- lift (np_max x);
     do lo' <- lift (np_min x);
     ret (<["y0" := 0]> (<["x0" := lo + (hi - lo') / 3]> params)))%M.

(** The first part of [fit_crack_stress_field]: the starting values of
    the parameters, guessed where [initial_params] leaves them out, with
    any fixed parameters overriding them. *)
Definition starting_params (initial_params : option (gmap string R))
  (fix_params : gmap string R) : M (gmap string R) :=
  (let params : gmap string R := ∅ in
   let params := match initial_params with
                 | Some ip => update params ip
                 | None => params
                 end in
   do params <- (if bool_decide (params !! "K" = None)
                 then guess_K params else ret params);
   do params <- (if bool_decide (params !! "sxx0" = None)
                    || bool_decide (params !! "syy0" = None)
                    || bool_decide (params !! "sxy0" = None)
                 then guess_sigma0 params else ret params);
   do params <- (if bool_decide (params !! "x0" = None)
                    || bool_decide (params !! "y0" = None)
                 then guess_position params else ret params);
   (* Override any fixed parameters *)
   ret (update params fix_params))%M.

(** Perform a least squares fit of near-tip stress field to Irwin
    solution.  Returns [(params, err)]. *)
Definition fit_crack_stress_field
  (r_range : option (R * R))
  (initial_params fix_params : option (gmap string R))
  (sigma avg_sigma : option loc) (avg_decay : R)
  (calc : option Calculator) (verbose : bool)
  : M (gmap string R * gmap string R) :=
  (let fix_params := match fix_params with Some f => f | None => ∅ end in
   do params <- starting_params initial_params fix_params;
   do a <- get_atoms;
   let x := map (fun p => vget p 0) (positions a) in
   let y := map (fun p => vget p 1) (positions a) in
   do x0 <- lift (getitem params "x0");
   do y0 <- lift (getitem params "y0");
   let r := zip_with (fun xi yi => sqrt ((xi - x0) ^ 2 + (yi - y0) ^ 2)) x y in
   (* Get local stresses *)
   do sigma <- match sigma with
               | Some l => ret l
               | None =>
                   let calc := match calc with
                               | Some c => c
                               | None => get_calculator a
                               end in
                   alloc (calc (positions a))
               end;
   (* Update avg_sigma in place *)
   do sigma <- match avg_sigma with
               | Some avg =>
                   do old <- read avg;
                   do cur <- read sigma;
                   do mixed <- lift (broadcast_t
                       (exponential_average avg_decay) old cur);
                   do new <- lift (assign_ellipsis old mixed);
                   do _ <- write avg new;
                   alloc new
               | None => ret sigma
               end;
   (* Zero components out of the xy plane *)
   do cur <- read sigma;
   do _ <- write sigma (map zero_out_of_plane cur);
   do sigma_arr <- read sigma;
   let mask := fit_mask r_range r in
   do _ <- (if verbose
            then do _ <- lift (apply_mask mask sigma_arr); ret tt
            else ret tt);
   (* names and values of parameters which can vary in this fit *)
   let var_params :=
     sorted (filter (fun key => fix_params !! key = None)
                    (map fst (map_to_list params))) in
   do initial <- lift (foldr (fun key acc =>
                         let? acc := acc in
                         let? v := getitem params key in Ok (v :: acc))
                       (Ok []) var_params)%result;
   do out <- lift (leastsq
               (fun p => objective_function a fix_params mask p sigma_arr
                                            var_params)
               initial);
   let fitted_params := lsq_x out in
   let cov := lsq_cov_x out in
   let success := lsq_ier out in
   let params := dict_zip var_params fitted_params in
   let params := update params fix_params in
   (* estimate variance in parameter estimates *)
   do err <- match cov with
             | None =>
                 ret (dict_zip var_params
                        (replicate (length fitted_params) 0))
             | Some cov =>
                 do res <- lift (objective_function a fix_params mask
                                   fitted_params sigma_arr var_params);
                 let s_sq := np_sum (map (fun v => v ^ 2) res)
                             / (INR (9 * length sigma_arr)
                                - INR (length fitted_params)) in
                 let cov := map (map (fun c => c * s_sq)) cov in
                 ret (dict_zip var_params (map sqrt (np_diag cov)))
             end;
   do _ <- (if verbose
            then do K <- lift (getitem params "K");
                 do MPA_SQRT_M <- lift (lookup_global "MPA_SQRT_M" MPA_SQRT_M);
                 (* a fitted K is a numpy scalar, a fixed one a float *)
                 do _ <- lift (if bool_decide (fix_params !! "K" = None)
                               then Ok (K / MPA_SQRT_M)
                               else py_div K MPA_SQRT_M);
                 do _ <- lift (getitem params "sxx0");
                 do _ <- lift (lookup_global "GPA" GPA);
                 do _ <- lift (getitem params "syy0");
                 do _ <- lift (lookup_global "GPA" GPA);
                 do _ <- lift (getitem params "sxy0");
                 do _ <- lift (lookup_global "GPA" GPA);
                 do _ <- lift (getitem params "x0");
                 do _ <- lift (getitem params "y0");
                 ret tt
            else ret tt);
   do K <- lift (getitem params "K");
   do _ <- info_set "K" (VFloat K);
   do sxx0 <- lift (getitem params "sxx0");
   do syy0 <- lift (getitem params "syy0");
   do sxy0 <- lift (getitem params "sxy0");
   do _ <- info_set "sigma0" (VTriple sxx0 syy0 sxy0);
   do x0 <- lift (getitem params "x0");
   do y0 <- lift (getitem params "y0");
   do a <- get_atoms;
   do _ <- info_set "CrackPos" (VTriple x0 y0 (mget (cell a) 2 2 / 2));
   ret (params, err))%M.

End fit.

(** ** Predicates used in the statements *)

(** [A] is exactly orthonormal: [A . A^T] is the identity. *)
Definition orthonormal (A : mat3) : Prop :=
  forall i j, (i < 3)%nat -> (j < 3)%nat -> dot_AAt A i j = eye i j.

(** [A . A^T] is within [eps] of the identity, entry by entry. *)
Definition near_orthonormal (eps : R) (A : mat3) : Prop :=
  forall i j, (i < 3)%nat -> (j < 3)%nat ->
              Rabs (dot_AAt A i j - eye i j) <= eps.

(** [A] is accepted by the check of [rotate]: no entry of [A . A^T - I]
    exceeds the tolerance. *)
Definition accepted (A : mat3) : Prop :=
  near_orthonormal CubicElasticModuli.tol A.

(** The nine constants of a returned triple, in the order of [t]. *)
Definition nine (r : list R * list R * list R) : list R :=
  fst (fst r) ++ snd (fst r) ++ snd r.

(** [height] is the extent of the configuration along y: the largest
    minus the smallest y coordinate of its atoms. *)
Definition slab_height (a : Atoms) (height : R) : Prop :=
  let ys := map (fun p => vget p 1) (positions a) in
  exists hi lo,
    hi ∈ ys /\ lo ∈ ys /\ (forall y, y ∈ ys -> lo <= y <= hi)
    /\ height = hi - lo.

(** One coordinate of [scale_displacements]:
    [ref + ratio * (x - ref)], entry by entry. *)
Definition rescaled (ratio : R) (x ref : list R) : list R :=
  zip_with Rplus ref (map (Rmult ratio) (zip_with Rminus x ref)).

(** The computation [m] leaves every array as it found it. *)
Definition keeps_heap {A : Type} (m : M A) : Prop :=
  forall w, heap (fst (m w)) = heap w.

(** ** Concrete inputs *)

(** The instance right after [__init__]. *)
Definition fresh_moduli (c11 c12 c44 : R) : CubicElasticModuli.self_t :=
  CubicElasticModuli.mk_self c11 c12 c44 c12 c44 (c11 - c12 - 2 * c44)
    [c11; c11; c11] [c12; c12; c12] [c44; c44; c44].

(** An orientation stretched along its first row by 2.5e-7: inside the
    tolerance of the check, yet not orthonormal. *)
Definition stretched : mat3 := ((1 + 1 / 4000000, 0, 0), (0, 1, 0), (0, 0, 1)).

(** Stand-ins for the library routines, to run the code on concrete
    inputs: a root finder that reports the roots [i, -i, i, -i, ...], as
    many as the degree, and a least-squares iteration that gives up at
    once, handing back its starting point with status 5 (the iteration
    limit was reached) and no covariance.  The three names the module
    leaves unbound are bound here, to a stress field that is the
    identity tensor at every atom and to unit constants 1. *)
Definition imaginary_unit : complex := mk_complex 0 1.

Definition gives_up : External :=
  {| poly1d_r := fun c =>
       map (fun n : nat => if Nat.even n then imaginary_unit
                           else conjugate imaginary_unit)
           (seq 0 (degree c));
     poly1d_r_length := fun c =>
       eq_trans (length_map _ _) (length_seq _ _);
     lmdif := fun _ x0 => Ok (mk_leastsq_out x0 None 5);
     IrwinStressField := Some (fun _ pos => map (fun _ => eye3) pos);
     MPA_SQRT_M := Some 1;
     GPA := Some 1 |}.

(** The same routines with the three names unbound, as the module has
    them. *)
Definition unbound (E : External) : External :=
  {| poly1d_r := @poly1d_r E;
     poly1d_r_length := @poly1d_r_length E;
     lmdif := @lmdif E;
     IrwinStressField := None;
     MPA_SQRT_M := None;
     GPA := None |}.

(** A one-atom configuration: the atom sits at (3, 4, 0), at distance 5
    from the recorded crack position (0, 0), and [atoms.info] already
    holds K, sigma0 and CrackPos from an earlier fit. *)
Definition one_atom : Atoms :=
  {| positions := [(3, 4, 0)];
     cell := eye3;
     info := <["K" := VFloat 1]> (<["sigma0" := VTriple 0 0 0]>
             (<["CrackPos" := VTriple 0 0 0]> ∅));
     get_calculator := fun pos => map (fun _ => eye3) pos |}.

(** The caller's per-atom stress array (at address 0) and accumulator
    (at address 1). *)
Definition stress_0 : mat3 := ((1, 2, 3), (4, 5, 6), (7, 8, 9)).
Definition one_atom_world : world :=
  {| atoms := one_atom;
     heap := <[1%nat := [eye3]]> (<[0%nat := [stress_0]]> ∅) |}.


(** A strip of two atoms, 11 high, with the bookkeeping keys set. *)
Definition strip : Atoms :=
  {| positions := [(0, 0, 0); (0, 11, 0)];
     cell := eye3;
     info := <["OrigHeight" := VFloat 10]> (<["YoungsModulus" := VFloat 100]>
             (<["PoissonRatio_yx" := VFloat 0.5]> ∅));
     get_calculator := fun pos => map (fun _ => eye3) pos |}.
Definition strip_world : world := {| atoms := strip; heap := ∅ |}.




(** The same routines, with the status flag of the least-squares
    iteration replaced by [status]. *)
Definition with_status (E : External) (status : Z) : External :=
  {| poly1d_r := @poly1d_r E;
     poly1d_r_length := @poly1d_r_length E;
     lmdif := fun f x0 =>
       match @lmdif E f x0 with
       | Ok out => Ok (mk_leastsq_out (lsq_x out) (lsq_cov_x out) status)
       | Raise e => Raise e
       end;
     IrwinStressField := @IrwinStressField E;
     MPA_SQRT_M := @MPA_SQRT_M E;
     GPA := @GPA E |}.

(** * The rest of crack.py, and the ideal brittle solid that drives it *)

(** [x >= y] and [x <= y] as Python evaluates them. *)
#[global] Instance Rle_decision (x y : R) : Decision (x <= y) := Rle_dec x y.
Definition Rgeb (x y : R) : bool := bool_decide (y <= x).
Definition Rleb (x y : R) : bool := bool_decide (x <= y).

(** ** crack.py: [CubicCrystalCrack.k1gsqG] *)

Definition CubicCrystalCrack_k1gsqG (self : CubicCrystalCrack.self_t)
  : result R :=
  (let? c := CubicCrystalCrack.the_crack self in
   Ok (RectilinearAnisotropicCrack.k1gsqG c))%result.

(** ** crack.py: the isotropic near-tip fields

    [r] and [t] are taken one-dimensional, so that their shape is their
    length. *)

Definition zeros33 : mat3 := ((0, 0, 0), (0, 0, 0), (0, 0, 0)).

(** The tensor stored at one point [(r, t)] by the assignments to
    [sigma[...,i,j]]; [zz] is the test
    [not xy_only and stress_state == PLANE_STRAIN]. *)
Definition sigma_at (K nu : R) (zz : bool) (r t : R) : mat3 :=
  let sigma := zeros33 in
  let radial := K / sqrt (2 * PI * r) in
  let sigma := mset sigma 0 0
    (radial * cos (t / 2) * (1 - sin (t / 2) * sin (3 * t / 2))) in
  let sigma := mset sigma 1 1
    (radial * cos (t / 2) * (1 + sin (t / 2) * sin (3 * t / 2))) in
  let sigma := mset sigma 0 1
    (radial * sin (t / 2) * cos (t / 2) * cos (3 * t / 2)) in
  let sigma := mset sigma 1 0 (mget sigma 0 1) in
  let sigma := if zz
               then mset sigma 2 2 (nu * (mget sigma 0 0 + mget sigma 1 1))
               else sigma in
  sigma.

(** Compute Irwin singular crack tip stress field for mode I fracture. *)
Definition isotropic_modeI_crack_tip_stress_field (K : R) (r t : list R)
  (xy_only : bool) (nu : R) (stress_state : string) : result (list mat3) :=
  if negb (length r =? length t)%nat
  then Raise (ValueError "Shapes of radial and angular arrays must match.")
  else if bool_decide (stress_state ∉ [PLANE_STRAIN; PLANE_STRESS])
  then Raise (ValueError "stress_state should be plane strain or plane stress.")
  else
    let zz := negb xy_only && bool_decide (stress_state = PLANE_STRAIN) in
    Ok (zip_with (sigma_at K nu zz) r t).

(** Compute Irwin singular crack tip displacement field for mode I
    fracture. *)
Definition isotropic_modeI_crack_tip_displacement_field (K G nu : R)
  (r t : list R) (stress_state : string) : result (list R * list R) :=
  if negb (length r =? length t)%nat
  then Raise (ValueError "Shapes of radial and angular arrays must match.")
  else
    (let? kappa :=
       if bool_decide (stress_state = PLANE_STRAIN) then Ok (3 - 4 * nu)
       else if bool_decide (stress_state = PLANE_STRESS)
       then py_div (3 - nu) (1 + nu)
       else Raise (ValueError
                     "stress_state should be plane strain or plane stress.") in
     let radial := map (fun ri => K * sqrt (ri / (2 * PI)) / (2 * G)) r in
     let u := zip_with (fun ra ti =>
                ra * cos (ti / 2) * (kappa - 1 + 2 * sin (ti / 2) ^ 2))
                radial t in
     let v := zip_with (fun ra ti =>
                ra * sin (ti / 2) * (kappa + 1 - 2 * cos (ti / 2) ^ 2))
                radial t in
     Ok (u, v))%result.

(** The form the function's closing comment calls equivalent (``Form in
    Lawn book''), at one point. *)
Definition lawn_form (K G kappa r t : R) : R * R :=
  let radial := K / (4 * G) * sqrt (r / (2 * PI)) in
  (radial * ((2 * kappa - 1) * cos (t / 2) - cos (3 * t / 2)),
   radial * ((2 * kappa + 1) * sin (t / 2) - sin (3 * t / 2))).

(** ** crack.py: [G_to_strain] *)

(** Convert from energy release rate G to strain for thin strip geometry:
    the body, given what the bare name [sqrt] is bound to. *)
Definition G_to_strain_in (bound : option (R -> R)) (G E nu orig_height : R)
  : result R :=
  (let? sqrt := global_sqrt bound in
   let? x := py_div (2 * G * (1 - nu * nu)) (E * orig_height) in
   Ok (sqrt x))%result.

(** The function as the module has it: [sqrt] is unbound. *)
Definition G_to_strain (G E nu orig_height : R) : result R :=
  G_to_strain_in None G E nu orig_height.

(** ** crack.py: [find_tip_coordination] *)

(** What the function reads from and writes to the cluster [a]: the
    positions and the cell, the per-atom arrays it looks up or stores,
    and the two entries it leaves in [a.info]. *)
Inductive array : Type :=
| IntArray (l : list Z)
| BoolArray (l : list bool).

Record Cluster : Type := mk_Cluster {
  cl_positions : list vec3;
  cl_cell : mat3;
  cl_arrays : gmap string array;
  cl_info : gmap string nat
}.

Definition set_array (a : Cluster) (name : string) (v : array) : Cluster :=
  mk_Cluster (cl_positions a) (cl_cell a) (<[name := v]> (cl_arrays a))
             (cl_info a).
Definition set_info (a : Cluster) (key : string) (v : nat) : Cluster :=
  mk_Cluster (cl_positions a) (cl_cell a) (cl_arrays a)
             (<[key := v]> (cl_info a)).

(** [mask.nonzero()[0]]: the indices at which the mask holds. *)
Definition nonzero (mask : list bool) : list nat :=
  map fst (filter (fun p => Is_true (snd p)) (imap (fun i b => (i, b)) mask)).

(** [arr.argmax()]: the first index of the largest entry; an empty array
    is a [ValueError]. *)
Fixpoint argmax_from (best : R) (besti i : nat) (l : list R) : nat :=
  match l with
  | [] => besti
  | x :: l' => if Rgtb x best then argmax_from x i (S i) l'
               else argmax_from best besti (S i) l'
  end.
Definition argmax (l : list R) : result nat :=
  match l with
  | [] => Raise (ValueError "attempt to get argmax of an empty sequence")
  | x :: l' => Ok (argmax_from x 0 1 l')
  end.

(** [arr[i]] for an index in range. *)
Definition item {A : Type} (l : list A) (i : nat) : result A :=
  match l !! i with
  | Some x => Ok x
  | None => Raise (IndexError "index out of bounds")
  end.

(** The masks [above] and [below]. *)
Definition above_mask (nn : list Z) (g : list Z) (y : list R)
  (bulk_nn : Z) (half : R) : list bool :=
  zip_with andb (zip_with andb (map (fun n => bool_decide (n < bulk_nn)%Z) nn)
                               (map (fun gi => bool_decide (gi = 1%Z)) g))
           (map (fun yi => Rgtb yi half) y).
Definition below_mask (nn : list Z) (g : list Z) (y : list R)
  (bulk_nn : Z) (half : R) : list bool :=
  zip_with andb (zip_with andb (map (fun n => bool_decide (n < bulk_nn)%Z) nn)
                               (map (fun gi => bool_decide (gi = 1%Z)) g))
           (map (fun yi => Rltb yi half) y).

(** [arr == 1] and [arr < n] read a boolean array as 0 and 1. *)
Definition as_ints (v : array) : list Z :=
  match v with
  | IntArray l => l
  | BoolArray l => map (fun b : bool => if b then 1%Z else 0%Z) l
  end.

Section tip_coordination.
(** The number of neighbours that the [NeighborList] built for
  [bondlength] counts for each atom of the cluster. *)
Variable NeighborList_counts : R -> Cluster -> list Z.

(** Find position of tip in crack cluster from coordination.  The
  cluster is returned with what was stored in it up to the point of
  return or failure. *)
Definition find_tip_coordination (a : Cluster) (bondlength : R) (bulk_nn : Z)
: Cluster * result (nat * nat) :=
let nn := NeighborList_counts bondlength a in
let a := set_array a "n_neighb" (IntArray nn) in
match cl_arrays a !! "groups" with
| None => (a, Raise (KeyError "groups"))
| Some g =>
    let g := as_ints g in
    let y := map (fun p => vget p 1) (cl_positions a) in
    let half := mget (cl_cell a) 1 1 / 2 in
    if negb ((length nn =? length g)%nat && (length g =? length y)%nat)
    then (a, Raise (ValueError "operands could not be broadcast together"))
    else
      let above := above_mask nn g y bulk_nn half in
      let below := below_mask nn g y bulk_nn half in
      let a := set_array a "above" (BoolArray above) in
      let a := set_array a "below" (BoolArray below) in
      let x := map (fun p => vget p 0) (cl_positions a) in
      let bond1 := (let? xs := take_mask above x in
                    let? k := argmax xs in
                    item (nonzero above) k)%result in
      match bond1 with
      | Raise e => (a, Raise e)
      | Ok bond1 =>
          let bond2 := (let? xs := take_mask below x in
                        let? k := argmax xs in
                        item (nonzero below) k)%result in
          match bond2 with
          | Raise e => (a, Raise e)
          | Ok bond2 =>
              let a := set_info a "bond1" bond1 in
              let a := set_info a "bond2" bond2 in
              (a, Ok (bond1, bond2))
          end
      end
end.

End tip_coordination.

(** ** crack.py: [find_tip_stress_field] *)

Section find_tip.
Context `{External}.


End find_tip.

(** ** crack.py: [thin_strip_displacement_y] *)

(** [np.sign]. *)
Definition np_sign (x : R) : R :=
  if Rltb x 0 then -1 else if Rltb 0 x then 1 else 0.

(** [arr[mask] = values] for a boolean mask: the values go, in order, to
    the places where the mask holds. *)
Fixpoint put_mask (mask : list bool) (values arr : list R) : list R :=
  match mask, arr with
  | true :: mask, x :: arr =>
      match values with
      | v :: values => v :: put_mask mask values arr
      | [] => x :: arr
      end
  | false :: mask, x :: arr => x :: put_mask mask values arr
  | _, _ => arr
  end.

Definition setitem_mask (mask : list bool) (values arr : list R)
  : result (list R) :=
  let n := length (filter (fun b => Is_true b) mask) in
  if negb (length mask =? length arr)%nat
  then Raise (IndexError "boolean index did not match indexed array")
  else if (length values =? n)%nat then Ok (put_mask mask values arr)
  else match values with
       | [v] => Ok (put_mask mask (replicate n v) arr)
       | _ => Raise (ValueError "shape mismatch: value array could not be broadcast")
       end.

(** Return vertical displacement ramp used to apply initial strain to
    slab.  [x] and [y] are taken one-dimensional. *)
Definition thin_strip_displacement_y (x y : list R) (strain a b : R)
  : result (list R) :=
  (let u_y := map (fun _ => 0) y in
   let? hi := np_max y in
   let? lo := np_min y in
   let height := hi - lo in
   let shift := strain * height / 2 in
   (* region shift for x < a *)
   let left := map (fun xi => Rltb xi a) x in
   let? y_left := take_mask left y in
   let? u_y := setitem_mask left (map (fun yi => np_sign yi * shift) y_left)
                            u_y in
   (* constant strain for x > b *)
   let right := map (fun xi => Rgtb xi b) x in
   let? y_right := take_mask right y in
   let? u_y := setitem_mask right (map (fun yi => strain * yi) y_right) u_y in
   (* interpolate for a <= x <= b *)
   let middle := map (fun xi => Rgeb xi a && Rleb xi b) x in
   let? x_middle := take_mask middle x in
   let f := map (fun xi => (xi - a) / (b - a)) x_middle in
   let? y_middle := take_mask middle y in
   let? ramp := broadcast2 (fun fi yi => fi * strain * yi) f y_middle in
   let? rigid := broadcast2 (fun fi yi => (1 - fi) * shift * np_sign yi)
                            f y_middle in
   let? values := broadcast2 Rplus ramp rigid in
   setitem_mask middle values u_y)%result.

(** ** crack.py: [ConstantStrainRate] *)

Module ConstantStrainRate.

(** [mask] is [Ellipsis] (here [None]) unless one was given. *)
Record self_t : Type := mk_self {
  orig_height : R;
  delta_strain : R;
  mask : option (list bool)
}.

Definition __init__ (orig_height delta_strain : R)
  (mask : option (list bool)) : self_t :=
  mk_self orig_height delta_strain mask.

(** The body is [pass]. *)
Definition adjust_forces (self : self_t) (positions forces : list vec3)
  : list vec3 := forces.

(** [newpos] is rescaled in place; the result is its new content. *)
Definition adjust_positions (self : self_t) (oldpos newpos : list vec3)
  : result (list vec3) :=
  let y := map (fun p => vget p 1) newpos in
  (let? hi := np_max y in
   let? lo := np_min y in
   let current_height := hi - lo in
   let current_strain := current_height / orig_height self - 1 in
   let new_strain := current_strain + delta_strain self in
   let alpha := (1 + new_strain) / (1 + current_strain) in
   match mask self with
   | None => Ok (map (fun p => vset p 1 (vget p 1 * alpha)) newpos)
   | Some m =>
       let? ym := take_mask m y in
       let? y' := setitem_mask m (map (fun yi => yi * alpha) ym) y in
       Ok (zip_with (fun p yi => vset p 1 yi) newpos y')
   end)%result.

End ConstantStrainRate.

(** ** idealbrittlesolid.py: the elastic constants of [IdealBrittleSolid]

    The module binds [sys], [np], [interp1d], [ase], the ase classes it
    imports, [neighbour_list], [thin_strip_displacement_y] and
    [get_strain]; like crack.py it never binds [sqrt]. *)

Module IdealBrittleSolid.

Record parameters_t : Type := mk_parameters {
  a : R;      (* lattice constant *)
  rc : R;     (* cutoff *)
  k : R;      (* spring constant *)
  beta : R;   (* Kelvin dissipation *)
  b : R       (* Stokes dissipation *)
}.

Definition default_parameters : parameters_t :=
  {| a := 1.0; rc := 1.01; k := 1.0; beta := 0.01; b := 0.01 |}.

(** Return Lame constants lambda and mu. *)
Definition get_elastic_moduli (parameters : parameters_t) : R * R :=
  let k := k parameters in
  let a := a parameters in
  let lam := sqrt 3 / 2 * k / a in
  let mu := lam in
  (lam, mu).

Definition get_youngs_modulus_in (bound : option (R -> R))
  (parameters : parameters_t) : result R :=
  let k := k parameters in
  let a := a parameters in
  (let? sqrt := global_sqrt bound in
   Ok (5 * sqrt 3 / 4 * k / a))%result.

Definition get_youngs_modulus (parameters : parameters_t) : result R :=
  get_youngs_modulus_in None parameters.

Definition get_poisson_ratio (parameters : parameters_t) : R := 0.25.

End IdealBrittleSolid.

(** ** Further notions used in the statements *)

(** The ideal mode I displacement of the atom whose reference position
    is [(rx, ry)], for a crack tip at [(x0, y0)]: what
    [CubicCrystalCrack.displacements] computes entry by entry. *)
Definition displacement_at (c : RectilinearAnisotropicCrack.self_t)
  (x0 y0 k rx ry : R) : R * R :=
  let dx := rx - x0 in
  let dy := ry - y0 in
  RectilinearAnisotropicCrack.displacements c
    (sqrt (dx * dx + dy * dy)) (arctan2 dy dx) k.

(** The stress tensor seen after the reflection y -> -y: the shear
    components xy and yx change sign. *)
Definition reflect (T : mat3) : mat3 :=
  let T := mset T 0 1 (- mget T 0 1) in
  let T := mset T 1 0 (- mget T 1 0) in
  T.

(** The constant kappa of [isotropic_modeI_crack_tip_displacement_field]
    for the two stress states. *)
Definition kolosov (nu : R) (stress_state : string) (kappa : R) : Prop :=
  (stress_state = PLANE_STRAIN /\ kappa = 3 - 4 * nu)
  \/ (stress_state = PLANE_STRESS /\ kappa = (3 - nu) / (1 + nu)).

(** The displacement [thin_strip_displacement_y] leaves at an atom at
    [(xi, yi)] of a slab of the given height, following the three
    masked assignments in their order. *)
Definition strip_displacement_at (strain a b height xi yi : R) : R :=
  let shift := strain * height / 2 in
  let u := 0 in
  let u := if Rltb xi a then np_sign yi * shift else u in
  let u := if Rgtb xi b then strain * yi else u in
  let u := if Rgeb xi a && Rleb xi b
           then (xi - a) / (b - a) * strain * yi
                + (1 - (xi - a) / (b - a)) * shift * np_sign yi
           else u in
  u.

(** The strain of a configuration of original height [orig_height], as
    [get_strain] and [ConstantStrainRate.adjust_positions] compute it. *)
Definition strain_of (orig_height : R) (pos : list vec3) : result R :=
  let y := map (fun p => vget p 1) pos in
  (let? hi := np_max y in
   let? lo := np_min y in
   Ok ((hi - lo) / orig_height - 1))%result.

(** [n] successive calls of [adjust_positions] on the same array, one per
    step of the dynamics. *)
Fixpoint adjust_positions_steps (self : ConstantStrainRate.self_t) (n : nat)
  (oldpos newpos : list vec3) : result (list vec3) :=
  match n with
  | O => Ok newpos
  | S n =>
      (let? newpos := ConstantStrainRate.adjust_positions self oldpos newpos in
       adjust_positions_steps self n oldpos newpos)%result
  end.

(** Atom [i] is selected by [mask] and no selected atom has a larger
    coordinate [x]. *)
Definition rightmost (mask : list bool) (x : list R) (i : nat) : Prop :=
  mask !! i = Some true
  /\ exists xi, x !! i = Some xi
       /\ forall j xj, mask !! j = Some true -> x !! j = Some xj -> xj <= xi.

(** ** Further concrete inputs *)

(** A rotation about the z axis by the angle of the 3-4-5 triangle. *)
Definition rotation_345 : mat3 :=
  ((3 / 5, 4 / 5, 0), (- (4 / 5), 3 / 5, 0), (0, 0, 1)).

(** A strip of two atoms, 11 high, that records its original height and
    nothing else. *)
Definition unlabelled_strip : Atoms :=
  {| positions := [(0, 0, 0); (0, 11, 0)];
     cell := eye3;
     info := <["OrigHeight" := VFloat 10]> ∅;
     get_calculator := fun pos => map (fun _ => eye3) pos |}.
Definition unlabelled_strip_world : world :=
  {| atoms := unlabelled_strip; heap := ∅ |}.

(** A cluster of two under-coordinated atoms of group 1, one in each
    half of a cell 4 high, and a neighbour list that counts three
    neighbours for every atom. *)
Definition two_atom_cluster : Cluster :=
  {| cl_positions := [(1, 3, 0); (2, 1, 0)];
     cl_cell := ((4, 0, 0), (0, 4, 0), (0, 0, 4));
     cl_arrays := <["groups" := IntArray [1%Z; 1%Z]]> ∅;
     cl_info := ∅ |}.
Definition three_neighbours (bondlength : R) (a : Cluster) : list Z :=
  map (fun _ => 3%Z) (cl_positions a).

(** Two atoms, at x = 0 and x = 3, with an empty [info]. *)
Definition blank_pair : Atoms :=
  {| positions := [(0, 0, 0); (3, 4, 0)];
     cell := eye3;
     info := ∅;
     get_calculator := fun pos => map (fun _ => eye3) pos |}.
Definition blank_pair_world : world := {| atoms := blank_pair; heap := ∅ |}.

(** * Properties *)

(** ** Deciding comparisons *)

Lemma Rgtb_true (x y : R) : y < x -> Rgtb x y = true.
Proof. intros Hlt. unfold Rgtb. by apply bool_decide_eq_true_2. Qed.

Lemma Rgtb_false (x y : R) : x <= y -> Rgtb x y = false.
Proof. intros Hle. unfold Rgtb. apply bool_decide_eq_false_2. lra. Qed.

Lemma Rltb_true (x y : R) : x < y -> Rltb x y = true.
Proof. intros Hlt. unfold Rltb. by apply bool_decide_eq_true_2. Qed.

Lemma Rltb_false (x y : R) : y <= x -> Rltb x y = false.
Proof. intros Hle. unfold Rltb. apply bool_decide_eq_false_2. lra. Qed.

(** Equality of two lists of floats, entry by entry. *)
Ltac list_ring :=
  repeat (apply (f_equal2 cons); [ring |]); try reflexivity.

Lemma np_sum_3 (x y z : R) : np_sum [x; y; z] = x + y + z.
Proof. unfold np_sum. simpl. ring. Qed.

Lemma np_dot_unfold (u v : vec3) :
  np_dot u v = vget u 0 * vget v 0 + vget u 1 * vget v 1 + vget u 2 * vget v 2.
Proof. unfold np_dot, vsum, vmul. simpl. apply np_sum_3. Qed.

(** ** The orthonormality check of [rotate] *)

Section rotation_check.
Import CubicElasticModuli.

Lemma not_a_rotation_false (A : mat3) :
  accepted A -> not_a_rotation A = false.
Proof.
  intros Hacc. unfold not_a_rotation, range3. simpl.
  rewrite !Rgtb_false; [done | apply Hacc; lia ..].
Qed.

Lemma not_a_rotation_true (A : mat3) (i j : nat) :
  (i < 3)%nat -> (j < 3)%nat ->
  tol < Rabs (dot_AAt A i j - eye i j) -> not_a_rotation A = true.
Proof.
  intros Hi Hj Hgt. unfold not_a_rotation.
  apply existsb_exists. exists i. split.
  - unfold range3. apply list_elem_of_In. rewrite !elem_of_cons. lia.
  - apply existsb_exists. exists j. split.
    + unfold range3. apply list_elem_of_In. rewrite !elem_of_cons. lia.
    + by apply Rgtb_true.
Qed.

Lemma orthonormal_accepted (A : mat3) : orthonormal A -> accepted A.
Proof.
  intros Ho i j Hi Hj. rewrite (Ho i j Hi Hj).
  replace (eye i j - eye i j) with 0 by ring.
  rewrite Rabs_R0. unfold tol. lra.
Qed.

Lemma eye3_orthonormal : orthonormal eye3.
Proof.
  intros i j Hi Hj. unfold dot_AAt, eye. rewrite np_dot_unfold.
  destruct i as [|[|[|i]]]; try lia;
    destruct j as [|[|[|j]]]; try lia; cbn; ring.
Qed.

End rotation_check.

(** ** Rotation of the cubic constants *)

Section rotate_facts.
Import CubicElasticModuli.

(** The full contraction of the unrotated tensor against four rows
    [u], [v], [w], [z] of the orientation, in closed form. *)
Lemma einsum_rows (self : self_t) (A : mat3) (i j k l : nat) :
  einsum A (unrotated self) i j k l
  = la self * (dot_AAt A i j * dot_AAt A k l)
    + mu self * (dot_AAt A i k * dot_AAt A j l
                 + dot_AAt A i l * dot_AAt A j k)
    + al self * vsum (vmul (vmul (vmul (row A i) (row A j)) (row A k))
                           (row A l)).
Proof.
  unfold einsum, dot_AAt, mget. rewrite !np_dot_unfold.
  unfold vsum. rewrite np_sum_3.
  generalize (row A i) (row A j) (row A k) (row A l).
  intros [[u0 u1] u2] [[v0 v1] v2] [[w0 w1] w2] [[z0 z1] z2].
  unfold np_sum, unrotated, isotropic_part, range3. cbn. ring.
Qed.

(** The isotropic part is the same combination of Kronecker deltas. *)
Lemma isotropic_part_eye (self : self_t) (i j k m : nat) :
  (i < 3)%nat -> (j < 3)%nat -> (k < 3)%nat -> (m < 3)%nat ->
  isotropic_part self i j k m
  = la self * (eye i j * eye k m)
    + mu self * (eye i k * eye j m + eye i m * eye j k).
Proof.
  intros Hi Hj Hk Hm. unfold isotropic_part, eye.
  destruct i as [|[|[|i]]]; try lia;
    destruct j as [|[|[|j]]]; try lia;
    destruct k as [|[|[|k]]]; try lia;
    destruct m as [|[|[|m]]]; try lia; cbn; ring.
Qed.

Lemma t_in_range (i j k m : nat) :
  (i, j, k, m) ∈ t -> (i < 3)%nat /\ (j < 3)%nat /\ (k < 3)%nat /\ (m < 3)%nat.
Proof.
  unfold t. rewrite !elem_of_cons, elem_of_nil.
  intros Hin. repeat destruct Hin as [Hin | Hin]; try done;
    injection Hin as -> -> -> ->; lia.
Qed.

End rotate_facts.

Lemma rotate_eye3 (self : CubicElasticModuli.self_t) :
  CubicElasticModuli.rotate self eye3
  = Ok (CubicElasticModuli.store_rot self
          (let c11 := CubicElasticModuli.la self + 2 * CubicElasticModuli.mu self
                      + CubicElasticModuli.al self in
           let c12 := CubicElasticModuli.la self in
           let c44 := CubicElasticModuli.mu self in
           [c11; c11; c11; c12; c12; c12; c44; c44; c44])).
Proof.
  unfold CubicElasticModuli.rotate.
  rewrite not_a_rotation_false
    by (apply orthonormal_accepted, eye3_orthonormal).
  unfold CubicElasticModuli.t, CubicElasticModuli.isotropic_part, vsum.
  cbn [map Nat.eqb andb row vmul vget eye3].
  rewrite !np_sum_3. do 2 f_equal. list_ring.
Qed.

Lemma init_fresh_moduli (c11 c12 c44 : R) :
  CubicElasticModuli.__init__ c11 c12 c44 = Ok (fresh_moduli c11 c12 c44).
Proof.
  unfold CubicElasticModuli.__init__. cbn zeta. rewrite rotate_eye3.
  cbn. replace (c12 + 2 * c44 + (c11 - c12 - 2 * c44)) with c11 by ring.
  reflexivity.
Qed.

(** ** The identity rotation, float by float *)

Section binary64_facts.
Import Floats.

Lemma SFeqb_finite_refl (s : bool) (m : positive) (e : Z) :
  SFeqb (S754_finite s m e) (S754_finite s m e) = true.
Proof.
  unfold SFeqb, SFcompare. rewrite Z.compare_refl, Pos.compare_cont_refl.
  by destruct s.
Qed.

Lemma unrotated_slot (x al : float) :
  Binary64.finite x -> Binary64.finite al ->
  ((0 + x + al * 0) =? x)%float = true.
Proof.
  unfold Binary64.finite. intros Hx Hal.
  rewrite eqb_spec, !add_spec, mul_spec.
  change (Prim2SF 0) with (S754_zero false).
  destruct (Prim2SF x) as [sx | sx | | sx mx ex]; try done;
    destruct (Prim2SF al) as [sa | sa | | sa ma ea]; try done.
  - by destruct sx, sa.
  - by destruct sx, sa.
  - cbn. apply SFeqb_finite_refl.
  - cbn. apply SFeqb_finite_refl.
Qed.

Ltac eval_np_sum :=
  repeat match goal with
         | |- context [Binary64.np_sum ?l] =>
             let v := eval vm_compute in (Binary64.np_sum l) in
             change (Binary64.np_sum l) with v
         end.

Lemma rotate_eye3_binary64 (self : Binary64.self_t) :
  Binary64.rotate self Binary64.eye3
  = Ok (Binary64.store_rot self
          (let c11 := (0 + Binary64.la self + Binary64.mu self
                       + Binary64.mu self + Binary64.al self * 1)%float in
           let c12 := (0 + Binary64.la self + Binary64.al self * 0)%float in
           let c44 := (0 + Binary64.mu self + Binary64.al self * 0)%float in
           [c11; c11; c11; c12; c12; c12; c44; c44; c44])).
Proof.
  unfold Binary64.rotate.
  assert (Hrot : Binary64.not_a_rotation Binary64.eye3 = false)
    by (vm_compute; reflexivity).
  rewrite Hrot.
  unfold CubicElasticModuli.t, Binary64.isotropic_part, Binary64.vsum.
  cbn [map Nat.eqb andb Binary64.row Binary64.vmul Binary64.vget Binary64.eye3].
  eval_np_sum. reflexivity.
Qed.

(** C7, as amended. On binary64 numbers, for finite C12 and C44 and a
    finite anisotropy C11 - C12 - 2 C44, the constructor succeeds and
    [rotate] with the 3x3 identity matrix returns the instance
    unchanged, with every entry of [C12_rot] equal to C12 and every
    entry of [C44_rot] equal to C44 (as floats compare), and with
    every entry of [C11_rot] the rounded sum
    0.0 + C12 + C44 + C44 + (C11 - C12 - 2 C44) * 1.0.  In exact
    arithmetic that sum is C11: over the reals the three arrays are
    C11, C12 and C44 in every entry. *)
Theorem rotate_identity (c11 c12 c44 : float) :
  Binary64.finite c12 -> Binary64.finite c44 ->
  Binary64.finite (c11 - c12 - 2 * c44)%float ->
  (exists self r11 r12 r44,
     Binary64.__init__ c11 c12 c44 = Ok self
     /\ Binary64.rotate self Binary64.eye3 = Ok (self, (r11, r12, r44))
     /\ r11 = replicate 3
                (0 + c12 + c44 + c44 + (c11 - c12 - 2 * c44) * 1)%float
     /\ length r12 = 3%nat
     /\ Forall (fun v => (v =? c12)%float = true) r12
     /\ length r44 = 3%nat
     /\ Forall (fun v => (v =? c44)%float = true) r44)
  /\ (forall C11 C12 C44 : R,
      exists self,
        CubicElasticModuli.__init__ C11 C12 C44 = Ok self
        /\ CubicElasticModuli.rotate self eye3
           = Ok (self, ([C11; C11; C11], [C12; C12; C12], [C44; C44; C44]))
        /\ CubicElasticModuli.stiffness self
           = ([C11; C11; C11], [C12; C12; C12], [C44; C44; C44])).
Proof.
  intros H12 H44 Hal. split.
  - unfold Binary64.__init__. cbn zeta. rewrite rotate_eye3_binary64.
    cbn [rbind Binary64.store_rot]. do 4 eexists.
    split; [reflexivity |]. rewrite rotate_eye3_binary64.
    split; [reflexivity |].
    cbn. split; [reflexivity |].
    split; [reflexivity |]. split; [| split; [reflexivity |]].
    + repeat constructor; by apply unrotated_slot.
    + repeat constructor; by apply unrotated_slot.
  - intros C11 C12 C44. exists (fresh_moduli C11 C12 C44). split; [| split].
    + apply init_fresh_moduli.
    + rewrite rotate_eye3. unfold fresh_moduli. cbn.
      replace (C12 + 2 * C44 + (C11 - C12 - 2 * C44))%R with C11 by ring.
      reflexivity.
    + reflexivity.
Qed.

Lemma rotate_identity_witness :
  exists self r11 r12 r44,
    Binary64.__init__ 0x1.999999999999ap-4 0x1.999999999999ap-3
      0x1.3333333333333p-2 = Ok self
    /\ Binary64.rotate self Binary64.eye3 = Ok (self, (r11, r12, r44))
    /\ r11 = replicate 3 0x1.99999999999ap-4%float
    /\ length r12 = 3%nat
    /\ Forall (fun v => (v =? 0x1.999999999999ap-3)%float = true) r12
    /\ length r44 = 3%nat
    /\ Forall (fun v => (v =? 0x1.3333333333333p-2)%float = true) r44.
Proof.
  assert (H12 : Binary64.finite 0x1.999999999999ap-3) by (vm_compute; exact I).
  assert (H44 : Binary64.finite 0x1.3333333333333p-2) by (vm_compute; exact I).
  assert (Hal : Binary64.finite (0x1.999999999999ap-4 - 0x1.999999999999ap-3
                                 - 2 * 0x1.3333333333333p-2)%float)
    by (vm_compute; exact I).
  exact (proj1 (rotate_identity 0x1.999999999999ap-4 0x1.999999999999ap-3
                  0x1.3333333333333p-2 H12 H44 Hal)).
Defined.

(** C7, counterexample. For C11 = 0.1, C12 = 0.2, C44 = 0.3 every
    entry of [C11_rot] is 0.10000000000000009, which is not the float
    0.1. *)
Lemma rotate_identity_rounds_C11 :
  (let? self := Binary64.__init__ 0x1.999999999999ap-4 0x1.999999999999ap-3
                  0x1.3333333333333p-2 in
   let? (_, r) := Binary64.rotate self Binary64.eye3 in
   Ok (fst (fst r)))%result
  = Ok (replicate 3 0x1.99999999999ap-4%float)
  /\ (0x1.99999999999ap-4 =? 0x1.999999999999ap-4)%float = false.
Proof. split; vm_compute; reflexivity. Qed.

End binary64_facts.

(** ** Closed form against the explicit contraction *)

Lemma rotate_accepted (self : CubicElasticModuli.self_t) (A : mat3) :
  accepted A ->
  CubicElasticModuli.rotate self A
  = Ok (CubicElasticModuli.store_rot self
          (map (fun '(i, j, k, m) =>
                  CubicElasticModuli.isotropic_part self i j k m
                  + CubicElasticModuli.al self
                    * vsum (vmul (vmul (vmul (row A i) (row A j)) (row A k))
                                 (row A m)))
               CubicElasticModuli.t)).
Proof.
  intros Hacc. unfold CubicElasticModuli.rotate.
  by rewrite not_a_rotation_false.
Qed.

Lemma rotate_explicit_accepted (self : CubicElasticModuli.self_t) (A : mat3) :
  accepted A ->
  CubicElasticModuli._rotate_explicit self A
  = Ok (CubicElasticModuli.store_rot self
          (map (fun '(i, j, k, m) =>
                  CubicElasticModuli.einsum A
                    (CubicElasticModuli.unrotated self) i j k m)
               CubicElasticModuli.t)).
Proof.
  intros Hacc. unfold CubicElasticModuli._rotate_explicit.
  by rewrite not_a_rotation_false.
Qed.

Lemma eye_bounded (i j : nat) : (i < 3)%nat -> (j < 3)%nat -> Rabs (eye i j) <= 1.
Proof.
  intros Hi Hj. unfold eye.
  destruct i as [|[|[|i]]]; try lia;
    destruct j as [|[|[|j]]]; try lia; cbn;
    rewrite ?Rabs_R0, ?Rabs_R1; lra.
Qed.

Lemma product_deviation (g1 g2 d1 d2 eps : R) :
  Rabs (g1 - d1) <= eps -> Rabs (g2 - d2) <= eps ->
  Rabs d1 <= 1 -> Rabs d2 <= 1 ->
  Rabs (g1 * g2 - d1 * d2) <= 2 * eps + eps * eps.
Proof.
  intros H1 H2 Hd1 Hd2.
  replace (g1 * g2 - d1 * d2)
    with ((g1 - d1) * (g2 - d2) + (d1 * (g2 - d2) + d2 * (g1 - d1))) by ring.
  eapply Rle_trans; [apply Rabs_triang |].
  eapply Rle_trans;
    [apply Rplus_le_compat_l, Rabs_triang |].
  rewrite !Rabs_mult.
  pose proof (Rabs_pos (g1 - d1)). pose proof (Rabs_pos (g2 - d2)).
  pose proof (Rabs_pos d1). pose proof (Rabs_pos d2).
  nra.
Qed.

Lemma slot_deviation (self : CubicElasticModuli.self_t) (A : mat3) (eps : R)
  (i j k m : nat) :
  near_orthonormal eps A ->
  (i < 3)%nat -> (j < 3)%nat -> (k < 3)%nat -> (m < 3)%nat ->
  Rabs (CubicElasticModuli.isotropic_part self i j k m
        + CubicElasticModuli.al self
          * vsum (vmul (vmul (vmul (row A i) (row A j)) (row A k)) (row A m))
        - CubicElasticModuli.einsum A (CubicElasticModuli.unrotated self)
            i j k m)
  <= (Rabs (CubicElasticModuli.la self) + 2 * Rabs (CubicElasticModuli.mu self))
     * (2 * eps + eps * eps).
Proof.
  intros Hnear Hi Hj Hk Hm. rewrite einsum_rows, isotropic_part_eye by done.
  set (B := 2 * eps + eps * eps).
  assert (Hdev : forall a b c d, (a < 3)%nat -> (b < 3)%nat -> (c < 3)%nat ->
            (d < 3)%nat ->
            Rabs (dot_AAt A a b * dot_AAt A c d - eye a b * eye c d) <= B).
  { intros a b c d Ha Hb Hc Hd.
    apply product_deviation; auto using eye_bounded. }
  pose proof (Hdev i j k m Hi Hj Hk Hm) as Hx.
  pose proof (Hdev i k j m Hi Hk Hj Hm) as Hy.
  pose proof (Hdev i m j k Hi Hm Hj Hk) as Hz.
  match goal with
  | |- Rabs ?e <= _ =>
      replace e with
        (- (CubicElasticModuli.la self
            * (dot_AAt A i j * dot_AAt A k m - eye i j * eye k m))
         - CubicElasticModuli.mu self
           * ((dot_AAt A i k * dot_AAt A j m - eye i k * eye j m)
              + (dot_AAt A i m * dot_AAt A j k - eye i m * eye j k))) by ring
  end.
  unfold Rminus at 1.
  eapply Rle_trans; [apply Rabs_triang |].
  rewrite !Rabs_Ropp, !Rabs_mult.
  assert (Hyz : Rabs (dot_AAt A i k * dot_AAt A j m - eye i k * eye j m
                      + (dot_AAt A i m * dot_AAt A j k - eye i m * eye j k))
                <= 2 * B)
    by (eapply Rle_trans; [apply Rabs_triang | lra]).
  pose proof (Rabs_pos (CubicElasticModuli.la self)).
  pose proof (Rabs_pos (CubicElasticModuli.mu self)).
  pose proof (Rabs_pos (dot_AAt A i j * dot_AAt A k m - eye i j * eye k m)).
  pose proof (Rabs_pos (dot_AAt A i k * dot_AAt A j m - eye i k * eye j m
                      + (dot_AAt A i m * dot_AAt A j k - eye i m * eye j k))).
  nra.
Qed.

Lemma near_orthonormal_0 (A : mat3) : near_orthonormal 0 A -> orthonormal A.
Proof.
  intros Hnear i j Hi Hj. specialize (Hnear i j Hi Hj).
  pose proof (Rabs_pos (dot_AAt A i j - eye i j)) as Hpos.
  assert (Hzero : Rabs (dot_AAt A i j - eye i j) = 0) by lra.
  destruct (Req_dec (dot_AAt A i j - eye i j) 0) as [Heq | Hne]; [lra |].
  by apply Rabs_no_R0 in Hne.
Qed.

Lemma near_orthonormal_mono (eps eps' : R) (A : mat3) :
  eps <= eps' -> near_orthonormal eps A -> near_orthonormal eps' A.
Proof. intros Hle Hnear i j Hi Hj. specialize (Hnear i j Hi Hj). lra. Qed.

Lemma rotate_explicit_orthonormal
  (self : CubicElasticModuli.self_t) (A : mat3) :
  orthonormal A ->
  CubicElasticModuli.rotate self A = CubicElasticModuli._rotate_explicit self A.
Proof.
  intros Ho. pose proof (orthonormal_accepted A Ho) as Hacc.
  rewrite rotate_accepted, rotate_explicit_accepted by done. do 2 f_equal.
  apply map_ext_in. intros [[[i j] k] m] Hin.
  apply list_elem_of_In, t_in_range in Hin as (Hi & Hj & Hk & Hm).
  rewrite einsum_rows, isotropic_part_eye by done.
  rewrite !Ho by done. reflexivity.
Qed.

(** C6, as amended. For every cubic material and every orientation
    matrix [A] accepted by the orthonormality check, the closed-form
    [rotate] and the brute-force [_rotate_explicit] both succeed, and
    their nine rotated constants agree in every entry to within
    (|la| + 2 |mu|) (2 eps + eps^2), where [la = C12], [mu = C44] and
    [eps <= 1e-6] bounds the entries of [A . A^T - I]; for an exactly
    orthonormal [A] ([eps = 0]) they return the same constants. *)
Theorem rotate_agrees_with_explicit
  (self : CubicElasticModuli.self_t) (A : mat3) (eps : R) :
  0 <= eps <= CubicElasticModuli.tol ->
  near_orthonormal eps A ->
  exists r1 r2,
    CubicElasticModuli.rotate self A = Ok r1
    /\ CubicElasticModuli._rotate_explicit self A = Ok r2
    /\ length (nine (snd r1)) = 9%nat /\ length (nine (snd r2)) = 9%nat
    /\ (forall n, (n < 9)%nat ->
        Rabs (nth n (nine (snd r1)) 0 - nth n (nine (snd r2)) 0)
        <= (Rabs (CubicElasticModuli.la self)
            + 2 * Rabs (CubicElasticModuli.mu self))
           * (2 * eps + eps * eps))
    /\ (eps = 0 -> r1 = r2).
Proof.
  intros [Heps Htol] Hnear.
  assert (Hacc : accepted A) by (by eapply near_orthonormal_mono).
  do 2 eexists. split; [by apply rotate_accepted |].
  split; [by apply rotate_explicit_accepted |].
  split; [reflexivity |]. split; [reflexivity |]. split.
  - intros n Hn.
    unfold nine, CubicElasticModuli.store_rot, CubicElasticModuli.slice,
      CubicElasticModuli.t.
    cbn [map firstn skipn app Nat.sub fst snd].
    do 9 (destruct n as [| n];
          [cbn [nth]; apply (slot_deviation self A eps); (done || lia) |]).
    lia.
  - intros ->. apply near_orthonormal_0 in Hnear.
    pose proof (rotate_explicit_orthonormal self A Hnear) as Hsame.
    rewrite rotate_accepted, rotate_explicit_accepted in Hsame by done.
    congruence.
Qed.

Lemma stretched_accepted : accepted stretched.
Proof.
  intros i j Hi Hj. unfold dot_AAt, eye, CubicElasticModuli.tol.
  rewrite np_dot_unfold.
  destruct i as [|[|[|i]]]; try lia;
    destruct j as [|[|[|j]]]; try lia; cbn;
    apply Rabs_le; lra.
Qed.

Lemma rotate_agrees_with_explicit_witness :
  0 <= CubicElasticModuli.tol <= CubicElasticModuli.tol
  /\ near_orthonormal CubicElasticModuli.tol stretched
  /\ exists r1 r2,
       CubicElasticModuli.rotate (fresh_moduli 166 65 77) stretched = Ok r1
       /\ CubicElasticModuli._rotate_explicit (fresh_moduli 166 65 77)
            stretched = Ok r2
       /\ forall n, (n < 9)%nat ->
          Rabs (nth n (nine (snd r1)) 0 - nth n (nine (snd r2)) 0)
          <= (Rabs 65 + 2 * Rabs 77)
             * (2 * CubicElasticModuli.tol
                + CubicElasticModuli.tol * CubicElasticModuli.tol).
Proof.
  assert (Htol : 0 <= CubicElasticModuli.tol <= CubicElasticModuli.tol)
    by (unfold CubicElasticModuli.tol; lra).
  split; [exact Htol |]. split; [exact stretched_accepted |].
  destruct (rotate_agrees_with_explicit (fresh_moduli 166 65 77) stretched
              CubicElasticModuli.tol Htol stretched_accepted)
    as (r1 & r2 & H1 & H2 & _ & _ & Hdev & _).
  exists r1, r2. repeat split; assumption.
Defined.

(** C6, counterexample. For C11 = 166, C12 = 65, C44 = 77 the matrix
    [stretched] passes the orthonormality check, both routes succeed, and
    their first [C11_rot] entries differ by more than 1e-6. *)
Lemma rotate_differs_from_explicit :
  exists r1 r2,
    CubicElasticModuli.rotate (fresh_moduli 166 65 77) stretched = Ok r1
    /\ CubicElasticModuli._rotate_explicit (fresh_moduli 166 65 77) stretched
       = Ok r2
    /\ CubicElasticModuli.__init__ 166 65 77 = Ok (fresh_moduli 166 65 77)
    /\ 1 / 1000000
       < Rabs (nth 0 (fst (fst (snd r1))) 0 - nth 0 (fst (fst (snd r2))) 0).
Proof.
  do 2 eexists. split; [| split; [| split]].
  - apply rotate_accepted, stretched_accepted.
  - apply rotate_explicit_accepted, stretched_accepted.
  - apply init_fresh_moduli.
  - cbn [CubicElasticModuli.store_rot CubicElasticModuli.slice snd fst
         CubicElasticModuli.t map firstn skipn Nat.sub nth].
    rewrite einsum_rows. unfold dot_AAt. rewrite !np_dot_unfold.
    unfold vsum. rewrite np_sum_3.
    unfold CubicElasticModuli.isotropic_part. cbn.
    rewrite <- Rabs_Ropp. apply Rlt_le_trans with (2 := Rle_abs _). lra.
Qed.

(** ** The orientation assembled by [CubicCrystalCrack.__init__] *)

Lemma np_dot_vdiv (u v : vec3) (a b : R) :
  a <> 0 -> b <> 0 -> np_dot (vdiv u a) (vdiv v b) = np_dot u v / (a * b).
Proof.
  intros Ha Hb. rewrite !np_dot_unfold. destruct u as [[u0 u1] u2], v as [[v0 v1] v2].
  cbn. field. done.
Qed.

Lemma np_dot_vneg_l (u v : vec3) : np_dot (vneg u) v = - np_dot u v.
Proof.
  rewrite !np_dot_unfold. destruct u as [[u0 u1] u2], v as [[v0 v1] v2]. cbn. ring.
Qed.

Lemma np_dot_comm (u v : vec3) : np_dot u v = np_dot v u.
Proof.
  rewrite !np_dot_unfold. destruct u as [[u0 u1] u2], v as [[v0 v1] v2]. cbn. ring.
Qed.

Lemma np_dot_cross_l (u v : vec3) : np_dot (np_cross u v) u = 0.
Proof.
  rewrite !np_dot_unfold. destruct u as [[u0 u1] u2], v as [[v0 v1] v2]. cbn. ring.
Qed.

Lemma np_dot_cross_r (u v : vec3) : np_dot (np_cross u v) v = 0.
Proof.
  rewrite !np_dot_unfold. destruct u as [[u0 u1] u2], v as [[v0 v1] v2]. cbn. ring.
Qed.

Lemma lagrange_identity (u v : vec3) :
  np_dot (np_cross u v) (np_cross u v)
  = np_dot u u * np_dot v v - np_dot u v * np_dot u v.
Proof.
  rewrite !np_dot_unfold. destruct u as [[u0 u1] u2], v as [[v0 v1] v2]. cbn. ring.
Qed.

Lemma np_dot_self_pos (u : vec3) : u <> (0, 0, 0) -> 0 < np_dot u u.
Proof.
  intros Hne. rewrite np_dot_unfold. destruct u as [[u0 u1] u2]. cbn.
  destruct (Req_dec u0 0) as [-> | H0]; [| nra].
  destruct (Req_dec u1 0) as [-> | H1]; [| nra].
  destruct (Req_dec u2 0) as [-> | H2]; [| nra].
  done.
Qed.

Lemma orientation_orthonormal (s f : vec3) :
  s <> (0, 0, 0) -> f <> (0, 0, 0) -> np_dot s f = 0 ->
  orthonormal (CubicCrystalCrack.orientation s f).
Proof.
  intros Hs Hf Hsf.
  pose proof (np_dot_self_pos s Hs) as Hss.
  pose proof (np_dot_self_pos f Hf) as Hff.
  assert (Hcc : 0 < np_dot (np_cross s f) (np_cross s f)).
  { rewrite lagrange_identity, Hsf. nra. }
  pose proof (sqrt_lt_R0 _ Hss) as Hns.
  pose proof (sqrt_lt_R0 _ Hff) as Hnf.
  pose proof (sqrt_lt_R0 _ Hcc) as Hnc.
  pose proof (sqrt_sqrt _ (Rlt_le _ _ Hss)) as Hns2.
  pose proof (sqrt_sqrt _ (Rlt_le _ _ Hff)) as Hnf2.
  pose proof (sqrt_sqrt _ (Rlt_le _ _ Hcc)) as Hnc2.
  unfold CubicCrystalCrack.orientation. cbn zeta.
  set (ns := sqrt (np_dot s s)) in *.
  set (nf := sqrt (np_dot f f)) in *.
  set (nc := sqrt (np_dot (np_cross s f) (np_cross s f))) in *.
  set (A := (vdiv (np_cross s f) nc, vdiv s ns, vdiv f nf)).
  assert (Hne : ns <> 0 /\ nf <> 0 /\ nc <> 0) by lra.
  destruct Hne as (Hns0 & Hnf0 & Hnc0).
  intros i j Hi Hj. unfold dot_AAt, eye.
  destruct (Rltb (np_linalg_det A) 0);
  destruct i as [|[|[|i]]]; try lia;
    destruct j as [|[|[|j]]]; try lia;
    cbn [row mget eye3 vget];
    rewrite ?np_dot_vneg_l, ?(np_dot_comm _ (vneg _)), ?np_dot_vneg_l,
      ?np_dot_vdiv by done;
    rewrite ?np_dot_cross_l, ?np_dot_cross_r, ?(np_dot_comm s (np_cross s f)),
      ?(np_dot_comm f (np_cross s f)), ?np_dot_cross_l, ?np_dot_cross_r,
      ?(np_dot_comm f s), ?Hsf, ?Hns2, ?Hnf2, ?Hnc2;
    try (field; done).
  all: rewrite ?Ropp_involutive; field; lra.
Qed.

(** The constructor up to the point where it branches on the check of
    [rotate]. *)
Lemma crystal_crack_init_cases `{External} (C11 C12 C44 : R)
  (crack_surface crack_front : vec3) (stress_state : string) :
  CubicCrystalCrack.__init__ C11 C12 C44 crack_surface crack_front stress_state
  = if CubicElasticModuli.not_a_rotation
         (CubicCrystalCrack.orientation crack_surface crack_front)
    then Raise (RuntimeError "Matrix *A* does not describe a rotation.")
    else Raise NotImplementedError.
Proof.
  unfold CubicCrystalCrack.__init__. rewrite init_fresh_moduli. cbn [rbind].
  unfold CubicElasticModuli.rotate.
  destruct (CubicElasticModuli.not_a_rotation _); reflexivity.
Qed.

(** C1, as amended. For every choice of elastic constants, crack_surface
    and crack_front vectors and stress_state, constructing
    [CubicCrystalCrack] raises and never yields an instance: it raises
    the [RuntimeError] of [rotate] when the frame assembled from the two
    vectors fails the orthonormality check, and [NotImplementedError]
    (from [compliance]) otherwise; in particular it raises
    [NotImplementedError] whenever crack_surface and crack_front are
    non-zero and perpendicular. *)
Theorem crystal_crack_never_constructed `{External} (C11 C12 C44 : R)
  (crack_surface crack_front : vec3) (stress_state : string) :
  let made := CubicCrystalCrack.__init__ C11 C12 C44 crack_surface
                crack_front stress_state in
  made = (if CubicElasticModuli.not_a_rotation
               (CubicCrystalCrack.orientation crack_surface crack_front)
          then Raise (RuntimeError "Matrix *A* does not describe a rotation.")
          else Raise NotImplementedError)
  /\ (forall instance, made <> Ok instance)
  /\ (crack_surface <> (0, 0, 0) -> crack_front <> (0, 0, 0) ->
      np_dot crack_surface crack_front = 0 ->
      made = Raise NotImplementedError).
Proof.
  cbn zeta. rewrite crystal_crack_init_cases. split; [done |]. split.
  - intros instance. by destruct (CubicElasticModuli.not_a_rotation _).
  - intros Hs Hf Hsf.
    rewrite not_a_rotation_false; [done |].
    by apply orthonormal_accepted, orientation_orthonormal.
Qed.

Lemma crystal_crack_never_constructed_witness :
  ((0, 1, 0) : vec3) <> (0, 0, 0) /\ ((0, 0, 1) : vec3) <> (0, 0, 0)
  /\ np_dot (0, 1, 0) (0, 0, 1) = 0
  /\ @CubicCrystalCrack.__init__ gives_up 166 65 77 (0, 1, 0) (0, 0, 1)
       PLANE_STRAIN
     = Raise NotImplementedError.
Proof.
  assert (H1 : ((0, 1, 0) : vec3) <> (0, 0, 0)) by (intros [=]; lra).
  assert (H2 : ((0, 0, 1) : vec3) <> (0, 0, 0)) by (intros [=]; lra).
  assert (H3 : np_dot (0, 1, 0) (0, 0, 1) = 0)
    by (rewrite np_dot_unfold; cbn; ring).
  repeat split; try assumption.
  exact (proj2 (proj2 (@crystal_crack_never_constructed gives_up 166 65 77
                         (0, 1, 0) (0, 0, 1) PLANE_STRAIN)) H1 H2 H3).
Defined.

Lemma sqrt_2_lt_2 : sqrt 2 < 2.
Proof.
  rewrite <- (sqrt_square 2) at 2 by lra. apply sqrt_lt_1; lra.
Qed.

(** C1, counterexample. With crack_surface = [1,0,0] and crack_front =
    [1,1,0], which are not perpendicular, the constructor raises the
    [RuntimeError] of [rotate] and not [NotImplementedError]. *)
Lemma crystal_crack_rotation_error :
  @CubicCrystalCrack.__init__ gives_up 166 65 77 (1, 0, 0) (1, 1, 0)
    PLANE_STRAIN
  = Raise (RuntimeError "Matrix *A* does not describe a rotation.")
  /\ @CubicCrystalCrack.__init__ gives_up 166 65 77 (1, 0, 0) (1, 1, 0)
       PLANE_STRAIN
     <> Raise NotImplementedError.
Proof.
  assert (Hrun :
    @CubicCrystalCrack.__init__ gives_up 166 65 77 (1, 0, 0) (1, 1, 0)
      PLANE_STRAIN
    = Raise (RuntimeError "Matrix *A* does not describe a rotation.")).
  { rewrite crystal_crack_init_cases.
    rewrite (not_a_rotation_true _ 1 2); [done | lia | lia |].
    unfold CubicCrystalCrack.orientation. cbn zeta.
    destruct (Rltb _ 0); unfold dot_AAt, eye; cbn [row mget eye3 vget];
      rewrite !np_dot_unfold; cbn [vdiv vget];
      replace (1 * 1 + 0 * 0 + 0 * 0) with 1 by ring;
      replace (1 * 1 + 1 * 1 + 0 * 0) with 2 by ring;
      rewrite sqrt_1; pose proof sqrt_2_lt_2;
      assert (0 < sqrt 2) by (apply sqrt_lt_R0; lra);
      assert (Hinv : / 2 < / sqrt 2) by (apply Rinv_lt_contravar; nra);
      unfold CubicElasticModuli.tol;
      apply Rlt_le_trans with (2 := Rle_abs _);
      unfold Rdiv; rewrite Rinv_1; lra. }
  split; [exact Hrun |]. rewrite Hrun. discriminate.
Qed.

(** ** The rectilinear anisotropic crack *)

Lemma init_crack_paired `{External} (a11 a22 a12 a16 a26 a66 : R)
  (r1 r2 r3 r4 : complex) :
  poly1d_r [a11; -2 * a16; 2 * a12 + a66; -2 * a26; a22] = [r1; r2; r3; r4] ->
  r1 = conjugate r2 -> r3 = conjugate r4 ->
  exists c,
    RectilinearAnisotropicCrack._init_crack a11 a22 a12 a16 a26 a66 = Ok c
    /\ RectilinearAnisotropicCrack.mu1 c = r1
    /\ RectilinearAnisotropicCrack.mu2 c = r3
    /\ RectilinearAnisotropicCrack.a22 c = a22.
Proof.
  intros Hroots H12 H34. unfold RectilinearAnisotropicCrack._init_crack.
  rewrite Hroots.
  rewrite !bool_decide_eq_false_2 by (intros Hne; by apply Hne).
  eexists. split; [reflexivity |]. by repeat split.
Qed.

Lemma length_trim_zeros (c : list R) : (length (trim_zeros c) <= length c)%nat.
Proof.
  induction c as [| x c IH]; [done |].
  cbn [trim_zeros]. case_bool_decide; cbn [length]; lia.
Qed.

Lemma degree_quartic (a b c d e : R) : a <> 0 -> degree [a; b; c; d; e] = 4%nat.
Proof.
  intros Ha. unfold degree. cbn [trim_zeros].
  by rewrite bool_decide_eq_false_2.
Qed.

Lemma degree_below_quartic (b c d e : R) :
  (degree [0%R; b; c; d; e] <= 3)%nat.
Proof.
  pose proof (length_trim_zeros [b; c; d; e]) as Hlen. cbn [length] in Hlen.
  unfold degree.
  change (trim_zeros [0; b; c; d; e])
    with (if bool_decide (0 = 0) then trim_zeros [b; c; d; e]
          else [0; b; c; d; e]).
  rewrite bool_decide_eq_true_2 by done. lia.
Qed.

Lemma quartic_roots `{External} (a b c d e : R) :
  a <> 0 -> exists r1 r2 r3 r4, poly1d_r [a; b; c; d; e] = [r1; r2; r3; r4].
Proof.
  intros Ha. pose proof (poly1d_r_length [a; b; c; d; e]) as Hlen.
  rewrite degree_quartic in Hlen by done.
  destruct (poly1d_r _) as [| r1 [| r2 [| r3 [| r4 [| r5 l]]]]]; try done.
  by exists r1, r2, r3, r4.
Qed.

Lemma init_crack_unpacking `{External} (a22 a12 a16 a26 a66 : R) :
  RectilinearAnisotropicCrack._init_crack 0 a22 a12 a16 a26 a66
  = Raise (ValueError "wrong number of values to unpack").
Proof.
  unfold RectilinearAnisotropicCrack._init_crack.
  pose proof (poly1d_r_length [0; -2 * a16; 2 * a12 + a66; -2 * a26; a22])
    as Hlen.
  pose proof (degree_below_quartic (-2 * a16) (2 * a12 + a66) (-2 * a26) a22).
  destruct (poly1d_r _) as [| r1 [| r2 [| r3 [| r4 [| r5 l]]]]]; try done.
  cbn [length] in Hlen. lia.
Qed.

Lemma py_div_nonzero (x y : R) : y <> 0 -> py_div x y = Ok (x / y).
Proof. intros Hy. unfold py_div. by rewrite bool_decide_eq_false_2. Qed.

Lemma py_div_zero (x : R) : py_div x 0 = Raise ZeroDivisionError.
Proof. unfold py_div. by rewrite bool_decide_eq_true_2. Qed.

Lemma set_plane_strain_reduces `{External}
  (b11 b22 b33 b12 b13 b23 b16 b26 b36 b66 : R) :
  b33 <> 0 ->
  RectilinearAnisotropicCrack.set_plane_strain
    b11 b22 b33 b12 b13 b23 b16 b26 b36 b66
  = RectilinearAnisotropicCrack._init_crack
      (b11 - (b13 * b13) / b33) (b22 - (b23 * b23) / b33)
      (b12 - (b13 * b23) / b33) (b16 - (b13 * b36) / b33)
      (b26 - (b23 * b36) / b33) b66.
Proof.
  intros Hb. unfold RectilinearAnisotropicCrack.set_plane_strain.
  by rewrite !py_div_nonzero by done.
Qed.

Lemma gives_up_roots (a b c d e : R) :
  a <> 0 ->
  @poly1d_r gives_up [a; b; c; d; e]
  = [imaginary_unit; conjugate imaginary_unit;
     imaginary_unit; conjugate imaginary_unit].
Proof. intros Ha. cbn [poly1d_r gives_up]. by rewrite degree_quartic. Qed.

(** C4, as amended. For every set of reduction coefficients,
    configuring the crack through [set_plane_stress] runs [_init_crack]
    on the roots that the root finder returns for the quartic
    a11 mu^4 - 2 a16 mu^3 + (2 a12 + a66) mu^2 - 2 a26 mu + a22.
    With [a11 = 0] there are fewer than four of them and the call
    raises [ValueError] when it unpacks them.  With [a11 <> 0] there are
    four, [r1, r2, r3, r4], and the call succeeds exactly when they
    form, as returned, two complex-conjugate pairs ([r1] with [r2] and
    [r3] with [r4]), taking [mu1 = r1] and [mu2 = r3]; otherwise it
    raises [RuntimeError('Roots not in pairs.')].  [set_plane_strain]
    raises [ZeroDivisionError] when [b33 = 0] and otherwise does what
    [set_plane_stress] does on the reduced coefficients. *)
Theorem init_crack_conjugate_pairs `{External} (a11 a22 a12 a16 a26 a66 : R) :
  let configured :=
    RectilinearAnisotropicCrack.set_plane_stress a11 a22 a12 a16 a26 a66 in
  (a11 = 0 -> exists msg, configured = Raise (ValueError msg))
  /\ (a11 <> 0 ->
      exists r1 r2 r3 r4,
        poly1d_r [a11; -2 * a16; 2 * a12 + a66; -2 * a26; a22]
        = [r1; r2; r3; r4]
        /\ (r1 = conjugate r2 /\ r3 = conjugate r4 ->
            exists c, configured = Ok c
                      /\ RectilinearAnisotropicCrack.mu1 c = r1
                      /\ RectilinearAnisotropicCrack.mu2 c = r3)
        /\ (~ (r1 = conjugate r2 /\ r3 = conjugate r4) ->
            configured = Raise (RuntimeError "Roots not in pairs.")))
  /\ (forall b11 b22 b33 b12 b13 b23 b16 b26 b36 b66,
      b33 <> 0 ->
      a11 = b11 - (b13 * b13) / b33 -> a22 = b22 - (b23 * b23) / b33 ->
      a12 = b12 - (b13 * b23) / b33 -> a16 = b16 - (b13 * b36) / b33 ->
      a26 = b26 - (b23 * b36) / b33 -> a66 = b66 ->
      RectilinearAnisotropicCrack.set_plane_strain
        b11 b22 b33 b12 b13 b23 b16 b26 b36 b66
      = configured)
  /\ (forall b11 b22 b12 b13 b23 b16 b26 b36 b66,
      RectilinearAnisotropicCrack.set_plane_strain
        b11 b22 0 b12 b13 b23 b16 b26 b36 b66
      = Raise ZeroDivisionError).
Proof.
  cbn zeta. unfold RectilinearAnisotropicCrack.set_plane_stress.
  split; [| split; [| split]].
  - intros ->. eexists. apply init_crack_unpacking.
  - intros Ha.
    destruct (quartic_roots a11 (-2 * a16) (2 * a12 + a66) (-2 * a26) a22 Ha)
      as (r1 & r2 & r3 & r4 & Hroots).
    exists r1, r2, r3, r4. split; [exact Hroots |]. split.
    + intros [H12 H34].
      destruct (init_crack_paired _ _ _ _ _ _ _ _ _ _ Hroots H12 H34)
        as (c & Hc & Hmu1 & Hmu2 & _).
      by exists c.
    + intros Hnot. unfold RectilinearAnisotropicCrack._init_crack.
      rewrite Hroots. repeat case_bool_decide; try done.
      exfalso. apply Hnot. split.
      * by destruct (decide (r1 = conjugate r2)).
      * by destruct (decide (r3 = conjugate r4)).
  - intros * Hb -> -> -> -> -> ->. by apply set_plane_strain_reduces.
  - intros *. unfold RectilinearAnisotropicCrack.set_plane_strain.
    by rewrite py_div_zero.
Qed.

Lemma conjugate_involutive (z : complex) : conjugate (conjugate z) = z.
Proof. destruct z as [x y]. unfold conjugate. cbn. f_equal. ring. Qed.

Lemma init_crack_conjugate_pairs_witness :
  exists c,
    @RectilinearAnisotropicCrack.set_plane_stress gives_up 1 1 1 0 0 0 = Ok c
    /\ RectilinearAnisotropicCrack.mu1 c = imaginary_unit
    /\ RectilinearAnisotropicCrack.mu2 c = imaginary_unit.
Proof.
  destruct (@init_crack_conjugate_pairs gives_up 1 1 1 0 0 0)
    as (_ & Hfour & _).
  destruct (Hfour R1_neq_R0) as (r1 & r2 & r3 & r4 & Hroots & Hpaired & _).
  rewrite gives_up_roots in Hroots by exact R1_neq_R0.
  injection Hroots as <- <- <- <-.
  apply Hpaired. by rewrite conjugate_involutive.
Defined.

(** C4, counterexample. The call of [set_plane_stress] with a11 = 0 (a
    quartic that has lost its leading term) raises [ValueError] while
    unpacking the roots, and [set_plane_strain] with b33 = 0 raises
    [ZeroDivisionError]: neither succeeds, and neither raises
    'Roots not in pairs.'. *)
Lemma init_crack_other_failures :
  (exists msg,
     @RectilinearAnisotropicCrack.set_plane_stress gives_up 0 1 1 0 0 0
     = Raise (ValueError msg))
  /\ @RectilinearAnisotropicCrack.set_plane_strain gives_up
       1 1 0 1 0 0 0 0 0 1
     = Raise ZeroDivisionError.
Proof.
  split.
  - eexists. apply init_crack_unpacking.
  - unfold RectilinearAnisotropicCrack.set_plane_strain.
    by rewrite py_div_zero.
Qed.

Lemma math_sqrt_nonneg (x : R) : 0 <= x -> math_sqrt x = Ok (sqrt x).
Proof. intros Hx. unfold math_sqrt. by rewrite Rltb_false. Qed.

Lemma math_sqrt_neg (x : R) :
  x < 0 -> math_sqrt x = Raise (ValueError "math domain error").
Proof. intros Hx. unfold math_sqrt. by rewrite Rltb_true. Qed.

(** C5. For every configured [RectilinearAnisotropicCrack] and every
    surface energy gamma, [k1g] returns
    sqrt(-4 gamma / (a22 Im[(mu1 + mu2) / (mu1 mu2)])) when that radicand
    is non-negative, and raises ([ValueError] from [math.sqrt]) when the
    radicand is negative. *)
Theorem k1g_griffith (c : RectilinearAnisotropicCrack.self_t) (gamma : R) :
  let mu1 := RectilinearAnisotropicCrack.mu1 c in
  let mu2 := RectilinearAnisotropicCrack.mu2 c in
  let radicand :=
    -4 * gamma / (RectilinearAnisotropicCrack.a22 c
                  * imag (cdiv (cadd mu1 mu2) (cmul mu1 mu2))) in
  (0 <= radicand ->
   RectilinearAnisotropicCrack.k1g c gamma = Ok (sqrt radicand))
  /\ (radicand < 0 ->
      exists msg,
        RectilinearAnisotropicCrack.k1g c gamma = Raise (ValueError msg)).
Proof.
  cbn zeta. unfold RectilinearAnisotropicCrack.k1g. split.
  - apply math_sqrt_nonneg.
  - intros Hneg. eexists. by apply math_sqrt_neg.
Qed.

Lemma k1g_griffith_witness :
  exists c,
    @RectilinearAnisotropicCrack.set_plane_stress gives_up 1 1 1 0 0 0 = Ok c
    /\ RectilinearAnisotropicCrack.k1g c 1 = Ok (sqrt 2)
    /\ exists msg,
         RectilinearAnisotropicCrack.k1g c (-1) = Raise (ValueError msg).
Proof.
  destruct (@init_crack_paired gives_up 1 1 1 0 0 0
              imaginary_unit (conjugate imaginary_unit)
              imaginary_unit (conjugate imaginary_unit)
              (gives_up_roots 1 _ _ _ _ R1_neq_R0))
    as (c & Hc & Hmu1 & Hmu2 & Ha22);
    [by rewrite conjugate_involutive .. |].
  exists c. split; [exact Hc |].
  assert (Him : imag (cdiv (cadd (RectilinearAnisotropicCrack.mu1 c)
                                 (RectilinearAnisotropicCrack.mu2 c))
                           (cmul (RectilinearAnisotropicCrack.mu1 c)
                                 (RectilinearAnisotropicCrack.mu2 c))) = -2).
  { rewrite Hmu1, Hmu2. cbn. field. }
  split.
  - replace 2 with (-4 * 1 / (RectilinearAnisotropicCrack.a22 c * -2))
      by (rewrite Ha22; field).
    rewrite <- Him. apply (proj1 (k1g_griffith c 1)).
    rewrite Him, Ha22. lra.
  - apply (proj2 (k1g_griffith c (-1))). rewrite Him, Ha22. lra.
Defined.

(** ** Rescaling of displacements *)

Lemma broadcast2_same_length (f : R -> R -> R) (xs ys : list R) :
  length xs = length ys -> broadcast2 f xs ys = Ok (zip_with f xs ys).
Proof.
  intros Hlen. unfold broadcast2. by rewrite Hlen, Nat.eqb_refl.
Qed.

Lemma rescaled_length (ratio : R) (x ref : list R) :
  length x = length ref -> length (rescaled ratio x ref) = length ref.
Proof.
  intros Hlen. unfold rescaled.
  rewrite length_zip_with, length_map, length_zip_with. lia.
Qed.

Lemma rescaled_round_trip (old_k new_k : R) (x ref : list R) :
  old_k <> 0 -> new_k <> 0 -> length x = length ref ->
  rescaled (old_k / new_k) (rescaled (new_k / old_k) x ref) ref = x.
Proof.
  intros Hold Hnew. revert ref. unfold rescaled.
  induction x as [| xi x IH]; intros [| ri ref] Hlen; try done.
  cbn. f_equal; [field; done |]. apply IH. by injection Hlen.
Qed.

Lemma scale_displacements_unfold (self : CubicCrystalCrack.self_t)
  (x y ref_x ref_y : list R) (old_k new_k : R) :
  old_k <> 0 ->
  length x = length ref_x -> length y = length ref_y ->
  CubicCrystalCrack.scale_displacements self x y ref_x ref_y old_k new_k
  = Ok (rescaled (new_k / old_k) x ref_x, rescaled (new_k / old_k) y ref_y).
Proof.
  intros Hold Hx Hy. unfold CubicCrystalCrack.scale_displacements.
  rewrite !py_div_nonzero by done. cbn [rbind].
  rewrite (broadcast2_same_length Rminus x ref_x) by done. cbn [rbind].
  rewrite (broadcast2_same_length Rplus ref_x)
    by (rewrite length_map, length_zip_with; lia).
  cbn [rbind].
  rewrite (broadcast2_same_length Rminus y ref_y) by done. cbn [rbind].
  rewrite (broadcast2_same_length Rplus ref_y)
    by (rewrite length_map, length_zip_with; lia).
  reflexivity.
Qed.

(** C8. For every pair of position arrays (x, y), reference arrays
    (ref_x, ref_y) of the same lengths, and nonzero stress intensity
    factors old_k and new_k, applying [scale_displacements] with
    (old_k, new_k) and then applying it to the result with
    (new_k, old_k) returns the original (x, y). *)
Theorem scale_displacements_round_trip (self : CubicCrystalCrack.self_t)
  (x y ref_x ref_y : list R) (old_k new_k : R) :
  old_k <> 0 -> new_k <> 0 ->
  length x = length ref_x -> length y = length ref_y ->
  exists x' y',
    CubicCrystalCrack.scale_displacements self x y ref_x ref_y old_k new_k
    = Ok (x', y')
    /\ CubicCrystalCrack.scale_displacements self x' y' ref_x ref_y new_k old_k
       = Ok (x, y).
Proof.
  intros Hold Hnew Hx Hy. do 2 eexists. split.
  - by apply scale_displacements_unfold.
  - rewrite scale_displacements_unfold by (done || by apply rescaled_length).
    by rewrite !rescaled_round_trip.
Qed.

Lemma scale_displacements_round_trip_witness :
  (1 : R) <> 0 /\ (2 : R) <> 0
  /\ exists x' y',
       CubicCrystalCrack.scale_displacements
         (CubicCrystalCrack.mk_self (fresh_moduli 166 65 77) None)
         [1; 2] [3] [0; 1] [3] 1 2
       = Ok (x', y')
       /\ CubicCrystalCrack.scale_displacements
            (CubicCrystalCrack.mk_self (fresh_moduli 166 65 77) None)
            x' y' [0; 1] [3] 2 1
          = Ok ([1; 2], [3]).
Proof.
  assert (H1 : (1 : R) <> 0) by lra.
  assert (H2 : (2 : R) <> 0) by lra.
  repeat split; try assumption.
  exact (scale_displacements_round_trip
           (CubicCrystalCrack.mk_self (fresh_moduli 166 65 77) None)
           [1; 2] [3] [0; 1] [3] 1 2 H1 H2 eq_refl eq_refl).
Defined.

(** ** Strain bookkeeping *)

Lemma fold_left_Rmax_spec (l : list R) (x : R) :
  let m := fold_left Rmax l x in
  m ∈ x :: l /\ forall y, y ∈ x :: l -> y <= m.
Proof.
  revert x. induction l as [| z l IH]; intros x; cbn.
  - split; [by left |]. intros y. rewrite list_elem_of_singleton. lra.
  - destruct (IH (Rmax x z)) as [Hin Hub]. split.
    + apply elem_of_cons in Hin as [Heq | Hin]; [| by do 2 right].
      rewrite Heq. unfold Rmax. destruct (Rle_dec x z); [right |]; by left.
    + intros y Hy.
      assert (Hmax : Rmax x z <= fold_left Rmax l (Rmax x z))
        by (apply Hub; by left).
      pose proof (Rmax_l x z). pose proof (Rmax_r x z).
      rewrite !elem_of_cons in Hy. destruct Hy as [-> | [-> | Hy]]; try lra.
      apply Hub. by right.
Qed.

Lemma fold_left_Rmin_spec (l : list R) (x : R) :
  let m := fold_left Rmin l x in
  m ∈ x :: l /\ forall y, y ∈ x :: l -> m <= y.
Proof.
  revert x. induction l as [| z l IH]; intros x; cbn.
  - split; [by left |]. intros y. rewrite list_elem_of_singleton. lra.
  - destruct (IH (Rmin x z)) as [Hin Hlb]. split.
    + apply elem_of_cons in Hin as [Heq | Hin]; [| by do 2 right].
      rewrite Heq. unfold Rmin. destruct (Rle_dec x z); [| right]; by left.
    + intros y Hy.
      assert (Hmin : fold_left Rmin l (Rmin x z) <= Rmin x z)
        by (apply Hlb; by left).
      pose proof (Rmin_l x z). pose proof (Rmin_r x z).
      rewrite !elem_of_cons in Hy. destruct Hy as [-> | [-> | Hy]]; try lra.
      apply Hlb. by right.
Qed.

(** [arr.max()] is the greatest entry, [arr.min()] the least. *)
Lemma np_max_greatest (l : list R) (hi : R) :
  hi ∈ l -> (forall y, y ∈ l -> y <= hi) -> np_max l = Ok hi.
Proof.
  destruct l as [| x l]; [by intros ?%elem_of_nil |]. intros Hin Hub.
  cbn. f_equal. destruct (fold_left_Rmax_spec l x) as [Hm Hle].
  apply Rle_antisym; [by apply Hub | by apply Hle].
Qed.

Lemma np_min_least (l : list R) (lo : R) :
  lo ∈ l -> (forall y, y ∈ l -> lo <= y) -> np_min l = Ok lo.
Proof.
  destruct l as [| x l]; [by intros ?%elem_of_nil |]. intros Hin Hlb.
  cbn. f_equal. destruct (fold_left_Rmin_spec l x) as [Hm Hle].
  apply Rle_antisym; [by apply Hle | by apply Hlb].
Qed.

Lemma info_get_present (w : world) (key : string) (v : pyval) :
  info (atoms w) !! key = Some v -> info_get key w = (w, Ok v).
Proof. intros Hk. unfold info_get, getitem. by rewrite Hk. Qed.

Lemma strain_to_G_value (strain E nu h : R) :
  nu * nu <> 1 ->
  strain_to_G strain E nu h
  = Ok (0.5 * E / (1 - nu * nu) * strain * strain * h).
Proof.
  intros Hnu. unfold strain_to_G. by rewrite py_div_nonzero by lra.
Qed.

Lemma strain_to_G_zero_division (strain E nu h : R) :
  nu * nu = 1 -> strain_to_G strain E nu h = Raise ZeroDivisionError.
Proof.
  intros Hnu. unfold strain_to_G, py_div. by rewrite bool_decide_eq_true_2 by lra.
Qed.

Section strain.
Variables (w : world) (h E nu hi lo : R).
Hypothesis Hh : info (atoms w) !! "OrigHeight" = Some (VFloat h).
Hypothesis HE : info (atoms w) !! "YoungsModulus" = Some (VFloat E).
Hypothesis Hnu : info (atoms w) !! "PoissonRatio_yx" = Some (VFloat nu).
Hypothesis Hhi : np_max (map (fun p => vget p 1) (positions (atoms w))) = Ok hi.
Hypothesis Hlo : np_min (map (fun p => vget p 1) (positions (atoms w))) = Ok lo.

Let strain := (hi - lo) / h - 1.
Let G := 0.5 * E / (1 - nu * nu) * strain * strain * h.

Lemma get_strain_run :
  get_strain w = (fst (info_set "strain" (VFloat strain) w), Ok strain).
Proof.
  unfold get_strain, bind. rewrite (info_get_present _ _ _ Hh).
  unfold get_atoms, lift. rewrite Hhi, Hlo. reflexivity.
Qed.

Lemma get_energy_release_rate_run :
  nu * nu <> 1 ->
  exists w', get_energy_release_rate w = (w', Ok G)
    /\ info (atoms w')
       = <["G" := VFloat G]> (<["strain" := VFloat strain]> (info (atoms w))).
Proof.
  intros Hone. unfold get_energy_release_rate, bind. rewrite get_strain_run.
  unfold info_get at 1 2 3, getitem. cbn [fst info_set atoms info].
  rewrite !lookup_insert_ne by done. rewrite Hh, HE, Hnu.
  cbn [lift as_float]. rewrite strain_to_G_value by done.
  cbn. eexists. split; reflexivity.
Qed.

Lemma get_energy_release_rate_zero_division :
  nu * nu = 1 ->
  exists w', get_energy_release_rate w = (w', Raise ZeroDivisionError).
Proof.
  intros Hone. unfold get_energy_release_rate, bind. rewrite get_strain_run.
  unfold info_get at 1 2 3, getitem. cbn [fst info_set atoms info].
  rewrite !lookup_insert_ne by done. rewrite Hh, HE, Hnu.
  cbn [lift as_float]. rewrite strain_to_G_zero_division by done.
  eexists. reflexivity.
Qed.

Lemma get_stress_intensity_factor_run (bound : option (R -> R)) :
  nu * nu <> 1 ->
  exists w', get_stress_intensity_factor_in bound w
             = (w', match bound with
                    | Some sqrt => Ok (sqrt (G * (E / (1 - nu ^ 2))))
                    | None => Raise (NameError "sqrt")
                    end).
Proof.
  intros Hone. unfold get_stress_intensity_factor_in, bind.
  destruct (get_energy_release_rate_run Hone) as (w' & -> & Hinfo).
  unfold info_get, getitem. rewrite Hinfo.
  rewrite !lookup_insert_ne by done. rewrite HE, Hnu.
  cbn [lift as_float]. rewrite py_div_nonzero by nra.
  destruct bound; cbn; eexists; reflexivity.
Qed.

Lemma get_stress_intensity_factor_zero_division (bound : option (R -> R)) :
  nu * nu = 1 ->
  exists w', get_stress_intensity_factor_in bound w
             = (w', Raise ZeroDivisionError).
Proof.
  intros Hone. unfold get_stress_intensity_factor_in, bind.
  destruct (get_energy_release_rate_zero_division Hone) as (w' & ->).
  by exists w'.
Qed.
End strain.

(** C9. For every atoms configuration carrying OrigHeight [h],
    YoungsModulus [E] and PoissonRatio_yx [nu], whose height (largest
    minus smallest y coordinate) is [height]: [get_strain] returns
    strain = height / h - 1.  Unless nu^2 = 1,
    [get_energy_release_rate] returns
    G = 1/2 E / (1 - nu^2) strain^2 h, but
    [get_stress_intensity_factor] raises [NameError] at its call of the
    unbound name [sqrt]; were [sqrt] bound to the square root it would
    return K = sqrt(G E / (1 - nu^2)).  With nu^2 = 1 the division in
    [strain_to_G] raises [ZeroDivisionError], and with it the other
    two. *)
Theorem strain_bookkeeping (w : world) (h E nu height : R) :
  info (atoms w) !! "OrigHeight" = Some (VFloat h) ->
  info (atoms w) !! "YoungsModulus" = Some (VFloat E) ->
  info (atoms w) !! "PoissonRatio_yx" = Some (VFloat nu) ->
  slab_height (atoms w) height ->
  let strain := height / h - 1 in
  let G := 1 / 2 * E / (1 - nu ^ 2) * strain ^ 2 * h in
  snd (get_strain w) = Ok strain
  /\ (nu * nu <> 1 ->
      snd (get_energy_release_rate w) = Ok G
      /\ snd (get_stress_intensity_factor w) = Raise (NameError "sqrt")
      /\ snd (get_stress_intensity_factor_in (Some sqrt) w)
         = Ok (sqrt (G * E / (1 - nu ^ 2))))
  /\ (nu * nu = 1 ->
      snd (get_energy_release_rate w) = Raise ZeroDivisionError
      /\ snd (get_stress_intensity_factor w) = Raise ZeroDivisionError
      /\ snd (get_stress_intensity_factor_in (Some sqrt) w)
         = Raise ZeroDivisionError).
Proof.
  intros Hh HE Hnu (hi & lo & Hhi & Hlo & Hbounds & ->). cbn zeta.
  assert (Hmax : np_max (map (fun p => vget p 1) (positions (atoms w))) = Ok hi)
    by (apply np_max_greatest; [done | intros y Hy; by apply Hbounds]).
  assert (Hmin : np_min (map (fun p => vget p 1) (positions (atoms w))) = Ok lo)
    by (apply np_min_least; [done | intros y Hy; by apply Hbounds]).
  assert (HG : 0.5 * E / (1 - nu * nu) * ((hi - lo) / h - 1)
               * ((hi - lo) / h - 1) * h
               = 1 / 2 * E / (1 - nu ^ 2) * ((hi - lo) / h - 1) ^ 2 * h).
  { unfold Rdiv. replace (nu ^ 2) with (nu * nu) by ring.
    replace 0.5 with (/ 2) by lra. ring. }
  split; [| split].
  - by rewrite (get_strain_run w h hi lo).
  - intros Hone. split; [| split].
    + destruct (get_energy_release_rate_run w h E nu hi lo)
        as (w' & -> & _); try done.
      cbn [snd]. by rewrite HG.
    + unfold get_stress_intensity_factor.
      destruct (get_stress_intensity_factor_run w h E nu hi lo Hh HE Hnu
                  Hmax Hmin None Hone) as (w' & ->).
      reflexivity.
    + destruct (get_stress_intensity_factor_run w h E nu hi lo Hh HE Hnu
                  Hmax Hmin (Some sqrt) Hone) as (w' & ->).
      cbn [snd]. rewrite HG. do 2 f_equal. unfold Rdiv. ring.
  - intros Hone. split; [| split].
    + by destruct (get_energy_release_rate_zero_division w h E nu hi lo
                     Hh HE Hnu Hmax Hmin Hone) as (w' & ->).
    + unfold get_stress_intensity_factor.
      by destruct (get_stress_intensity_factor_zero_division w h E nu hi lo
                     Hh HE Hnu Hmax Hmin None Hone) as (w' & ->).
    + by destruct (get_stress_intensity_factor_zero_division w h E nu hi lo
                     Hh HE Hnu Hmax Hmin (Some sqrt) Hone) as (w' & ->).
Qed.

Lemma strain_bookkeeping_witness :
  slab_height strip 11
  /\ snd (get_strain strip_world) = Ok (11 / 10 - 1)
  /\ snd (get_energy_release_rate strip_world)
     = Ok (1 / 2 * 100 / (1 - 0.5 ^ 2) * (11 / 10 - 1) ^ 2 * 10)
  /\ snd (get_stress_intensity_factor strip_world)
     = Raise (NameError "sqrt")
  /\ snd (get_stress_intensity_factor_in (Some sqrt) strip_world)
     = Ok (sqrt (1 / 2 * 100 / (1 - 0.5 ^ 2) * (11 / 10 - 1) ^ 2 * 10
                 * 100 / (1 - 0.5 ^ 2))).
Proof.
  assert (Hheight : slab_height strip 11).
  { exists 11, 0. cbn.
    split; [rewrite !elem_of_cons; auto |].
    split; [rewrite !elem_of_cons; auto |]. split; [| lra].
    intros y Hy. rewrite !elem_of_cons, elem_of_nil in Hy.
    destruct Hy as [-> | [-> | []]]; lra. }
  assert (Hnu : 0.5 * 0.5 <> 1) by lra.
  split; [exact Hheight |].
  destruct (strain_bookkeeping strip_world 10 100 0.5 11
              eq_refl eq_refl eq_refl Hheight) as (Hstrain & Hrest & _).
  split; [exact Hstrain |]. exact (Hrest Hnu).
Defined.

(** ** What [fit_crack_stress_field] does to the caller's arrays *)

Lemma keeps_heap_ret {A : Type} (a : A) : keeps_heap (ret a).
Proof. done. Qed.
Lemma keeps_heap_lift {A : Type} (r : result A) : keeps_heap (lift r).
Proof. done. Qed.
Lemma keeps_heap_get_atoms : keeps_heap get_atoms.
Proof. done. Qed.
Lemma keeps_heap_info_get (key : string) : keeps_heap (info_get key).
Proof. done. Qed.
Lemma keeps_heap_info_set (key : string) (v : pyval) :
  keeps_heap (info_set key v).
Proof. done. Qed.
Lemma keeps_heap_bind {A B : Type} (m : M A) (k : A -> M B) :
  keeps_heap m -> (forall a, keeps_heap (k a)) -> keeps_heap (bind m k).
Proof.
  intros Hm Hk w. unfold bind. specialize (Hm w).
  destruct (m w) as [w' [a | e]]; cbn in *; [| done].
  by rewrite Hk.
Qed.
Lemma keeps_heap_try {A : Type} (body handler : M A) :
  keeps_heap body -> keeps_heap handler ->
  keeps_heap (try_except_KeyError body handler).
Proof.
  intros Hb Hh w. unfold try_except_KeyError. specialize (Hb w).
  destruct (body w) as [w' [a | []]]; cbn in *; try done.
  by rewrite Hh.
Qed.


Ltac keeps_heap :=
  repeat first
    [ apply keeps_heap_ret | apply keeps_heap_lift | apply keeps_heap_get_atoms
    | apply keeps_heap_info_get | apply keeps_heap_info_set
    | apply keeps_heap_try
    | apply keeps_heap_bind; [| intros ?]
    | match goal with
      | |- keeps_heap (if ?b then _ else _) => destruct b
      | |- keeps_heap (match ?o with Some _ => _ | None => _ end) => destruct o
      | |- keeps_heap (let '(_, _) := ?p in _) => destruct p
      end ].


Section fit_frame.
Context `{External}.

Lemma keeps_heap_starting_params ip fp : keeps_heap (starting_params ip fp).
Proof.
  unfold starting_params, guess_K, guess_sigma0, guess_position.
  keeps_heap.
Qed.



Lemma bind_run {A B : Type} (m : M A) (k : A -> M B) (w w1 : world) (a : A) :
  m w = (w1, Ok a) -> bind m k w = k a w1.
Proof. intros Hm. unfold bind. by rewrite Hm. Qed.



Ltac run := erewrite bind_run; [| reflexivity].

Section frame.
Variables (r_range : option (R * R))
          (initial_params fix_params : option (gmap string R))
          (avg_decay : R) (calc : option Calculator) (verbose : bool).
Variables (w w1 : world) (params : gmap string R).
Variables (sigma : loc) (cur : ndarray).
Hypothesis Hstart :
  starting_params initial_params
    (match fix_params with Some f => f | None => ∅ end) w
  = (w1, Ok params).
Hypothesis Hsigma : heap w !! sigma = Some cur.


Variables (avg : loc) (old : ndarray).
Hypothesis Havg : heap w !! avg = Some old.
Hypothesis Hshape : length old = length cur.

End frame.
End fit_frame.



(** ** A fit that stops while guessing its parameters *)

Lemma fit_stops_with_guessing `{External}
  (r_range : option (R * R)) (initial_params fix_params : option (gmap string R))
  (sigma avg_sigma : option loc) (avg_decay : R)
  (calc : option Calculator) (verbose : bool) (w : world) (e : exn) :
  snd (starting_params initial_params
         (match fix_params with Some f => f | None => ∅ end) w) = Raise e ->
  let run := fit_crack_stress_field r_range initial_params fix_params sigma
               avg_sigma avg_decay calc verbose w in
  snd run = Raise e /\ heap (fst run) = heap w.
Proof.
  intros Hguess. cbn zeta.
  pose proof (keeps_heap_starting_params initial_params
    (match fix_params with Some f => f | None => ∅ end) w) as Hheap.
  assert (Hrun : fit_crack_stress_field r_range initial_params fix_params
                   sigma avg_sigma avg_decay calc verbose w
                 = (fst (starting_params initial_params
                           (match fix_params with Some f => f | None => ∅ end)
                           w),
                    Raise e)).
  { unfold fit_crack_stress_field, bind at 1.
    destruct (starting_params _ _ w) as [w1 res]. cbn [snd] in Hguess.
    by subst res. }
  rewrite Hrun. split; [reflexivity | exact Hheap].
Qed.

Lemma guess_K_unbound_sqrt `{External} (params : gmap string R) (w : world)
  (h E nu hi lo : R) :
  info (atoms w) !! "K" = None ->
  info (atoms w) !! "OrigHeight" = Some (VFloat h) ->
  info (atoms w) !! "YoungsModulus" = Some (VFloat E) ->
  info (atoms w) !! "PoissonRatio_yx" = Some (VFloat nu) ->
  np_max (map (fun p => vget p 1) (positions (atoms w))) = Ok hi ->
  np_min (map (fun p => vget p 1) (positions (atoms w))) = Ok lo ->
  snd (guess_K params w)
  = Raise (if bool_decide (nu * nu = 1) then ZeroDivisionError
           else NameError "sqrt").
Proof.
  intros HK Hh HE Hnu Hhi Hlo. unfold guess_K, bind at 1, get_atoms.
  rewrite HK. unfold try_except_KeyError, bind at 1.
  unfold get_stress_intensity_factor. case_bool_decide as Hone.
  - destruct (get_stress_intensity_factor_zero_division w h E nu hi lo
                Hh HE Hnu Hhi Hlo None Hone) as (w' & ->).
    reflexivity.
  - destruct (get_stress_intensity_factor_run w h E nu hi lo Hh HE Hnu
                Hhi Hlo None Hone) as (w' & ->).
    reflexivity.
Qed.

Lemma starting_params_stops_at_K `{External}
  (initial_params : option (gmap string R)) (fix_params : gmap string R)
  (w : world) (e : exn) :
  match initial_params with Some ip => ip !! "K" = None | None => True end ->
  (forall params, snd (guess_K params w) = Raise e) ->
  snd (starting_params initial_params fix_params w) = Raise e.
Proof.
  intros Hip Hguess. unfold starting_params, bind at 1.
  assert (Hnone : (match initial_params with
                   | Some ip => update ∅ ip
                   | None => ∅
                   end : gmap string R) !! "K" = None).
  { destruct initial_params as [ip |]; [| done].
    unfold update. by rewrite lookup_union_l by done. }
  rewrite bool_decide_eq_true_2 by exact Hnone.
  specialize (Hguess (match initial_params with
                      | Some ip => update ∅ ip
                      | None => ∅
                      end)).
  destruct (guess_K _ w) as [w1 res]. cbn [snd] in Hguess. by subst res.
Qed.






(** ** The status flag of the least-squares solver *)

Lemma bind_ext {A B : Type} (m : M A) (k1 k2 : A -> M B) (w : world) :
  (forall a w', k1 a w' = k2 a w') -> bind m k1 w = bind m k2 w.
Proof.
  intros Hk. unfold bind. destruct (m w) as [w' [a | e]]; [apply Hk | done].
Qed.

Lemma bind_raises {A B : Type} (m : M A) (k : A -> M B) (w : world) :
  (forall a w', exists e, snd (k a w') = Raise e) ->
  exists e, snd (bind m k w) = Raise e.
Proof.
  intros Hk. unfold bind. destruct (m w) as [w' [a | e]]; [apply Hk | eauto].
Qed.

Lemma leastsq_status (E : External) (status : Z)
  (f : list R -> result (list R)) (x0 : list R) :
  @leastsq (with_status E status) f x0
  = match @leastsq E f x0 with
    | Ok out => Ok (mk_leastsq_out (lsq_x out) (lsq_cov_x out) status)
    | Raise e => Raise e
    end.
Proof.
  unfold leastsq. destruct (f x0) as [fx | e]; [| done]. cbn [rbind].
  by destruct (length fx <? length x0)%nat.
Qed.

Lemma bind_lift_status {B : Type} (r : result leastsq_out) (status : Z)
  (k1 k2 : leastsq_out -> M B) (w : world) :
  (forall out w',
     k1 (mk_leastsq_out (lsq_x out) (lsq_cov_x out) status) w' = k2 out w') ->
  bind (lift match r with
             | Ok out => Ok (mk_leastsq_out (lsq_x out) (lsq_cov_x out) status)
             | Raise e => Raise e
             end) k1 w
  = bind (lift r) k2 w.
Proof.
  intros Hk. unfold bind, lift. destruct r as [out | e]; [apply Hk | done].
Qed.

(** Were [IrwinStressField] bound, the status would go unread: what the
    fit returns and what it leaves behind do not depend on it. *)
Lemma fit_ignores_status (E : External) (status : Z)
  (r_range : option (R * R)) (initial_params fix_params : option (gmap string R))
  (sigma avg_sigma : option nat) (avg_decay : R)
  (calc : option Calculator) (verbose : bool) (w : world) :
  @fit_crack_stress_field (with_status E status) r_range initial_params
    fix_params sigma avg_sigma avg_decay calc verbose w
  = @fit_crack_stress_field E r_range initial_params
      fix_params sigma avg_sigma avg_decay calc verbose w.
Proof.
  unfold fit_crack_stress_field. cbn zeta.
  do 11 (apply bind_ext; intros ? ?).
  rewrite leastsq_status.
  apply bind_lift_status. intros out wf. reflexivity.
Qed.


Lemma crack_tip_position_status `{External}
  (self : CubicCrystalCrack.self_t) (x y ref_x ref_y : list R) (x0 y0 k : R)
  (mask : list bool) (out : leastsq_out) (x1 y1 : R) :
  leastsq (fun r0 => CubicCrystalCrack._residual self r0 x y ref_x ref_y k
                       mask)
          [x0; y0] = Ok out ->
  lsq_x out = [x1; y1] ->
  CubicCrystalCrack.crack_tip_position self x y ref_x ref_y x0 y0 k
    (Some mask)
  = if bool_decide (lsq_ier out ∉ [1; 2; 3; 4]%Z)
    then Raise (RuntimeError "Could not find crack tip")
    else Ok (x1, y1).
Proof.
  intros Hsolve Hx. unfold CubicCrystalCrack.crack_tip_position.
  cbn [CubicCrystalCrack.default_mask rbind].
  rewrite Hsolve. cbn [rbind]. by rewrite Hx.
Qed.

Lemma objective_function_unbound `{External} (a : Atoms)
  (fix_params : gmap string R) (mask : option (list bool))
  (params : list R) (sigma : ndarray) (var_params : list string) :
  IrwinStressField = None ->
  objective_function a fix_params mask params sigma var_params
  = Raise (NameError "IrwinStressField").
Proof. intros Hname. unfold objective_function. by rewrite Hname. Qed.

Lemma leastsq_raises `{External} (f : list R -> result (list R))
  (x0 : list R) (e : exn) :
  f x0 = Raise e -> leastsq f x0 = Raise e.
Proof. intros Hf. unfold leastsq. by rewrite Hf. Qed.

(** C2. [crack_tip_position] (called with a mask) raises whenever the
    solver's return code is outside {1,2,3,4} and returns the fitted tip
    otherwise.  [fit_crack_stress_field] never returns fitted
    parameters, whatever the status: the module leaves the name
    [IrwinStressField] unbound, the solver evaluates the objective
    function before it does anything else, and so every call raises, by
    then at the latest; on the one-atom configuration it is this
    [NameError] that the call raises. *)
Theorem solver_status_handling :
  (forall (E : External) (self : CubicCrystalCrack.self_t)
          (x y ref_x ref_y : list R) (x0 y0 k : R)
          (mask : list bool) (out : leastsq_out) (x1 y1 : R),
     leastsq (fun r0 => CubicCrystalCrack._residual self r0 x y ref_x ref_y k
                          mask)
             [x0; y0] = Ok out ->
     lsq_x out = [x1; y1] ->
     (lsq_ier out ∉ [1; 2; 3; 4]%Z ->
      CubicCrystalCrack.crack_tip_position self x y ref_x ref_y x0 y0 k
        (Some mask)
      = Raise (RuntimeError "Could not find crack tip"))
     /\ (lsq_ier out ∈ [1; 2; 3; 4]%Z ->
         CubicCrystalCrack.crack_tip_position self x y ref_x ref_y x0 y0 k
           (Some mask)
         = Ok (x1, y1)))
  /\ (forall (E : External), @IrwinStressField E = None ->
      forall r_range initial_params fix_params sigma avg_sigma avg_decay
             calc verbose w,
      exists e,
        snd (@fit_crack_stress_field E r_range initial_params fix_params
               sigma avg_sigma avg_decay calc verbose w)
        = Raise e)
  /\ snd (@fit_crack_stress_field (unbound gives_up) None None None
            (Some 0%nat) None 0.005 None false one_atom_world)
     = Raise (NameError "IrwinStressField").
Proof.
  split; [| split].
  - intros E self x y ref_x ref_y x0 y0 k mask out x1 y1 Hsolve Hx.
    rewrite (crack_tip_position_status _ _ _ _ _ _ _ _ _ _ _ _ Hsolve Hx).
    split; intros Hier.
    + by rewrite bool_decide_eq_true_2.
    + rewrite bool_decide_eq_false_2; [done |]. by intros Hnot.
  - intros E Hname *. unfold fit_crack_stress_field. cbn zeta.
    do 11 (apply bind_raises; intros ? ?).
    unfold bind at 1, lift.
    erewrite leastsq_raises by (by apply objective_function_unbound).
    eauto.
  - vm_compute. reflexivity.
Qed.

(** ** The annulus of the fit *)

Lemma fit_mask_lookup (rmin rmax : R) (r : list R) (i : nat) (ri : R) :
  r !! i = Some ri ->
  exists mask,
    fit_mask (Some (rmin, rmax)) r = Some mask
    /\ length mask = length r
    /\ (mask !! i = Some true <-> rmin < ri /\ ri < rmax).
Proof.
  intros Hri. eexists. split; [reflexivity |]. split; [apply length_map |].
  rewrite list_lookup_fmap, Hri. cbn. unfold Rgtb, Rltb. split.
  - intros [= Hand]. apply andb_true_iff in Hand as [H1 H2].
    by apply bool_decide_eq_true in H1, H2.
  - intros [H1 H2]. by rewrite !bool_decide_eq_true_2.
Qed.

Lemma one_atom_distance :
  zip_with (fun xi yi => sqrt ((xi - 0) ^ 2 + (yi - 0) ^ 2)) [3] [4] = [5].
Proof.
  cbn [zip_with]. f_equal.
  replace ((3 - 0) ^ 2 + (4 - 0) ^ 2) with (5 * 5) by ring.
  apply sqrt_square. lra.
Qed.

(** C3. With [r_range = (r_min, r_max)] the atoms entering the residual
    are those with r_min < r < r_max, both ends strict: an atom exactly
    at r = r_min is left out.  On the one-atom configuration, whose atom
    lies at distance 5 from the tip, a fit with [r_range = (5, 50)] masks
    the atom out and the residual handed to the solver is empty. *)
Theorem fit_mask_excludes_r_min :
  (forall (rmin rmax : R) (r : list R) (i : nat) (ri : R),
     r !! i = Some ri ->
     exists mask,
       fit_mask (Some (rmin, rmax)) r = Some mask
       /\ length mask = length r
       /\ (mask !! i = Some true <-> rmin < ri /\ ri < rmax))
  /\ (forall rmin rmax : R, fit_mask (Some (rmin, rmax)) [rmin] = Some [false])
  /\ (let r := zip_with (fun xi yi => sqrt ((xi - 0) ^ 2 + (yi - 0) ^ 2))
                        [3] [4] in
      r = [5]
      /\ fit_mask (Some (5, 50)) r = Some [false]
      /\ forall (p : list R) (T : mat3) (var_params : list string),
          @objective_function gives_up one_atom ∅ (fit_mask (Some (5, 50)) r)
            p [T] var_params
          = Ok []).
Proof.
  assert (Hmin : forall rmin rmax : R,
            fit_mask (Some (rmin, rmax)) [rmin] = Some [false]).
  { intros rmin rmax. cbn. by rewrite Rgtb_false by lra. }
  split; [exact fit_mask_lookup |]. split; [exact Hmin |].
  cbn zeta. rewrite one_atom_distance, Hmin. repeat split.
Qed.

(** * Further properties *)

(** ** Rotating the cubic constants again *)

Section rotate_more.
Import CubicElasticModuli.

Lemma rotate_Ok_inv (self self1 : self_t) (A : mat3) r :
rotate self A = Ok (self1, r) -> accepted A.
Proof.
unfold rotate. destruct (not_a_rotation A) eqn:Hc; [discriminate|].
intros _ i j Hi Hj.
destruct (Rle_dec (Rabs (dot_AAt A i j - eye i j)) tol) as [|Hn]; [done|].
rewrite (not_a_rotation_true A i j) in Hc; [done|done|done|lra].
Qed.

Lemma rotate_slots (c11 c12 c44 : R) (A : mat3) self self1 r11 r12 r44 :
__init__ c11 c12 c44 = Ok self ->
rotate self A = Ok (self1, (r11, r12, r44)) ->
let q i j := vsum (vmul (vmul (vmul (row A i) (row A i)) (row A j)) (row A j)) in
r11 = [c11 + (c11 - c12 - 2 * c44) * (q 0%nat 0%nat - 1);
       c11 + (c11 - c12 - 2 * c44) * (q 1%nat 1%nat - 1);
       c11 + (c11 - c12 - 2 * c44) * (q 2%nat 2%nat - 1)]
/\ r12 = [c12 + (c11 - c12 - 2 * c44) * q 1%nat 2%nat;
          c12 + (c11 - c12 - 2 * c44) * q 0%nat 2%nat;
          c12 + (c11 - c12 - 2 * c44) * q 0%nat 1%nat]
/\ r44 = [c44 + (c11 - c12 - 2 * c44) * q 1%nat 2%nat;
          c44 + (c11 - c12 - 2 * c44) * q 0%nat 2%nat;
          c44 + (c11 - c12 - 2 * c44) * q 0%nat 1%nat].
Proof.
rewrite init_fresh_moduli. intros [= <-] Hrot.
pose proof (rotate_Ok_inv _ _ _ _ Hrot) as Hacc.
rewrite (rotate_accepted _ _ Hacc) in Hrot.
injection Hrot as _ <- <- <-. intros q. subst q.
unfold slice, t, isotropic_part, fresh_moduli, vsum.
cbn [map firstn skipn Nat.sub la mu al Nat.eqb andb].
rewrite !np_sum_3.
generalize (row A 0) (row A 1) (row A 2).
intros [[a b] c] [[d e] f] [[g h] i]. cbn [vmul vget].
repeat split; list_ring.
Qed.

(** X1. [rotate] is not cumulative.  Once a call [rotate(A)] has
  succeeded, [stiffness()] returns what that call returned, and a
  further call [rotate(B)] on the updated instance gives exactly what
  [rotate(B)] gives on the instance as it was before (the same
  constants, or the same error): every rotation is taken from the
  crystal axes, never from the previous orientation. *)
Theorem rotate_restarts_from_crystal_axes (self self1 : self_t) (A B : mat3)
(r : list R * list R * list R) :
rotate self A = Ok (self1, r) ->
stiffness self1 = r /\ rotate self1 B = rotate self B.
Proof.
unfold rotate. destruct (not_a_rotation A); [discriminate |].
intros [= <- <-]. split; [reflexivity |].
by destruct (not_a_rotation B).
Qed.

Lemma rotate_restarts_from_crystal_axes_witness :
exists self1 r,
  rotate (fresh_moduli 166 65 77) stretched = Ok (self1, r)
  /\ stiffness self1 = r
  /\ rotate self1 eye3 = rotate (fresh_moduli 166 65 77) eye3.
Proof.
pose proof (rotate_accepted (fresh_moduli 166 65 77) stretched
              stretched_accepted) as Hrot.
unfold store_rot in Hrot. cbv zeta in Hrot.
eexists _, _. split; [exact Hrot |].
exact (rotate_restarts_from_crystal_axes _ _ stretched eye3 _ Hrot).
Defined.

(** X2. For every cubic material (C11, C12, C44) and every orientation
  [A] accepted by the orthonormality check, construction and
  [rotate(A)] succeed, [C12_rot] and [C44_rot] have three entries each,
  and in each of the three slots C12_rot - C44_rot = C12 - C44: the
  rotation adds the same anisotropic term to both. *)
Theorem rotate_keeps_C12_minus_C44 (c11 c12 c44 : R) (A : mat3) :
accepted A ->
exists self self1 r11 r12 r44,
  __init__ c11 c12 c44 = Ok self
  /\ rotate self A = Ok (self1, (r11, r12, r44))
  /\ length r12 = 3%nat /\ length r44 = 3%nat
  /\ forall n, (n < 3)%nat -> nth n r12 0 - nth n r44 0 = c12 - c44.
Proof.
intros Hacc.
pose proof (rotate_accepted (fresh_moduli c11 c12 c44) A Hacc) as Hrot.
unfold store_rot in Hrot. cbv zeta in Hrot.
eexists _, _, _, _, _. split; [apply init_fresh_moduli |].
split; [exact Hrot |].
destruct (rotate_slots c11 c12 c44 A _ _ _ _ _
            (init_fresh_moduli c11 c12 c44) Hrot) as (_ & -> & ->).
split; [done |]. split; [done |].
intros n Hn. destruct n as [|[|[|n]]]; try lia; cbn [nth]; ring.
Qed.

Lemma rotate_keeps_C12_minus_C44_witness :
accepted stretched
/\ exists self self1 r11 r12 r44,
  __init__ 166 65 77 = Ok self
  /\ rotate self stretched = Ok (self1, (r11, r12, r44))
  /\ length r12 = 3%nat /\ length r44 = 3%nat
  /\ forall n, (n < 3)%nat -> nth n r12 0 - nth n r44 0 = 65 - 77.
Proof.
split; [exact stretched_accepted |].
exact (rotate_keeps_C12_minus_C44 166 65 77 stretched stretched_accepted).
Defined.

Lemma orthonormal_entries (A : mat3) :
orthonormal A ->
forall i j, (i < 3)%nat -> (j < 3)%nat ->
  vget (row A i) 0 * vget (row A j) 0 + vget (row A i) 1 * vget (row A j) 1
  + vget (row A i) 2 * vget (row A j) 2 = eye i j.
Proof.
intros Horth i j Hi Hj. rewrite <- np_dot_unfold. by apply Horth.
Qed.

(** X3. For every cubic material and every exactly orthonormal [A],
  construction and [rotate(A)] succeed and each row of the upper-left
  3x3 block of the rotated stiffness matrix sums to C11 + 2 C12
  (C_iiii + C_iijj + C_iikk, the two off-diagonal terms taken from
  [C12_rot]): the response to a hydrostatic strain, three times the
  bulk modulus, does not depend on the orientation. *)
Theorem rotate_keeps_row_sums (c11 c12 c44 : R) (A : mat3) :
orthonormal A ->
exists self self1 r11 r12 r44,
  __init__ c11 c12 c44 = Ok self
  /\ rotate self A = Ok (self1, (r11, r12, r44))
  /\ nth 0 r11 0 + nth 2 r12 0 + nth 1 r12 0 = c11 + 2 * c12
  /\ nth 2 r12 0 + nth 1 r11 0 + nth 0 r12 0 = c11 + 2 * c12
  /\ nth 1 r12 0 + nth 0 r12 0 + nth 2 r11 0 = c11 + 2 * c12.
Proof.
intros Horth.
pose proof (orthonormal_accepted A Horth) as Hacc.
pose proof (rotate_accepted (fresh_moduli c11 c12 c44) A Hacc) as Hrot.
unfold store_rot in Hrot. cbv zeta in Hrot.
eexists _, _, _, _, _. split; [apply init_fresh_moduli |].
split; [exact Hrot |].
destruct (rotate_slots c11 c12 c44 A _ _ _ _ _
            (init_fresh_moduli c11 c12 c44) Hrot) as (-> & -> & _).
cbn [nth]. unfold vsum. rewrite !np_sum_3.
pose proof (orthonormal_entries A Horth 0 0 ltac:(lia) ltac:(lia)) as H00.
pose proof (orthonormal_entries A Horth 1 1 ltac:(lia) ltac:(lia)) as H11.
pose proof (orthonormal_entries A Horth 2 2 ltac:(lia) ltac:(lia)) as H22.
pose proof (orthonormal_entries A Horth 0 1 ltac:(lia) ltac:(lia)) as H01.
pose proof (orthonormal_entries A Horth 0 2 ltac:(lia) ltac:(lia)) as H02.
pose proof (orthonormal_entries A Horth 1 2 ltac:(lia) ltac:(lia)) as H12.
revert H00 H11 H22 H01 H02 H12.
generalize (row A 0) (row A 1) (row A 2).
intros [[a b] c] [[d e] f] [[g h] i]. cbn [vmul vget]. unfold eye. cbn.
intros. repeat split; nsatz.
Qed.

Lemma rotation_345_orthonormal : orthonormal rotation_345.
Proof.
intros i j Hi Hj. unfold dot_AAt, eye. rewrite np_dot_unfold.
destruct i as [|[|[|i]]]; try lia;
  destruct j as [|[|[|j]]]; try lia; cbn; field.
Qed.

Lemma rotate_keeps_row_sums_witness :
orthonormal rotation_345
/\ exists self self1 r11 r12 r44,
  CubicElasticModuli.__init__ 166 65 77 = Ok self
  /\ CubicElasticModuli.rotate self rotation_345 = Ok (self1, (r11, r12, r44))
  /\ nth 0 r11 0 + nth 2 r12 0 + nth 1 r12 0 = 166 + 2 * 65
  /\ nth 2 r12 0 + nth 1 r11 0 + nth 0 r12 0 = 166 + 2 * 65
  /\ nth 1 r12 0 + nth 0 r12 0 + nth 2 r11 0 = 166 + 2 * 65.
Proof.
split; [exact rotation_345_orthonormal |].
exact (rotate_keeps_row_sums 166 65 77 rotation_345
         rotation_345_orthonormal).
Defined.

End rotate_more.

(** ** The anisotropic crack and its displacement field *)

(** X4. When the compliances coupling the plane to the third direction
    vanish (b13 = b23 = b36 = 0), [set_plane_strain] with a nonzero b33
    configures the crack exactly as [set_plane_stress] does on the
    in-plane compliances, whatever the value of b33: same instance, or
    same error.  With b33 = 0 it raises [ZeroDivisionError]. *)
Theorem set_plane_strain_decoupled `{External}
  (b11 b22 b33 b12 b16 b26 b66 : R) :
  RectilinearAnisotropicCrack.set_plane_strain
    b11 b22 b33 b12 0 0 b16 b26 0 b66
  = if bool_decide (b33 = 0) then Raise ZeroDivisionError
    else RectilinearAnisotropicCrack.set_plane_stress b11 b22 b12 b16 b26 b66.
Proof.
  case_bool_decide as Hb.
  - subst b33. unfold RectilinearAnisotropicCrack.set_plane_strain.
    by rewrite py_div_zero.
  - rewrite set_plane_strain_reduces by done.
    unfold RectilinearAnisotropicCrack.set_plane_stress.
    f_equal; field; done.
Qed.

(** X5. Whenever [CubicCrystalCrack.k1g(gamma)] returns a value K,
    [k1gsqG()] returns a value q as well, K is not negative and
    K^2 = 2 gamma q: at the Griffith stress intensity the energy release
    rate K^2 / q equals twice the surface energy. *)
Theorem k1g_squared (self : CubicCrystalCrack.self_t) (gamma K : R) :
  CubicCrystalCrack.k1g self gamma = Ok K ->
  exists q, CubicCrystalCrack_k1gsqG self = Ok q
            /\ 0 <= K /\ K * K = 2 * gamma * q.
Proof.
  unfold CubicCrystalCrack.k1g, CubicCrystalCrack_k1gsqG.
  destruct (CubicCrystalCrack.the_crack self) as [c |]; [| discriminate].
  cbn [rbind].
  unfold RectilinearAnisotropicCrack.k1g, RectilinearAnisotropicCrack.k1gsqG.
  generalize (RectilinearAnisotropicCrack.a22 c
              * imag (cdiv (cadd (RectilinearAnisotropicCrack.mu1 c)
                                 (RectilinearAnisotropicCrack.mu2 c))
                           (cmul (RectilinearAnisotropicCrack.mu1 c)
                                 (RectilinearAnisotropicCrack.mu2 c)))).
  intros d. unfold math_sqrt.
  destruct (Rltb _ 0) eqn:Hneg; [discriminate |].
  intros [= <-]. eexists. split; [reflexivity |].
  apply bool_decide_eq_false_1, Rnot_lt_le in Hneg.
  split; [apply sqrt_pos |].
  rewrite sqrt_sqrt by exact Hneg.
  unfold Rdiv. ring.
Qed.

Lemma paired_crack :
  exists c,
    @RectilinearAnisotropicCrack.set_plane_stress gives_up 1 1 1 0 0 0 = Ok c
    /\ RectilinearAnisotropicCrack.mu1 c = imaginary_unit
    /\ RectilinearAnisotropicCrack.mu2 c = imaginary_unit
    /\ RectilinearAnisotropicCrack.a22 c = 1.
Proof.
  apply (@init_crack_paired gives_up 1 1 1 0 0 0
           imaginary_unit (conjugate imaginary_unit)
           imaginary_unit (conjugate imaginary_unit)
           (gives_up_roots 1 _ _ _ _ R1_neq_R0));
    by rewrite conjugate_involutive.
Qed.

Lemma k1g_squared_witness :
  exists c K q,
    @RectilinearAnisotropicCrack.set_plane_stress gives_up 1 1 1 0 0 0 = Ok c
    /\ CubicCrystalCrack.k1g
         (CubicCrystalCrack.mk_self (fresh_moduli 166 65 77) (Some c)) 1
       = Ok K
    /\ CubicCrystalCrack_k1gsqG
         (CubicCrystalCrack.mk_self (fresh_moduli 166 65 77) (Some c))
       = Ok q
    /\ 0 <= K /\ K * K = 2 * 1 * q.
Proof.
  destruct paired_crack as (c & Hc & Hmu1 & Hmu2 & Ha22).
  assert (Hrun : CubicCrystalCrack.k1g
            (CubicCrystalCrack.mk_self (fresh_moduli 166 65 77) (Some c)) 1
          = Ok (sqrt (-4 * 1 / (RectilinearAnisotropicCrack.a22 c
                 * imag (cdiv (cadd (RectilinearAnisotropicCrack.mu1 c)
                                    (RectilinearAnisotropicCrack.mu2 c))
                              (cmul (RectilinearAnisotropicCrack.mu1 c)
                                    (RectilinearAnisotropicCrack.mu2 c))))))).
  { unfold CubicCrystalCrack.k1g. cbn [CubicCrystalCrack.the_crack
      CubicCrystalCrack.crack rbind].
    apply math_sqrt_nonneg.
    assert (Him : imag (cdiv (cadd (RectilinearAnisotropicCrack.mu1 c)
                                   (RectilinearAnisotropicCrack.mu2 c))
                             (cmul (RectilinearAnisotropicCrack.mu1 c)
                                   (RectilinearAnisotropicCrack.mu2 c))) = -2).
    { rewrite Hmu1, Hmu2. cbn. field. }
    rewrite Him, Ha22. lra. }
  destruct (k1g_squared _ _ _ Hrun) as (q & Hq & HK & Hsq).
  exists c. eexists _, q. split; [exact Hc |]. split; [exact Hrun |].
  split; [exact Hq |]. split; [exact HK | exact Hsq].
Defined.

Lemma displacements_linear (c : RectilinearAnisotropicCrack.self_t)
  (r theta k : R) :
  RectilinearAnisotropicCrack.displacements c r theta k
  = (k * fst (RectilinearAnisotropicCrack.displacements c r theta 1),
     k * snd (RectilinearAnisotropicCrack.displacements c r theta 1)).
Proof.
  unfold RectilinearAnisotropicCrack.displacements. cbn [fst snd].
  f_equal; ring.
Qed.

Ltac same_length :=
  repeat (rewrite length_map || rewrite length_zip_with); lia.

Lemma displacements_run (self : CubicCrystalCrack.self_t)
  (c : RectilinearAnisotropicCrack.self_t)
  (ref_x ref_y : list R) (x0 y0 k : R) :
  CubicCrystalCrack.crack self = Some c ->
  length ref_x = length ref_y ->
  CubicCrystalCrack.displacements self ref_x ref_y x0 y0 k
  = Ok (zip_with (fun rx ry => fst (displacement_at c x0 y0 k rx ry))
                 ref_x ref_y,
        zip_with (fun rx ry => snd (displacement_at c x0 y0 k rx ry))
                 ref_x ref_y).
Proof.
  intros Hc Hlen.
  unfold CubicCrystalCrack.displacements,
    CubicCrystalCrack.displacements_from_cartesian_coordinates,
    CubicCrystalCrack.displacements_from_cylinder_coordinates,
    CubicCrystalCrack.the_crack.
  rewrite Hc. cbn [rbind].
  repeat (rewrite broadcast2_same_length by same_length; cbn [rbind]).
  f_equal.
  clear Hc. revert ref_y Hlen.
  induction ref_x as [| rx ref_x IH]; intros [| ry ref_y] Hlen; try done.
  injection Hlen as Hlen. specialize (IH _ Hlen).
  injection IH as IHu IHv. cbn. f_equal; f_equal; done.
Qed.

Lemma displacements_Ok_inv (self : CubicCrystalCrack.self_t)
  (ref_x ref_y : list R) (x0 y0 k : R) (ux uy : list R) :
  length ref_x = length ref_y ->
  CubicCrystalCrack.displacements self ref_x ref_y x0 y0 k = Ok (ux, uy) ->
  exists c,
    CubicCrystalCrack.crack self = Some c
    /\ ux = zip_with (fun rx ry => fst (displacement_at c x0 y0 k rx ry))
                     ref_x ref_y
    /\ uy = zip_with (fun rx ry => snd (displacement_at c x0 y0 k rx ry))
                     ref_x ref_y.
Proof.
  intros Hlen Hrun. destruct (CubicCrystalCrack.crack self) as [c |] eqn:Hc.
  - rewrite (displacements_run self c) in Hrun by done.
    injection Hrun as <- <-. by exists c.
  - exfalso. revert Hrun.
    unfold CubicCrystalCrack.displacements,
      CubicCrystalCrack.displacements_from_cartesian_coordinates,
      CubicCrystalCrack.displacements_from_cylinder_coordinates,
      CubicCrystalCrack.the_crack.
    rewrite Hc.
    repeat (rewrite broadcast2_same_length by same_length; cbn [rbind]).
    discriminate.
Qed.

Lemma rescaled_sum (ratio : R) (ref u : list R) :
  rescaled ratio (zip_with Rplus ref u) ref
  = zip_with Rplus ref (map (Rmult ratio) u).
Proof.
  unfold rescaled. revert u.
  induction ref as [| r ref IH]; intros [| ui u]; try done.
  cbn. f_equal; [ring | apply IH].
Qed.

Lemma displacement_at_ratio (c : RectilinearAnisotropicCrack.self_t)
  (x0 y0 old_k new_k rx ry : R) :
  old_k <> 0 ->
  displacement_at c x0 y0 new_k rx ry
  = (new_k / old_k * fst (displacement_at c x0 y0 old_k rx ry),
     new_k / old_k * snd (displacement_at c x0 y0 old_k rx ry)).
Proof.
  intros Hold. unfold displacement_at. cbv zeta.
  rewrite (displacements_linear c _ _ new_k).
  rewrite (displacements_linear c _ _ old_k). cbn [fst snd].
  f_equal; field; done.
Qed.

Lemma map_of_zip_with {A B C D : Type} (f : C -> D) (g : A -> B -> C)
  (l : list A) (k : list B) :
  map f (zip_with g l k) = zip_with (fun x y => f (g x y)) l k.
Proof.
  revert k. induction l as [| x l IH]; intros [| y k]; try done.
  cbn. by rewrite IH.
Qed.

(** X6. [scale_displacements] follows the ideal field.  If the atoms sit
    at their reference positions displaced by the ideal mode I field for
    the stress intensity factor [old_k] (nonzero), as [displacements]
    computes it for reference arrays of equal length, then
    [scale_displacements] from [old_k] to [new_k] puts them at the
    reference positions displaced by the ideal field for [new_k]. *)
Theorem scale_displacements_follows_K_field (self : CubicCrystalCrack.self_t)
  (ref_x ref_y : list R) (x0 y0 old_k new_k : R) (ux uy ux' uy' : list R) :
  old_k <> 0 ->
  length ref_x = length ref_y ->
  CubicCrystalCrack.displacements self ref_x ref_y x0 y0 old_k = Ok (ux, uy) ->
  CubicCrystalCrack.displacements self ref_x ref_y x0 y0 new_k
  = Ok (ux', uy') ->
  CubicCrystalCrack.scale_displacements self
    (zip_with Rplus ref_x ux) (zip_with Rplus ref_y uy) ref_x ref_y
    old_k new_k
  = Ok (zip_with Rplus ref_x ux', zip_with Rplus ref_y uy').
Proof.
  intros Hold Hlen Hu Hu'.
  destruct (displacements_Ok_inv _ _ _ _ _ _ _ _ Hlen Hu) as (c & Hc & -> & ->).
  destruct (displacements_Ok_inv _ _ _ _ _ _ _ _ Hlen Hu')
    as (c' & Hc' & -> & ->).
  assert (c' = c) as -> by congruence.
  rewrite scale_displacements_unfold by (done || same_length).
  rewrite !rescaled_sum, !map_of_zip_with.
  do 2 f_equal; f_equal; apply zip_with_ext; try done;
    intros rx ry; by rewrite (displacement_at_ratio c x0 y0 old_k new_k).
Qed.

Lemma scale_displacements_follows_K_field_witness :
  exists c ux uy ux' uy',
    let self := CubicCrystalCrack.mk_self (fresh_moduli 166 65 77) (Some c) in
    @RectilinearAnisotropicCrack.set_plane_stress gives_up 1 1 1 0 0 0 = Ok c
    /\ (1 : R) <> 0
    /\ CubicCrystalCrack.displacements self [1; 2] [0; 1] 0 0 1 = Ok (ux, uy)
    /\ CubicCrystalCrack.displacements self [1; 2] [0; 1] 0 0 2
       = Ok (ux', uy')
    /\ CubicCrystalCrack.scale_displacements self
         (zip_with Rplus [1; 2] ux) (zip_with Rplus [0; 1] uy) [1; 2] [0; 1]
         1 2
       = Ok (zip_with Rplus [1; 2] ux', zip_with Rplus [0; 1] uy').
Proof.
  destruct paired_crack as (c & Hc & _).
  assert (H1 : (1 : R) <> 0) by lra.
  pose proof (displacements_run
                (CubicCrystalCrack.mk_self (fresh_moduli 166 65 77) (Some c))
                c [1; 2] [0; 1] 0 0 1 eq_refl eq_refl) as Hold.
  pose proof (displacements_run
                (CubicCrystalCrack.mk_self (fresh_moduli 166 65 77) (Some c))
                c [1; 2] [0; 1] 0 0 2 eq_refl eq_refl) as Hnew.
  exists c. eexists _, _, _, _. cbv zeta.
  split; [exact Hc |]. split; [exact H1 |]. split; [exact Hold |].
  split; [exact Hnew |].
  exact (scale_displacements_follows_K_field _ [1; 2] [0; 1] 0 0 1 2
           _ _ _ _ H1 eq_refl Hold Hnew).
Defined.

Lemma residual_of_sum (ref u : list R) :
  length u = length ref ->
  zip_with Rminus (zip_with Rminus (zip_with Rplus ref u) ref) u
  = map (fun _ => 0) ref.
Proof.
  revert u. induction ref as [| r ref IH]; intros [| ui u] Hlen; try done.
  cbn. f_equal; [ring | apply IH; by injection Hlen].
Qed.

(** X7. [displacement_residuals] vanishes on the ideal field: for atoms
    at their reference positions displaced by what [displacements]
    returns for (x0, y0, k), the residuals for the same (x0, y0, k) are
    zero for every atom, in x and in y. *)
Theorem ideal_field_has_no_residual (self : CubicCrystalCrack.self_t)
  (ref_x ref_y : list R) (x0 y0 k : R) (ux uy : list R) :
  length ref_x = length ref_y ->
  CubicCrystalCrack.displacements self ref_x ref_y x0 y0 k = Ok (ux, uy) ->
  CubicCrystalCrack.displacement_residuals self
    (zip_with Rplus ref_x ux) (zip_with Rplus ref_y uy) ref_x ref_y x0 y0 k
  = Ok (map (fun _ => 0) ref_x, map (fun _ => 0) ref_y).
Proof.
  intros Hlen Hu.
  destruct (displacements_Ok_inv _ _ _ _ _ _ _ _ Hlen Hu) as (c & Hc & Hux & Huy).
  assert (Hlx : length ux = length ref_x) by (subst ux; same_length).
  assert (Hly : length uy = length ref_y) by (subst uy; same_length).
  unfold CubicCrystalCrack.displacement_residuals.
  rewrite (broadcast2_same_length Rminus (zip_with Rplus ref_x ux))
    by same_length.
  cbn [rbind].
  rewrite (broadcast2_same_length Rminus (zip_with Rplus ref_y uy))
    by same_length.
  cbn [rbind]. rewrite Hu. cbn [rbind].
  rewrite !broadcast2_same_length by same_length. cbn [rbind].
  by rewrite !residual_of_sum.
Qed.

Lemma ideal_field_has_no_residual_witness :
  exists c ux uy,
    let self := CubicCrystalCrack.mk_self (fresh_moduli 166 65 77) (Some c) in
    @RectilinearAnisotropicCrack.set_plane_stress gives_up 1 1 1 0 0 0 = Ok c
    /\ CubicCrystalCrack.displacements self [1; 2] [0; 1] 0 0 1 = Ok (ux, uy)
    /\ CubicCrystalCrack.displacement_residuals self
         (zip_with Rplus [1; 2] ux) (zip_with Rplus [0; 1] uy) [1; 2] [0; 1]
         0 0 1
       = Ok ([0; 0], [0; 0]).
Proof.
  destruct paired_crack as (c & Hc & _).
  pose proof (displacements_run
                (CubicCrystalCrack.mk_self (fresh_moduli 166 65 77) (Some c))
                c [1; 2] [0; 1] 0 0 1 eq_refl eq_refl) as Hrun.
  exists c. eexists _, _. cbv zeta.
  split; [exact Hc |]. split; [exact Hrun |].
  exact (ideal_field_has_no_residual _ [1; 2] [0; 1] 0 0 1 _ _ eq_refl Hrun).
Defined.

(** ** The isotropic near-tip fields *)

Lemma sigma_at_entries (K nu : R) (zz : bool) (r t : R) :
  let radial := K / sqrt (2 * PI * r) in
  let xx := radial * cos (t / 2) * (1 - sin (t / 2) * sin (3 * t / 2)) in
  let yy := radial * cos (t / 2) * (1 + sin (t / 2) * sin (3 * t / 2)) in
  let xy := radial * sin (t / 2) * cos (t / 2) * cos (3 * t / 2) in
  sigma_at K nu zz r t
  = ((xx, xy, 0), (xy, yy, 0), (0, 0, if zz then nu * (xx + yy) else 0)).
Proof. unfold sigma_at. by destruct zz. Qed.

Lemma stress_field_Ok (K : R) (r t : list R) (xy_only : bool) (nu : R)
  (stress_state : string) (sigma : list mat3) :
  isotropic_modeI_crack_tip_stress_field K r t xy_only nu stress_state
  = Ok sigma ->
  length r = length t
  /\ (stress_state = PLANE_STRAIN \/ stress_state = PLANE_STRESS)
  /\ sigma = zip_with (sigma_at K nu
               (negb xy_only && bool_decide (stress_state = PLANE_STRAIN)))
               r t.
Proof.
  unfold isotropic_modeI_crack_tip_stress_field.
  destruct (length r =? length t)%nat eqn:Hlen; [| discriminate].
  apply Nat.eqb_eq in Hlen. cbn [negb].
  case_bool_decide as Hstate; [discriminate |].
  intros [= <-]. split; [done |]. split; [| done].
  rewrite !elem_of_cons, elem_of_nil in Hstate. tauto.
Qed.

Lemma stress_field_run (K : R) (r t : list R) (xy_only : bool) (nu : R)
  (stress_state : string) :
  length r = length t ->
  stress_state = PLANE_STRAIN \/ stress_state = PLANE_STRESS ->
  isotropic_modeI_crack_tip_stress_field K r t xy_only nu stress_state
  = Ok (zip_with (sigma_at K nu
               (negb xy_only && bool_decide (stress_state = PLANE_STRAIN)))
               r t).
Proof.
  intros Hlen Hstate. unfold isotropic_modeI_crack_tip_stress_field.
  rewrite Hlen, Nat.eqb_refl. cbn [negb].
  rewrite bool_decide_eq_false_2; [done |].
  intros Hnot. apply Hnot. rewrite !elem_of_cons. tauto.
Qed.

(** X8. Whenever [isotropic_modeI_crack_tip_stress_field] returns, it
    returns one tensor per point, and every tensor is symmetric
    (yx = xy), has no xz, zx, yz, zy component, and has zz = nu (xx + yy)
    when [xy_only] is false and the state is plane strain, and zz = 0
    otherwise (also for plane stress with [xy_only] false). *)
Theorem isotropic_stress_field_structure (K : R) (r t : list R)
  (xy_only : bool) (nu : R) (stress_state : string) (sigma : list mat3) :
  isotropic_modeI_crack_tip_stress_field K r t xy_only nu stress_state
  = Ok sigma ->
  length sigma = length r
  /\ forall T, T ∈ sigma ->
       mget T 1 0 = mget T 0 1
       /\ mget T 0 2 = 0 /\ mget T 2 0 = 0
       /\ mget T 1 2 = 0 /\ mget T 2 1 = 0
       /\ mget T 2 2
          = if negb xy_only && bool_decide (stress_state = PLANE_STRAIN)
            then nu * (mget T 0 0 + mget T 1 1) else 0.
Proof.
  intros Hrun. apply stress_field_Ok in Hrun as (Hlen & _ & ->).
  split; [rewrite length_zip_with; lia |].
  intros T HT. apply elem_of_lookup_zip_with in HT as (i & ri & ti & -> & _ & _).
  rewrite sigma_at_entries. cbv zeta.
  by destruct (negb xy_only && _).
Qed.

Lemma isotropic_stress_field_structure_witness :
  exists sigma,
    isotropic_modeI_crack_tip_stress_field 1 [1; 2] [0; PI / 3] false 0.3
      PLANE_STRAIN = Ok sigma
    /\ length sigma = 2%nat
    /\ forall T, T ∈ sigma ->
         mget T 1 0 = mget T 0 1
         /\ mget T 0 2 = 0 /\ mget T 2 0 = 0
         /\ mget T 1 2 = 0 /\ mget T 2 1 = 0
         /\ mget T 2 2 = 0.3 * (mget T 0 0 + mget T 1 1).
Proof.
  pose proof (stress_field_run 1 [1; 2] [0; PI / 3] false 0.3 PLANE_STRAIN
                eq_refl (or_introl eq_refl)) as Hrun.
  eexists. split; [exact Hrun |].
  exact (isotropic_stress_field_structure 1 [1; 2] [0; PI / 3] false 0.3
           PLANE_STRAIN _ Hrun).
Defined.

Lemma half_neg (t : R) : - t / 2 = - (t / 2).
Proof. field. Qed.
Lemma three_half_neg (t : R) : 3 * - t / 2 = - (3 * t / 2).
Proof. field. Qed.

Lemma sigma_at_reflect (K nu : R) (zz : bool) (r t : R) :
  sigma_at K nu zz r (- t) = reflect (sigma_at K nu zz r t).
Proof.
  rewrite !sigma_at_entries. cbv zeta.
  rewrite half_neg, three_half_neg, !cos_neg, !sin_neg.
  unfold reflect. cbn [mset mget vset vget row].
  destruct zz; repeat (f_equal; try ring).
Qed.

(** X9. The mode I stress field is symmetric about the crack line:
    evaluating [isotropic_modeI_crack_tip_stress_field] at the angles
    [-t] gives, point by point, the tensors at [t] with the sign of the
    shear components xy and yx reversed, xx, yy and zz being the same. *)
Theorem isotropic_stress_field_mirror (K : R) (r t : list R)
  (xy_only : bool) (nu : R) (stress_state : string) (sigma : list mat3) :
  isotropic_modeI_crack_tip_stress_field K r t xy_only nu stress_state
  = Ok sigma ->
  isotropic_modeI_crack_tip_stress_field K r (map Ropp t) xy_only nu
    stress_state
  = Ok (map reflect sigma).
Proof.
  intros Hrun. apply stress_field_Ok in Hrun as (Hlen & Hstate & ->).
  rewrite stress_field_run by (by rewrite ?length_map).
  f_equal. clear Hlen. revert t.
  induction r as [| ri r IH]; intros [| ti t]; try done.
  cbn [map zip_with]. by rewrite sigma_at_reflect, IH.
Qed.

Lemma isotropic_stress_field_mirror_witness :
  exists sigma,
    isotropic_modeI_crack_tip_stress_field 1 [1; 2] [0; PI / 3] true 0.5
      PLANE_STRESS = Ok sigma
    /\ isotropic_modeI_crack_tip_stress_field 1 [1; 2] [- 0; - (PI / 3)] true
         0.5 PLANE_STRESS = Ok (map reflect sigma).
Proof.
  pose proof (stress_field_run 1 [1; 2] [0; PI / 3] true 0.5 PLANE_STRESS
                eq_refl (or_intror eq_refl)) as Hrun.
  eexists. split; [exact Hrun |].
  exact (isotropic_stress_field_mirror 1 [1; 2] [0; PI / 3] true 0.5
           PLANE_STRESS _ Hrun).
Defined.

Lemma zip_with_const_r {A B C : Type} (f : A -> B -> C) (l : list A) (b : B) :
  zip_with f l (map (fun _ => b) l) = map (fun a => f a b) l.
Proof. induction l as [| a l IH]; [done |]. cbn. by rewrite IH. Qed.

Lemma zero_half : 0 / 2 = 0.
Proof. field. Qed.
Lemma three_zero_half : 3 * 0 / 2 = 0.
Proof. field. Qed.

(** X10. On the crack line, for points at positive distances [r] from
    the tip and either stress state: straight ahead of the tip (t = 0)
    the field is xx = yy = K / sqrt(2 pi r) with no shear (and
    zz = 2 nu K / sqrt(2 pi r) where zz is computed); on the two crack
    faces (t = pi and t = -pi) every component of every tensor is zero,
    so the faces are free of traction. *)
Theorem isotropic_stress_field_on_crack_line (K : R) (r : list R)
  (xy_only : bool) (nu : R) (stress_state : string) :
  stress_state = PLANE_STRAIN \/ stress_state = PLANE_STRESS ->
  (forall ri, ri ∈ r -> 0 < ri) ->
  let zz := negb xy_only && bool_decide (stress_state = PLANE_STRAIN) in
  isotropic_modeI_crack_tip_stress_field K r (map (fun _ => 0) r)
    xy_only nu stress_state
  = Ok (map (fun ri =>
              let s := K / sqrt (2 * PI * ri) in
              ((s, 0, 0), (0, s, 0),
               (0, 0, if zz then nu * (s + s) else 0))) r)
  /\ isotropic_modeI_crack_tip_stress_field K r (map (fun _ => PI) r)
       xy_only nu stress_state
     = Ok (map (fun _ => zeros33) r)
  /\ isotropic_modeI_crack_tip_stress_field K r (map (fun _ => - PI) r)
       xy_only nu stress_state
     = Ok (map (fun _ => zeros33) r).
Proof.
  intros Hstate _ zz.
  rewrite !stress_field_run by (by rewrite ?length_map).
  fold zz. rewrite !zip_with_const_r.
  split; [| split]; f_equal; apply map_ext; intros ri;
    rewrite sigma_at_entries; cbv zeta.
  - rewrite zero_half, three_zero_half, cos_0, sin_0.
    destruct zz; repeat (f_equal; try ring).
  - rewrite cos_PI2. unfold zeros33.
    destruct zz; repeat (f_equal; try ring).
  - rewrite half_neg, cos_neg, cos_PI2. unfold zeros33.
    destruct zz; repeat (f_equal; try ring).
Qed.

Lemma isotropic_stress_field_on_crack_line_witness :
  (forall ri, ri ∈ [1; 2] -> 0 < ri)
  /\ isotropic_modeI_crack_tip_stress_field 1 [1; 2] [PI; PI] false 0.3
       PLANE_STRAIN
     = Ok [zeros33; zeros33]
  /\ isotropic_modeI_crack_tip_stress_field 1 [1; 2] [- PI; - PI] false 0.3
       PLANE_STRAIN
     = Ok [zeros33; zeros33].
Proof.
  assert (Hpos : forall ri, ri ∈ [1; 2] -> 0 < ri).
  { intros ri Hri. rewrite !elem_of_cons, elem_of_nil in Hri.
    destruct Hri as [-> | [-> | []]]; lra. }
  split; [exact Hpos |].
  exact (proj2 (isotropic_stress_field_on_crack_line 1 [1; 2] false 0.3
                  PLANE_STRAIN (or_introl eq_refl) Hpos)).
Defined.

(** ** The isotropic displacement field *)

Lemma displacement_field_Ok (K G nu : R) (r t : list R)
  (stress_state : string) (u v : list R) :
  isotropic_modeI_crack_tip_displacement_field K G nu r t stress_state
  = Ok (u, v) ->
  length r = length t
  /\ (stress_state = PLANE_STRESS -> 1 + nu <> 0)
  /\ exists kappa,
       kolosov nu stress_state kappa
       /\ u = zip_with (fun ri ti =>
                K * sqrt (ri / (2 * PI)) / (2 * G) * cos (ti / 2)
                * (kappa - 1 + 2 * sin (ti / 2) ^ 2)) r t
       /\ v = zip_with (fun ri ti =>
                K * sqrt (ri / (2 * PI)) / (2 * G) * sin (ti / 2)
                * (kappa + 1 - 2 * cos (ti / 2) ^ 2)) r t.
Proof.
  unfold isotropic_modeI_crack_tip_displacement_field, kolosov.
  destruct (length r =? length t)%nat eqn:Hlen; [| discriminate].
  apply Nat.eqb_eq in Hlen. cbn [negb]. intros Hrun. split; [done |].
  revert Hrun.
  case_bool_decide as Hstrain; [| case_bool_decide as Hstress].
  - cbn [rbind]. intros [= <- <-]. split; [by subst |].
    eexists. split; [eauto |]. by rewrite !zip_with_fmap_l.
  - unfold py_div. case_bool_decide as Hnu; [discriminate |].
    cbn [rbind]. intros [= <- <-]. split; [done |].
    eexists. split; [eauto |]. by rewrite !zip_with_fmap_l.
  - discriminate.
Qed.

Lemma displacement_field_run (K G nu : R) (r t : list R)
  (stress_state : string) (kappa : R) :
  length r = length t ->
  (stress_state = PLANE_STRESS -> 1 + nu <> 0) ->
  kolosov nu stress_state kappa ->
  isotropic_modeI_crack_tip_displacement_field K G nu r t stress_state
  = Ok (zip_with (fun ri ti =>
                K * sqrt (ri / (2 * PI)) / (2 * G) * cos (ti / 2)
                * (kappa - 1 + 2 * sin (ti / 2) ^ 2)) r t,
        zip_with (fun ri ti =>
                K * sqrt (ri / (2 * PI)) / (2 * G) * sin (ti / 2)
                * (kappa + 1 - 2 * cos (ti / 2) ^ 2)) r t).
Proof.
  intros Hlen Hnu Hk. unfold isotropic_modeI_crack_tip_displacement_field.
  rewrite Hlen, Nat.eqb_refl. cbn [negb].
  destruct Hk as [[-> ->] | [-> ->]].
  - rewrite bool_decide_eq_true_2 by done. cbn [rbind].
    by rewrite !zip_with_fmap_l.
  - rewrite bool_decide_eq_false_2 by done.
    rewrite bool_decide_eq_true_2 by done.
    rewrite py_div_nonzero by (by apply Hnu). cbn [rbind].
    by rewrite !zip_with_fmap_l.
Qed.

Lemma cos_3a (x : R) : cos (3 * x) = 4 * cos x ^ 3 - 3 * cos x.
Proof.
  replace (3 * x) with (2 * x + x) by ring.
  rewrite cos_plus, cos_2a, sin_2a.
  pose proof (sin2_cos2 x) as H. unfold Rsqr in H.
  replace (2 * sin x * cos x * sin x) with (2 * cos x * (sin x * sin x)) by ring.
  replace (sin x * sin x) with (1 - cos x * cos x) by lra. ring.
Qed.

Lemma sin_3a (x : R) : sin (3 * x) = 3 * sin x - 4 * sin x ^ 3.
Proof.
  replace (3 * x) with (2 * x + x) by ring.
  rewrite sin_plus, cos_2a, sin_2a.
  pose proof (sin2_cos2 x) as H. unfold Rsqr in H.
  replace (2 * sin x * cos x * cos x) with (2 * sin x * (cos x * cos x)) by ring.
  replace (cos x * cos x) with (1 - sin x * sin x) by lra. ring.
Qed.

Lemma three_halves (t : R) : 3 * t / 2 = 3 * (t / 2).
Proof. field. Qed.

(** X11. The closing comment of
    [isotropic_modeI_crack_tip_displacement_field] is right: for a
    nonzero shear modulus G, what the function returns is, point by
    point, the form of Lawn's book,
    u = K/(4G) sqrt(r/(2 pi)) ((2 kappa - 1) cos(t/2) - cos(3t/2)) and
    v = K/(4G) sqrt(r/(2 pi)) ((2 kappa + 1) sin(t/2) - sin(3t/2)),
    with kappa = 3 - 4 nu in plane strain and (3 - nu)/(1 + nu) in plane
    stress. *)
Theorem displacement_field_lawn_form (K G nu : R) (r t : list R)
  (stress_state : string) (u v : list R) :
  G <> 0 ->
  isotropic_modeI_crack_tip_displacement_field K G nu r t stress_state
  = Ok (u, v) ->
  exists kappa,
    kolosov nu stress_state kappa
    /\ u = zip_with (fun ri ti => fst (lawn_form K G kappa ri ti)) r t
    /\ v = zip_with (fun ri ti => snd (lawn_form K G kappa ri ti)) r t.
Proof.
  intros HG Hrun.
  apply displacement_field_Ok in Hrun as (_ & _ & kappa & Hk & -> & ->).
  exists kappa. split; [done |].
  split; apply zip_with_ext; try done; intros ri ti;
    unfold lawn_form; cbn [fst snd];
    rewrite three_halves, ?cos_3a, ?sin_3a;
    pose proof (sin2_cos2 (ti / 2)) as Hsc; unfold Rsqr in Hsc.
  - replace (sin (ti / 2) ^ 2) with (1 - cos (ti / 2) * cos (ti / 2)) by lra.
    field. done.
  - replace (cos (ti / 2) ^ 2) with (1 - sin (ti / 2) * sin (ti / 2)) by lra.
    field. done.
Qed.

Lemma displacement_field_lawn_form_witness :
  exists u v kappa,
    (1 : R) <> 0
    /\ isotropic_modeI_crack_tip_displacement_field 1 1 0.3 [1; 2]
         [0; PI / 3] PLANE_STRAIN = Ok (u, v)
    /\ kolosov 0.3 PLANE_STRAIN kappa
    /\ u = zip_with (fun ri ti => fst (lawn_form 1 1 kappa ri ti))
                    [1; 2] [0; PI / 3]
    /\ v = zip_with (fun ri ti => snd (lawn_form 1 1 kappa ri ti))
                    [1; 2] [0; PI / 3].
Proof.
  assert (H1 : (1 : R) <> 0) by lra.
  pose proof (displacement_field_run 1 1 0.3 [1; 2] [0; PI / 3] PLANE_STRAIN
                (3 - 4 * 0.3) eq_refl ltac:(discriminate)
                (or_introl (conj eq_refl eq_refl)))
    as Hrun.
  destruct (displacement_field_lawn_form 1 1 0.3 [1; 2] [0; PI / 3]
              PLANE_STRAIN _ _ H1 Hrun) as (kappa & Hk & Hu & Hv).
  eexists _, _, kappa. split; [exact H1 |]. split; [exact Hrun |].
  split; [exact Hk |]. split; [exact Hu | exact Hv].
Defined.

(** X12. Whenever the isotropic displacement field is returned for
    angles [t], at the angles [-t] it is returned with the same u and the
    opposite v; and on the upper crack face (t = pi) the points do not
    move along the crack, u = 0, and open by
    v = K sqrt(r/(2 pi)) (kappa + 1) / (2 G). *)
Theorem displacement_field_crack_faces (K G nu : R) (r t : list R)
  (stress_state : string) (u v : list R) :
  isotropic_modeI_crack_tip_displacement_field K G nu r t stress_state
  = Ok (u, v) ->
  isotropic_modeI_crack_tip_displacement_field K G nu r (map Ropp t)
    stress_state
  = Ok (u, map Ropp v)
  /\ exists kappa,
       kolosov nu stress_state kappa
       /\ isotropic_modeI_crack_tip_displacement_field K G nu r
            (map (fun _ => PI) r) stress_state
          = Ok (map (fun _ => 0) r,
                map (fun ri => K * sqrt (ri / (2 * PI)) / (2 * G)
                               * (kappa + 1)) r).
Proof.
  intros Hrun.
  apply displacement_field_Ok in Hrun as (Hlen & Hnu & kappa & Hk & -> & ->).
  split.
  - rewrite (displacement_field_run _ _ _ _ _ _ kappa)
      by (by rewrite ?length_map).
    f_equal. rewrite map_of_zip_with, !zip_with_fmap_r.
    f_equal; apply zip_with_ext; try done; intros ri ti;
      rewrite half_neg, ?cos_neg, ?sin_neg; ring.
  - exists kappa. split; [done |].
    rewrite (displacement_field_run _ _ _ _ _ _ kappa)
      by (by rewrite ?length_map).
    rewrite !zip_with_const_r.
    f_equal. f_equal; apply map_ext; intros ri;
      rewrite ?cos_PI2, ?sin_PI2; ring.
Qed.

Lemma displacement_field_crack_faces_witness :
  exists u v kappa,
    isotropic_modeI_crack_tip_displacement_field 1 1 0.3 [1; 2]
      [0; PI / 3] PLANE_STRESS = Ok (u, v)
    /\ isotropic_modeI_crack_tip_displacement_field 1 1 0.3 [1; 2]
         [- 0; - (PI / 3)] PLANE_STRESS = Ok (u, map Ropp v)
    /\ kolosov 0.3 PLANE_STRESS kappa
    /\ isotropic_modeI_crack_tip_displacement_field 1 1 0.3 [1; 2]
         [PI; PI] PLANE_STRESS
       = Ok ([0; 0],
             [1 * sqrt (1 / (2 * PI)) / (2 * 1) * (kappa + 1);
              1 * sqrt (2 / (2 * PI)) / (2 * 1) * (kappa + 1)]).
Proof.
  pose proof (displacement_field_run 1 1 0.3 [1; 2] [0; PI / 3] PLANE_STRESS
                ((3 - 0.3) / (1 + 0.3)) eq_refl ltac:(intros _; lra)
                (or_intror (conj eq_refl eq_refl))) as Hrun.
  destruct (displacement_field_crack_faces 1 1 0.3 [1; 2] [0; PI / 3]
              PLANE_STRESS _ _ Hrun) as (Hmirror & kappa & Hk & Hface).
  eexists _, _, kappa. split; [exact Hrun |]. split; [exact Hmirror |].
  split; [exact Hk | exact Hface].
Defined.

(** ** The conversions between strain and energy release rate *)

(** X13. [G_to_strain] is meant as the inverse of [strain_to_G] and
    shares the defect of [get_stress_intensity_factor]: as the module
    stands it raises [NameError] on the unbound name [sqrt]; were [sqrt]
    bound to the square root, then for E * orig_height nonzero and
    nu^2 different from 1, [G_to_strain(strain_to_G(strain, ...), ...)]
    would return |strain|, the sign of the strain being lost. *)
Theorem G_to_strain_inverts_strain_to_G (strain E nu orig_height : R) :
  E * orig_height <> 0 -> nu * nu <> 1 ->
  exists G,
    strain_to_G strain E nu orig_height = Ok G
    /\ G_to_strain G E nu orig_height = Raise (NameError "sqrt")
    /\ G_to_strain_in (Some sqrt) G E nu orig_height = Ok (Rabs strain).
Proof.
  intros HEh Hnu. eexists. split; [by apply strain_to_G_value |].
  split; [reflexivity |].
  unfold G_to_strain_in. cbn [global_sqrt rbind].
  rewrite py_div_nonzero by done. cbn [rbind]. f_equal.
  rewrite <- sqrt_Rsqr_abs. f_equal. unfold Rsqr.
  assert (E <> 0) by (intros ->; apply HEh; ring).
  assert (orig_height <> 0) by (intros ->; apply HEh; ring).
  assert (1 - nu * nu <> 0) by lra.
  replace 0.5 with (/ 2) by lra. field. done.
Qed.

Lemma G_to_strain_inverts_strain_to_G_witness :
  100 * 10 <> 0 /\ 0.5 * 0.5 <> 1
  /\ exists G,
       strain_to_G (- 0.1) 100 0.5 10 = Ok G
       /\ G_to_strain G 100 0.5 10 = Raise (NameError "sqrt")
       /\ G_to_strain_in (Some sqrt) G 100 0.5 10 = Ok (Rabs (- 0.1)).
Proof.
  assert (H1 : 100 * 10 <> 0) by lra.
  assert (H2 : 0.5 * 0.5 <> 1) by lra.
  split; [exact H1 |]. split; [exact H2 |].
  exact (G_to_strain_inverts_strain_to_G (- 0.1) 100 0.5 10 H1 H2).
Defined.

(** X14. A failing [get_energy_release_rate] has already written to
    [atoms.info]: on a configuration that records OrigHeight [h] and no
    YoungsModulus, and whose height is [height], the call raises
    [KeyError('YoungsModulus')] and leaves
    [atoms.info['strain'] = height / h - 1] behind; positions and the
    caller's arrays are untouched. *)
Theorem energy_release_rate_missing_modulus (w : world) (h height : R) :
  info (atoms w) !! "OrigHeight" = Some (VFloat h) ->
  info (atoms w) !! "YoungsModulus" = None ->
  slab_height (atoms w) height ->
  exists w',
    get_energy_release_rate w = (w', Raise (KeyError "YoungsModulus"))
    /\ info (atoms w')
       = <["strain" := VFloat (height / h - 1)]> (info (atoms w))
    /\ positions (atoms w') = positions (atoms w)
    /\ heap w' = heap w.
Proof.
  intros Hh HE (hi & lo & Hhi & Hlo & Hbounds & ->).
  assert (Hmax : np_max (map (fun p => vget p 1) (positions (atoms w))) = Ok hi)
    by (apply np_max_greatest; [done | intros y Hy; by apply Hbounds]).
  assert (Hmin : np_min (map (fun p => vget p 1) (positions (atoms w))) = Ok lo)
    by (apply np_min_least; [done | intros y Hy; by apply Hbounds]).
  unfold get_energy_release_rate, bind.
  rewrite (get_strain_run w h hi lo Hh Hmax Hmin).
  unfold info_get at 1 2, getitem. cbn [fst info_set atoms info].
  rewrite !lookup_insert_ne by done. rewrite Hh, HE.
  eexists. split; [reflexivity |]. done.
Qed.

Lemma unlabelled_strip_height : slab_height unlabelled_strip 11.
Proof.
  exists 11, 0. cbn.
  split; [rewrite !elem_of_cons; auto |].
  split; [rewrite !elem_of_cons; auto |]. split; [| lra].
  intros y Hy. rewrite !elem_of_cons, elem_of_nil in Hy.
  destruct Hy as [-> | [-> | []]]; lra.
Qed.

Lemma energy_release_rate_missing_modulus_witness :
  slab_height unlabelled_strip 11
  /\ exists w',
       get_energy_release_rate unlabelled_strip_world
       = (w', Raise (KeyError "YoungsModulus"))
       /\ info (atoms w')
          = <["strain" := VFloat (11 / 10 - 1)]> (info unlabelled_strip)
       /\ positions (atoms w') = positions unlabelled_strip
       /\ heap w' = ∅.
Proof.
  split; [exact unlabelled_strip_height |].
  exact (energy_release_rate_missing_modulus unlabelled_strip_world 10 11
           eq_refl eq_refl unlabelled_strip_height).
Defined.

Section fit_more.
Context `{External}.

(** X15. [fit_crack_stress_field] cannot guess K from the strain
  bookkeeping: when neither [initial_params] nor [atoms.info] gives K
  and [atoms.info] carries OrigHeight, YoungsModulus and
  PoissonRatio_yx (floats) for a non-empty configuration, the guess
  goes through [get_stress_intensity_factor], which raises: a
  [ZeroDivisionError] in [strain_to_G] when nu^2 = 1, the [NameError]
  of the unbound [sqrt] otherwise.  Neither is caught by the
  [except KeyError], and the whole fit raises it for every choice of
  the other arguments. *)
Theorem fit_fails_guessing_K
(r_range : option (R * R))
(initial_params fix_params : option (gmap string R))
(sigma avg_sigma : option loc) (avg_decay : R)
(calc : option Calculator) (verbose : bool)
(w : world) (h E nu : R) :
match initial_params with Some ip => ip !! "K" = None | None => True end ->
info (atoms w) !! "K" = None ->
info (atoms w) !! "OrigHeight" = Some (VFloat h) ->
info (atoms w) !! "YoungsModulus" = Some (VFloat E) ->
info (atoms w) !! "PoissonRatio_yx" = Some (VFloat nu) ->
positions (atoms w) <> [] ->
snd (fit_crack_stress_field r_range initial_params fix_params sigma
       avg_sigma avg_decay calc verbose w)
= Raise (if bool_decide (nu * nu = 1) then ZeroDivisionError
         else NameError "sqrt").
Proof.
intros Hip HK Hh HE Hnu Hpos.
destruct (np_max (map (fun p => vget p 1) (positions (atoms w))))
  as [hi |] eqn:Hhi;
  [| destruct (positions (atoms w)); [done | discriminate]].
destruct (np_min (map (fun p => vget p 1) (positions (atoms w))))
  as [lo |] eqn:Hlo;
  [| destruct (positions (atoms w)); [done | discriminate]].
apply fit_stops_with_guessing.
apply starting_params_stops_at_K; [exact Hip |].
intros params. by apply (guess_K_unbound_sqrt params w h E nu hi lo).
Qed.

End fit_more.


Lemma fit_fails_guessing_K_witness :
  positions strip <> []
  /\ snd (@fit_crack_stress_field gives_up (Some (0, 50)) None None None None
            0.005 None false strip_world)
     = Raise (if bool_decide (0.5 * 0.5 = 1) then ZeroDivisionError
              else NameError "sqrt").
Proof.
  assert (Hpos : positions strip <> []) by discriminate.
  split; [exact Hpos |].
  exact (@fit_fails_guessing_K gives_up (Some (0, 50)) None None None None
           0.005 None false strip_world 10 100 0.5 I eq_refl eq_refl eq_refl
           eq_refl Hpos).
Defined.

(** ** What a successful fit leaves behind *)




Section fit_result.
Context `{External}.




End fit_result.



(** ** Picking the tip atoms by coordination *)

Lemma argmax_from_spec (l pre : list R) (best : R) (besti : nat) :
  pre !! besti = Some best ->
  (forall v, v ∈ pre -> v <= best) ->
  exists vk,
    (pre ++ l) !! argmax_from best besti (length pre) l = Some vk
    /\ forall v, v ∈ pre ++ l -> v <= vk.
Proof.
  revert pre best besti.
  induction l as [| x l IH]; intros pre best besti Hbest Hub.
  - exists best. rewrite app_nil_r. by split.
  - cbn [argmax_from].
    replace (pre ++ x :: l) with ((pre ++ [x]) ++ l)
      by (by rewrite <- app_assoc).
    replace (S (length pre)) with (length (pre ++ [x]))
      by (rewrite length_app; cbn; lia).
    unfold Rgtb. case_bool_decide as Hgt.
    + apply IH.
      * rewrite lookup_app_r by lia.
        replace (length pre - length pre)%nat with 0%nat by lia. done.
      * intros v [Hv | ->%list_elem_of_singleton]%elem_of_app; [| lra].
        specialize (Hub v Hv). lra.
    + apply IH.
      * apply lookup_app_l_Some. done.
      * intros v [Hv | ->%list_elem_of_singleton]%elem_of_app; [| lra].
        by apply Hub.
Qed.

Lemma argmax_spec (l : list R) (k : nat) :
  argmax l = Ok k ->
  exists vk, l !! k = Some vk /\ forall v, v ∈ l -> v <= vk.
Proof.
  destruct l as [| x l]; [discriminate |]. intros [= <-].
  destruct (argmax_from_spec l [x] x 0 eq_refl) as (vk & Hk & Hub).
  { intros v ->%list_elem_of_singleton. lra. }
  exists vk. by split.
Qed.

Lemma selected_aligned (n : nat) (m : list bool) (x : list R) :
  length m = length x ->
  Forall2 (fun xi i => (n <= i)%nat /\ m !! (i - n)%nat = Some true
                       /\ x !! (i - n)%nat = Some xi)
    (map snd (filter (fun p => Is_true (fst p)) (zip m x)))
    (map fst (filter (fun p => Is_true (snd p))
                (imap (fun i b => ((n + i)%nat, b)) m))).
Proof.
  revert n x. induction m as [| b m IH]; intros n [| xi x] Hlen; try done.
  injection Hlen as Hlen. cbn [zip zip_with imap].
  rewrite (imap_ext _ (fun i b => ((S n + i)%nat, b)))
    by (intros; cbn; f_equal; lia).
  assert (Htail :
    Forall2 (fun xi0 i => (n <= i)%nat /\ (b :: m) !! (i - n)%nat = Some true
                          /\ (xi :: x) !! (i - n)%nat = Some xi0)
      (map snd (filter (fun p => Is_true (fst p)) (zip m x)))
      (map fst (filter (fun p => Is_true (snd p))
                  (imap (fun i b => ((S n + i)%nat, b)) m)))).
  { eapply Forall2_impl; [apply (IH (S n) x Hlen) |].
    intros xj i (Hle & Hm & Hx). split; [lia |].
    replace (i - n)%nat with (S (i - S n)) by lia. done. }
  destruct b.
  - rewrite !filter_cons_True by done. cbn [map fst snd].
    constructor; [| done].
    replace (n + 0 - n)%nat with 0%nat by lia. split; [lia | done].
  - rewrite !filter_cons_False by (cbn; tauto). done.
Qed.

Lemma pick_rightmost (m : list bool) (x : list R) (i : nat) :
  (let? xs := take_mask m x in
   let? k := argmax xs in
   item (nonzero m) k)%result = Ok i ->
  rightmost m x i.
Proof.
  unfold take_mask.
  destruct (length m =? length x)%nat eqn:Hlen; [| discriminate].
  apply Nat.eqb_eq in Hlen. cbn [rbind].
  destruct (argmax _) as [k |] eqn:Hk; [| discriminate]. cbn [rbind].
  unfold item. destruct (nonzero m !! k) as [i' |] eqn:Hi; [| discriminate].
  intros [= ->].
  apply argmax_spec in Hk as (vk & Hvk & Hub).
  pose proof (selected_aligned 0 m x Hlen) as Hal.
  destruct (Forall2_lookup_lr _ _ _ k vk i Hal Hvk Hi) as (_ & Hm & Hx).
  rewrite Nat.sub_0_r in Hm, Hx.
  split; [done |]. exists vk. split; [done |].
  intros j xj Hmj Hxj. apply Hub.
  apply (list_elem_of_fmap_2 snd _ (true, xj)).
  apply list_elem_of_filter. split; [done |].
  apply (elem_of_lookup_zip_with_2 pair m x true xj (true, xj) j Hmj Hxj).
Qed.

(** X18. Whenever [find_tip_coordination] returns [(bond1, bond2)], the
    cluster has a 'groups' array, [bond1] is an atom of the mask [above]
    (fewer than [bulk_nn] neighbours, group 1, y above half the cell)
    whose x coordinate no atom of [above] exceeds, [bond2] is the same
    for the mask [below]; the cluster's arrays 'n_neighb', 'above' and
    'below' and the entries 'bond1' and 'bond2' of its info have been
    set accordingly, and positions and cell are unchanged. *)
Theorem find_tip_coordination_picks_rightmost
  (NeighborList_counts : R -> Cluster -> list Z)
  (a a' : Cluster) (bondlength : R) (bulk_nn : Z) (bond1 bond2 : nat) :
  find_tip_coordination NeighborList_counts a bondlength bulk_nn
  = (a', Ok (bond1, bond2)) ->
  exists g,
    cl_arrays a !! "groups" = Some g
    /\ let nn := NeighborList_counts bondlength a in
       let x := map (fun p => vget p 0) (cl_positions a) in
       let y := map (fun p => vget p 1) (cl_positions a) in
       let half := mget (cl_cell a) 1 1 / 2 in
       let above := above_mask nn (as_ints g) y bulk_nn half in
       let below := below_mask nn (as_ints g) y bulk_nn half in
       rightmost above x bond1 /\ rightmost below x bond2
       /\ cl_arrays a'
          = <["below" := BoolArray below]>
              (<["above" := BoolArray above]>
                 (<["n_neighb" := IntArray nn]> (cl_arrays a)))
       /\ cl_info a' = <["bond2" := bond2]> (<["bond1" := bond1]> (cl_info a))
       /\ cl_positions a' = cl_positions a /\ cl_cell a' = cl_cell a.
Proof.
  unfold find_tip_coordination.
  cbn [set_array cl_arrays cl_positions cl_cell cl_info].
  rewrite lookup_insert_ne by done.
  destruct (cl_arrays a !! "groups") as [g |]; [| discriminate].
  destruct (negb _); [discriminate |].
  cbn [set_array cl_arrays cl_positions cl_cell cl_info].
  destruct (rbind (take_mask (above_mask _ _ _ _ _) _) _) as [b1 |] eqn:H1;
    [| discriminate].
  destruct (rbind (take_mask (below_mask _ _ _ _ _) _) _) as [b2 |] eqn:H2;
    [| discriminate].
  intros [= <- <- <-]. exists g. split; [done |]. cbv zeta.
  split; [by apply pick_rightmost |]. split; [by apply pick_rightmost |].
  done.
Qed.

Lemma two_atom_cluster_run :
  find_tip_coordination three_neighbours two_atom_cluster 2.6 4
  = ({| cl_positions := cl_positions two_atom_cluster;
        cl_cell := cl_cell two_atom_cluster;
        cl_arrays := <["below" := BoolArray [false; true]]>
                       (<["above" := BoolArray [true; false]]>
                          (<["n_neighb" := IntArray [3%Z; 3%Z]]>
                             (cl_arrays two_atom_cluster)));
        cl_info := <["bond2" := 1%nat]> (<["bond1" := 0%nat]> ∅) |},
     Ok (0%nat, 1%nat)).
Proof.
  unfold find_tip_coordination.
  cbn [set_array cl_arrays cl_positions cl_cell cl_info two_atom_cluster
       three_neighbours map].
  rewrite lookup_insert_ne, lookup_insert_eq by done.
  cbn [as_ints length Nat.eqb andb negb vget mget row].
  unfold above_mask, below_mask.
  cbn [map zip_with].
  rewrite (Rgtb_true 3 (4 / 2)), (Rgtb_false 1 (4 / 2)) by lra.
  rewrite (Rltb_false 3 (4 / 2)), (Rltb_true 1 (4 / 2)) by lra.
  vm_compute. reflexivity.
Qed.

Lemma find_tip_coordination_picks_rightmost_witness :
  exists a',
    find_tip_coordination three_neighbours two_atom_cluster 2.6 4
    = (a', Ok (0%nat, 1%nat))
    /\ exists g,
         cl_arrays two_atom_cluster !! "groups" = Some g
         /\ let nn := three_neighbours 2.6 two_atom_cluster in
            let x := map (fun p => vget p 0) (cl_positions two_atom_cluster) in
            let y := map (fun p => vget p 1) (cl_positions two_atom_cluster) in
            let half := mget (cl_cell two_atom_cluster) 1 1 / 2 in
            let above := above_mask nn (as_ints g) y 4 half in
            let below := below_mask nn (as_ints g) y 4 half in
            rightmost above x 0 /\ rightmost below x 1
            /\ cl_arrays a'
               = <["below" := BoolArray below]>
                   (<["above" := BoolArray above]>
                      (<["n_neighb" := IntArray nn]>
                         (cl_arrays two_atom_cluster)))
            /\ cl_info a'
               = <["bond2" := 1%nat]>
                   (<["bond1" := 0%nat]> (cl_info two_atom_cluster))
            /\ cl_positions a' = cl_positions two_atom_cluster
            /\ cl_cell a' = cl_cell two_atom_cluster.
Proof.
  eexists. split; [exact two_atom_cluster_run |].
  exact (find_tip_coordination_picks_rightmost three_neighbours
           two_atom_cluster _ 2.6 4 0 1 two_atom_cluster_run).
Defined.

(** ** The displacement ramp of the thin strip *)

(** ** Boolean masks *)

Lemma take_mask_cons {A : Type} (b : bool) (m : list bool) (a : A)
  (arr l : list A) :
  take_mask m arr = Ok l ->
  take_mask (b :: m) (a :: arr) = Ok (if b then a :: l else l).
Proof.
  unfold take_mask. cbn [length Nat.eqb].
  destruct (length m =? length arr)%nat; [| discriminate].
  intros [= <-]. f_equal. cbn [zip zip_with].
  destruct b.
  - by rewrite filter_cons_True by done.
  - by rewrite filter_cons_False by (cbn; tauto).
Qed.

Lemma count_cons (b : bool) (m : list bool) :
  length (filter (fun b => Is_true b) (b :: m))
  = ((if b then 1 else 0) + length (filter (fun b => Is_true b) m))%nat.
Proof.
  destruct b.
  - by rewrite filter_cons_True by done.
  - by rewrite filter_cons_False by (cbn; tauto).
Qed.

(** Writing, where [p] holds, the values computed from the entries
    selected by the same mask. *)
Lemma masked_assign (p : R -> bool) (g : R -> R -> R) (x y u : list R) :
  length x = length y -> length u = length y ->
  exists xs ys,
    take_mask (map p x) x = Ok xs /\ take_mask (map p x) y = Ok ys
    /\ length xs = length ys
    /\ length ys = length (filter (fun b => Is_true b) (map p x))
    /\ put_mask (map p x) (zip_with g xs ys) u
       = zip_with (fun f ui => f ui)
           (zip_with (fun xi yi ui => if p xi then g xi yi else ui) x y) u.
Proof.
  revert y u. induction x as [| xi x IH]; intros [| yi y] [| ui u] Hxy Hu;
    try done.
  - by exists [], [].
  - injection Hxy as Hxy. injection Hu as Hu.
    destruct (IH y u Hxy Hu) as (xs & ys & Hxs & Hys & Hlen & Hcount & Hput).
    exists (if p xi then xi :: xs else xs), (if p xi then yi :: ys else ys).
    cbn [map]. rewrite (take_mask_cons _ _ _ _ _ Hxs).
    rewrite (take_mask_cons _ _ _ _ _ Hys). rewrite count_cons.
    destruct (p xi) eqn:Hp; cbn; rewrite ?Hput, ?Hlen, ?Hcount, ?Hp; done.
Qed.

Lemma setitem_mask_run (m : list bool) (values arr : list R) :
  length m = length arr ->
  length values = length (filter (fun b => Is_true b) m) ->
  setitem_mask m values arr = Ok (put_mask m values arr).
Proof.
  intros Hm Hv. unfold setitem_mask.
  by rewrite Hm, Hv, !Nat.eqb_refl.
Qed.

Lemma map_as_zip_with {A B C : Type} (h : B -> C) (xs : list A) (ys : list B) :
  length xs = length ys -> map h ys = zip_with (fun _ yi => h yi) xs ys.
Proof.
  revert ys. induction xs as [| xi xs IH]; intros [| yi ys] Hlen; try done.
  cbn. f_equal. apply IH. by injection Hlen.
Qed.

Lemma ramp_values (phi : R -> R) (f1 f2 : R -> R -> R) (xs ys : list R) :
  length xs = length ys ->
  zip_with Rplus (zip_with f1 (map phi xs) ys) (zip_with f2 (map phi xs) ys)
  = zip_with (fun xi yi => f1 (phi xi) yi + f2 (phi xi) yi) xs ys.
Proof.
  revert ys. induction xs as [| xi xs IH]; intros [| yi ys] Hlen; try done.
  cbn. f_equal. apply IH. by injection Hlen.
Qed.

Lemma np_max_Ok (l : list R) : l <> [] -> exists hi, np_max l = Ok hi.
Proof. destruct l; [done |]. eexists. reflexivity. Qed.

Lemma np_max_inv (l : list R) (hi : R) :
  np_max l = Ok hi -> hi ∈ l /\ forall y, y ∈ l -> y <= hi.
Proof.
  destruct l as [| x l]; [discriminate |]. intros [= <-].
  apply fold_left_Rmax_spec.
Qed.

Lemma np_min_inv (l : list R) (lo : R) :
  np_min l = Ok lo -> lo ∈ l /\ forall y, y ∈ l -> lo <= y.
Proof.
  destruct l as [| x l]; [discriminate |]. intros [= <-].
  apply fold_left_Rmin_spec.
Qed.

Lemma thin_strip_run (x y : list R) (strain a b hi lo : R) :
  length x = length y ->
  np_max y = Ok hi -> np_min y = Ok lo ->
  thin_strip_displacement_y x y strain a b
  = Ok (zip_with (strip_displacement_at strain a b (hi - lo)) x y).
Proof.
  intros Hlen Hhi Hlo. unfold thin_strip_displacement_y.
  rewrite Hhi, Hlo. cbn [rbind].
  set (shift := strain * (hi - lo) / 2).
  (* region shift for x < a *)
  destruct (masked_assign (fun xi => Rltb xi a)
              (fun _ yi => np_sign yi * shift) x y (map (fun _ => 0) y))
    as (xs1 & ys1 & _ & Hys1 & Hl1 & Hc1 & Hput1);
    [done | by rewrite length_map |].
  rewrite Hys1. cbn [rbind].
  rewrite (map_as_zip_with _ xs1 ys1 Hl1).
  rewrite setitem_mask_run, Hput1
    by (rewrite ?length_zip_with, ?length_map; lia).
  cbn [rbind]. clear Hput1 Hys1.
  (* constant strain for x > b *)
  match goal with
  | |- context [setitem_mask _ _ ?u1] =>
      destruct (masked_assign (fun xi => Rgtb xi b)
                  (fun _ yi => strain * yi) x y u1)
        as (xs2 & ys2 & _ & Hys2 & Hl2 & Hc2 & Hput2);
      [done | rewrite !length_zip_with, length_map; lia |]
  end.
  rewrite Hys2. cbn [rbind].
  rewrite (map_as_zip_with _ xs2 ys2 Hl2).
  rewrite setitem_mask_run, Hput2
    by (rewrite ?length_zip_with, ?length_map, ?length_zip_with, ?length_map;
        lia).
  cbn [rbind]. clear Hput2 Hys2.
  (* interpolate for a <= x <= b *)
  match goal with
  | |- context [setitem_mask _ _ ?u2] =>
      destruct (masked_assign (fun xi => Rgeb xi a && Rleb xi b)
                  (fun xi yi => (xi - a) / (b - a) * strain * yi
                                + (1 - (xi - a) / (b - a)) * shift * np_sign yi)
                  x y u2)
        as (xs3 & ys3 & Hxs3 & Hys3 & Hl3 & Hc3 & Hput3);
      [done
      | rewrite !length_zip_with, ?length_map, ?length_zip_with, ?length_map;
        lia |]
  end.
  rewrite Hxs3, Hys3. cbn [rbind].
  repeat (rewrite broadcast2_same_length
            by (rewrite ?length_zip_with, ?length_map; lia);
          cbn [rbind]).
  rewrite (ramp_values (fun xi => (xi - a) / (b - a))
             (fun fi yi => fi * strain * yi)
             (fun fi yi => (1 - fi) * shift * np_sign yi) xs3 ys3 Hl3).
  rewrite setitem_mask_run, Hput3
    by (rewrite ?length_zip_with, ?length_map, ?length_zip_with, ?length_map,
          ?length_zip_with, ?length_map; lia).
  f_equal. clear. revert y.
  induction x as [| xi x IH]; intros [| yi y]; try done.
  cbn [zip_with map]. by rewrite IH.
Qed.

Lemma Rgeb_true (x y : R) : y <= x -> Rgeb x y = true.
Proof. intros Hle. unfold Rgeb. by apply bool_decide_eq_true_2. Qed.
Lemma Rgeb_false (x y : R) : x < y -> Rgeb x y = false.
Proof. intros Hlt. unfold Rgeb. apply bool_decide_eq_false_2. lra. Qed.
Lemma Rleb_true (x y : R) : x <= y -> Rleb x y = true.
Proof. intros Hle. unfold Rleb. by apply bool_decide_eq_true_2. Qed.
Lemma Rleb_false (x y : R) : y < x -> Rleb x y = false.
Proof. intros Hlt. unfold Rleb. apply bool_decide_eq_false_2. lra. Qed.

Lemma strip_displacement_left (strain a b height xi yi : R) :
  a < b -> xi < a ->
  strip_displacement_at strain a b height xi yi
  = np_sign yi * (strain * height / 2).
Proof.
  intros Hab Hx. unfold strip_displacement_at.
  rewrite Rltb_true, Rgtb_false, Rgeb_false by lra. reflexivity.
Qed.

Lemma strip_displacement_right (strain a b height xi yi : R) :
  a < b -> b < xi ->
  strip_displacement_at strain a b height xi yi = strain * yi.
Proof.
  intros Hab Hx. unfold strip_displacement_at.
  rewrite Rltb_false, Rgtb_true, Rgeb_true, Rleb_false by lra. reflexivity.
Qed.

Lemma strip_displacement_middle (strain a b height xi yi : R) :
  a <= xi <= b ->
  strip_displacement_at strain a b height xi yi
  = (xi - a) / (b - a) * strain * yi
    + (1 - (xi - a) / (b - a)) * (strain * height / 2) * np_sign yi.
Proof.
  intros Hx. unfold strip_displacement_at.
  rewrite Rgeb_true, Rleb_true by lra. reflexivity.
Qed.

(** X19. For x and y of equal length describing a non-empty slab of
    height H = max y - min y, and a < b, [thin_strip_displacement_y]
    returns one displacement per atom: sign(y) strain H / 2 for the
    atoms with x <= a (a rigid shift), strain * y for those with x >= b
    (uniform strain), and the interpolation
    f strain y + (1 - f) (strain H / 2) sign(y), f = (x - a)/(b - a), in
    between; the three masked assignments do not interfere and the ramp
    joins both regions continuously at x = a and at x = b. *)
Theorem thin_strip_ramp (x y : list R) (strain a b hi lo : R) :
  length x = length y -> np_max y = Ok hi -> np_min y = Ok lo -> a < b ->
  let shift := strain * (hi - lo) / 2 in
  exists u,
    thin_strip_displacement_y x y strain a b = Ok u
    /\ length u = length y
    /\ forall i xi yi ui,
         x !! i = Some xi -> y !! i = Some yi -> u !! i = Some ui ->
         (xi <= a -> ui = np_sign yi * shift)
         /\ (b <= xi -> ui = strain * yi)
         /\ (a <= xi <= b ->
             ui = (xi - a) / (b - a) * strain * yi
                  + (1 - (xi - a) / (b - a)) * shift * np_sign yi).
Proof.
  intros Hlen Hhi Hlo Hab shift.
  eexists. split; [by apply thin_strip_run |].
  split; [rewrite length_zip_with; lia |].
  intros i xi yi ui Hxi Hyi Hui.
  rewrite lookup_zip_with, Hxi, Hyi in Hui. injection Hui as <-.
  split; [| split].
  - intros [Hlt | ->].
    + by apply strip_displacement_left.
    + rewrite strip_displacement_middle by lra. fold shift. field. lra.
  - intros [Hlt | <-].
    + by apply strip_displacement_right.
    + rewrite strip_displacement_middle by lra. fold shift. field. lra.
  - apply strip_displacement_middle.
Qed.

Lemma np_max_pair (lo hi : R) : lo <= hi -> np_max [lo; hi] = Ok hi.
Proof.
  intros Hle. apply np_max_greatest.
  - rewrite !elem_of_cons. auto.
  - intros y Hy. rewrite !elem_of_cons, elem_of_nil in Hy.
    destruct Hy as [-> | [-> | []]]; lra.
Qed.

Lemma np_min_pair (lo hi : R) : lo <= hi -> np_min [lo; hi] = Ok lo.
Proof.
  intros Hle. apply np_min_least.
  - rewrite !elem_of_cons. auto.
  - intros y Hy. rewrite !elem_of_cons, elem_of_nil in Hy.
    destruct Hy as [-> | [-> | []]]; lra.
Qed.

Lemma thin_strip_ramp_witness :
  0 < 1
  /\ exists u,
       thin_strip_displacement_y [0; 2] [- (1); 1] 0.1 0 1 = Ok u
       /\ length u = 2%nat
       /\ forall i xi yi ui,
            [0; 2] !! i = Some xi -> [- (1); 1] !! i = Some yi ->
            u !! i = Some ui ->
            (xi <= 0 -> ui = np_sign yi * (0.1 * (1 - - (1)) / 2))
            /\ (1 <= xi -> ui = 0.1 * yi)
            /\ (0 <= xi <= 1 ->
                ui = (xi - 0) / (1 - 0) * 0.1 * yi
                     + (1 - (xi - 0) / (1 - 0)) * (0.1 * (1 - - (1)) / 2)
                       * np_sign yi).
Proof.
  assert (Hab : 0 < 1) by lra.
  split; [exact Hab |].
  exact (thin_strip_ramp [0; 2] [- (1); 1] 0.1 0 1 1 (- (1)) eq_refl
           (np_max_pair (- (1)) 1 ltac:(lra))
           (np_min_pair (- (1)) 1 ltac:(lra)) Hab).
Defined.

Lemma np_sign_cases (y : R) :
  (y < 0 /\ np_sign y = -1) \/ (y = 0 /\ np_sign y = 0)
  \/ (0 < y /\ np_sign y = 1).
Proof.
  unfold np_sign. destruct (Rtotal_order y 0) as [Hneg | [-> | Hpos]].
  - left. by rewrite Rltb_true.
  - right; left. by rewrite !Rltb_false by lra.
  - right; right. by rewrite Rltb_false, Rltb_true by lra.
Qed.

(** X20. For a slab centred on y = 0 (min y = - max y = -hi) and a < b,
    no displacement returned by [thin_strip_displacement_y] exceeds
    |strain| hi in absolute value, and every atom of the top and bottom
    rows (y = hi or y = -hi) is displaced by exactly strain * y wherever
    it is along x: the two boundary rows stay straight, at
    y = +-(1 + strain) hi. *)
Theorem thin_strip_clamped_rows (x y : list R) (strain a b hi : R) :
  length x = length y -> np_max y = Ok hi -> np_min y = Ok (- hi) -> a < b ->
  exists u,
    thin_strip_displacement_y x y strain a b = Ok u
    /\ forall i yi ui,
         y !! i = Some yi -> u !! i = Some ui ->
         Rabs ui <= Rabs strain * hi
         /\ (yi = hi \/ yi = - hi -> ui = strain * yi).
Proof.
  intros Hlen Hhi Hlo Hab.
  eexists. split; [by apply thin_strip_run |].
  intros i yi ui Hyi Hui.
  rewrite lookup_zip_with in Hui.
  destruct (x !! i) as [xi |]; [| done]. cbn in Hui. rewrite Hyi in Hui.
  injection Hui as <-.
  apply np_max_inv in Hhi as [_ Hub]. apply np_min_inv in Hlo as [_ Hlb].
  assert (Hy : - hi <= yi <= hi).
  { split; [apply Hlb | apply Hub]; by eapply list_elem_of_lookup_2. }
  replace (hi - - hi) with (2 * hi) by ring.
  set (s := strain).
  assert (Hpoint :
    exists f, 0 <= f <= 1
      /\ strip_displacement_at s a b (2 * hi) xi yi
         = s * (f * yi + (1 - f) * hi * np_sign yi)).
  { destruct (Rlt_dec xi a) as [Hxa |]; [| destruct (Rlt_dec b xi) as [Hbx |]].
    - exists 0. split; [lra |].
      rewrite strip_displacement_left by done. field.
    - exists 1. split; [lra |].
      rewrite strip_displacement_right by done. ring.
    - exists ((xi - a) / (b - a)). split.
      + split.
        * apply Rmult_le_pos; [lra |]. left. apply Rinv_0_lt_compat. lra.
        * apply (Rmult_le_reg_r (b - a)); [lra |].
          unfold Rdiv. rewrite Rmult_assoc, Rinv_l by lra. lra.
      + rewrite strip_displacement_middle by lra. field. lra. }
  destruct Hpoint as (f & Hf & ->).
  split.
  - rewrite Rabs_mult. apply Rmult_le_compat_l; [apply Rabs_pos |].
    apply Rabs_le.
    destruct (np_sign_cases yi) as [[Hs ->] | [[Hs ->] | [Hs ->]]]; nra.
  - destruct (np_sign_cases yi) as [[Hs ->] | [[Hs ->] | [Hs ->]]];
      intros [-> | ->]; try nra; try lra.
Qed.

Lemma thin_strip_clamped_rows_witness :
  0 < 1
  /\ exists u,
       thin_strip_displacement_y [0; 2] [- (1); 1] 0.1 0 1 = Ok u
       /\ forall i yi ui,
            [- (1); 1] !! i = Some yi -> u !! i = Some ui ->
            Rabs ui <= Rabs 0.1 * 1
            /\ (yi = 1 \/ yi = - (1) -> ui = 0.1 * yi).
Proof.
  assert (Hab : 0 < 1) by lra.
  split; [exact Hab |].
  exact (thin_strip_clamped_rows [0; 2] [- (1); 1] 0.1 0 1 1 eq_refl
           (np_max_pair (- (1)) 1 ltac:(lra))
           (np_min_pair (- (1)) 1 ltac:(lra)) Hab).
Defined.

(** ** The constant strain rate constraint *)

Lemma np_max_scaled (l : list R) (hi alpha : R) :
  0 <= alpha -> np_max l = Ok hi ->
  np_max (map (fun yi => yi * alpha) l) = Ok (hi * alpha).
Proof.
  intros Ha [Hin Hub]%np_max_inv. apply np_max_greatest.
  - apply (list_elem_of_fmap_2 (fun yi => yi * alpha)). done.
  - intros y (yi & -> & Hyi)%list_elem_of_fmap.
    apply Rmult_le_compat_r; [done | by apply Hub].
Qed.

Lemma np_min_scaled (l : list R) (lo alpha : R) :
  0 <= alpha -> np_min l = Ok lo ->
  np_min (map (fun yi => yi * alpha) l) = Ok (lo * alpha).
Proof.
  intros Ha [Hin Hlb]%np_min_inv. apply np_min_least.
  - apply (list_elem_of_fmap_2 (fun yi => yi * alpha)). done.
  - intros y (yi & -> & Hyi)%list_elem_of_fmap.
    apply Rmult_le_compat_r; [done | by apply Hlb].
Qed.

Lemma strain_of_Ok (h0 : R) (pos : list vec3) (cur : R) :
  strain_of h0 pos = Ok cur ->
  exists hi lo,
    np_max (map (fun p => vget p 1) pos) = Ok hi
    /\ np_min (map (fun p => vget p 1) pos) = Ok lo
    /\ cur = (hi - lo) / h0 - 1.
Proof.
  unfold strain_of.
  destruct (np_max _) as [hi |]; [| discriminate].
  destruct (np_min _) as [lo |]; [| discriminate].
  intros [= <-]. by exists hi, lo.
Qed.

Lemma np_min_Ok (l : list R) : l <> [] -> exists lo, np_min l = Ok lo.
Proof. destruct l; [done |]. eexists. reflexivity. Qed.

Section strain_rate.
Import ConstantStrainRate.

Lemma vget_vset_1 (p : vec3) (v : R) : vget (vset p 1 v) 1 = v.
Proof. by destruct p as [[a b] c]. Qed.
Lemma vget_vset_0 (p : vec3) (v : R) : vget (vset p 1 v) 0 = vget p 0.
Proof. by destruct p as [[a b] c]. Qed.
Lemma vget_vset_2 (p : vec3) (v : R) : vget (vset p 1 v) 2 = vget p 2.
Proof. by destruct p as [[a b] c]. Qed.

Lemma adjust_positions_default (h0 delta hi lo : R)
(oldpos newpos : list vec3) :
np_max (map (fun p => vget p 1) newpos) = Ok hi ->
np_min (map (fun p => vget p 1) newpos) = Ok lo ->
let cur := (hi - lo) / h0 - 1 in
adjust_positions (__init__ h0 delta None) oldpos newpos
= Ok (map (fun p => vset p 1 (vget p 1 * ((1 + (cur + delta)) / (1 + cur))))
          newpos).
Proof.
intros Hhi Hlo cur. unfold adjust_positions, __init__.
cbn [mask orig_height delta_strain]. by rewrite Hhi, Hlo.
Qed.

Lemma strain_of_scaled (h0 alpha cur : R) (pos : list vec3) :
0 <= alpha -> strain_of h0 pos = Ok cur ->
strain_of h0 (map (fun p => vset p 1 (vget p 1 * alpha)) pos)
= Ok (alpha * (1 + cur) - 1).
Proof.
intros Halpha (hi & lo & Hhi & Hlo & ->)%strain_of_Ok.
unfold strain_of. rewrite map_map.
rewrite (map_ext (fun p => vget (vset p 1 (vget p 1 * alpha)) 1)
                 (fun p => vget p 1 * alpha))
  by (intros p; apply vget_vset_1).
rewrite <- (map_map (fun p => vget p 1) (fun yi => yi * alpha)).
rewrite (np_max_scaled _ hi alpha Halpha Hhi).
rewrite (np_min_scaled _ lo alpha Halpha Hlo). cbn [rbind]. f_equal.
unfold Rdiv. ring.
Qed.

Lemma scale_factor_nonneg (cur delta : R) :
0 < 1 + cur -> 0 <= 1 + cur + delta ->
0 <= (1 + (cur + delta)) / (1 + cur).
Proof.
intros Hpos Hnew. apply Rmult_le_pos; [lra |].
left. by apply Rinv_0_lt_compat.
Qed.

(** X21. One call of [ConstantStrainRate.adjust_positions] with the
  default mask raises the strain by [delta_strain]: if the configuration
  [newpos] has strain [cur] with respect to a nonzero [orig_height],
  with 1 + cur > 0 (positive height) and 1 + cur + delta_strain >= 0,
  then after the call its strain is cur + delta_strain, and the x and
  z coordinates of all atoms are unchanged. *)
Theorem adjust_positions_adds_delta_strain (h0 delta cur : R)
(oldpos newpos : list vec3) :
strain_of h0 newpos = Ok cur ->
h0 <> 0 -> 0 < 1 + cur -> 0 <= 1 + cur + delta ->
exists newpos',
  adjust_positions (__init__ h0 delta None) oldpos newpos = Ok newpos'
  /\ strain_of h0 newpos' = Ok (cur + delta)
  /\ map (fun p => vget p 0) newpos' = map (fun p => vget p 0) newpos
  /\ map (fun p => vget p 2) newpos' = map (fun p => vget p 2) newpos.
Proof.
intros Hcur _ Hpos Hnew.
destruct (strain_of_Ok _ _ _ Hcur) as (hi & lo & Hhi & Hlo & Heq).
eexists. split.
{ rewrite (adjust_positions_default h0 delta hi lo) by done.
  cbv zeta. rewrite <- Heq. reflexivity. }
split; [| split].
- rewrite (strain_of_scaled h0 _ cur) by (by try apply scale_factor_nonneg).
  f_equal. field. lra.
- rewrite map_map. apply map_ext. intros p. apply vget_vset_0.
- rewrite map_map. apply map_ext. intros p. apply vget_vset_2.
Qed.

Lemma strain_of_strip :
strain_of 10 [(0, 0, 0); (0, 11, 0)] = Ok ((11 - 0) / 10 - 1).
Proof.
unfold strain_of. cbn [map vget].
by rewrite (np_max_pair 0 11), (np_min_pair 0 11) by lra.
Qed.

Lemma adjust_positions_adds_delta_strain_witness :
10 <> 0 /\ 0 < 1 + ((11 - 0) / 10 - 1)
/\ exists newpos',
     ConstantStrainRate.adjust_positions
       (ConstantStrainRate.__init__ 10 0.01 None)
       [(0, 0, 0); (0, 11, 0)] [(0, 0, 0); (0, 11, 0)] = Ok newpos'
     /\ strain_of 10 newpos' = Ok ((11 - 0) / 10 - 1 + 0.01)
     /\ map (fun p => vget p 0) newpos' = [0; 0]
     /\ map (fun p => vget p 2) newpos' = [0; 0].
Proof.
assert (H0 : 10 <> 0) by lra.
assert (H1 : 0 < 1 + ((11 - 0) / 10 - 1)) by lra.
split; [exact H0 |]. split; [exact H1 |].
exact (adjust_positions_adds_delta_strain 10 0.01 _
         [(0, 0, 0); (0, 11, 0)] [(0, 0, 0); (0, 11, 0)]
         strain_of_strip H0 H1 ltac:(lra)).
Defined.

(** X22. The strain grows at a constant rate: [n] successive calls of
  [adjust_positions] (default mask) on a configuration of strain [cur],
  with 1 + cur > 0 and 1 + cur + n * delta_strain > 0, all succeed and
  leave it at strain cur + n * delta_strain. *)
Theorem constant_strain_rate (h0 delta : R) (n : nat) (cur : R)
(oldpos newpos : list vec3) :
strain_of h0 newpos = Ok cur ->
h0 <> 0 -> 0 < 1 + cur -> 0 < 1 + cur + INR n * delta ->
exists newpos',
  adjust_positions_steps (__init__ h0 delta None) n oldpos newpos
  = Ok newpos'
  /\ strain_of h0 newpos' = Ok (cur + INR n * delta).
Proof.
intros Hcur _. revert cur newpos Hcur.
induction n as [| n IH]; intros cur newpos Hcur Hpos Hend.
- exists newpos. split; [done |]. rewrite Hcur. f_equal. cbn. ring.
- rewrite S_INR in Hend. pose proof (pos_INR n) as Hn.
  assert (Hstep : 0 < 1 + cur + delta) by nra.
  destruct (strain_of_Ok _ _ _ Hcur) as (hi & lo & Hhi & Hlo & Heq).
  pose proof (adjust_positions_default h0 delta hi lo oldpos newpos
                Hhi Hlo) as Hrun.
  cbv zeta in Hrun. rewrite <- Heq in Hrun.
  pose proof (strain_of_scaled h0 _ cur newpos
                (scale_factor_nonneg cur delta Hpos ltac:(lra)) Hcur)
    as Hcur1.
  replace ((1 + (cur + delta)) / (1 + cur) * (1 + cur) - 1)
    with (cur + delta) in Hcur1 by (field; lra).
  destruct (IH (cur + delta) _ Hcur1 ltac:(lra) ltac:(lra))
    as (pos2 & Hrun2 & Hcur2).
  exists pos2. cbn [adjust_positions_steps]. rewrite Hrun. cbn [rbind].
  split; [done |]. rewrite Hcur2, S_INR. f_equal. ring.
Qed.

Lemma constant_strain_rate_witness :
10 <> 0 /\ 0 < 1 + ((11 - 0) / 10 - 1)
/\ exists newpos',
     adjust_positions_steps (ConstantStrainRate.__init__ 10 0.01 None) 3
       [(0, 0, 0); (0, 11, 0)] [(0, 0, 0); (0, 11, 0)] = Ok newpos'
     /\ strain_of 10 newpos' = Ok ((11 - 0) / 10 - 1 + INR 3 * 0.01).
Proof.
assert (H0 : 10 <> 0) by lra.
assert (H1 : 0 < 1 + ((11 - 0) / 10 - 1)) by lra.
split; [exact H0 |]. split; [exact H1 |].
exact (constant_strain_rate 10 0.01 3 _
         [(0, 0, 0); (0, 11, 0)] [(0, 0, 0); (0, 11, 0)]
         strain_of_strip H0 H1 ltac:(cbn; lra)).
Defined.

Lemma masked_update (m : list bool) (g : R -> R) (y : list R) :
length m = length y ->
exists ys,
  take_mask m y = Ok ys
  /\ length ys = length (filter (fun b => Is_true b) m)
  /\ put_mask m (map g ys) y
     = zip_with (fun (b : bool) yi => if b then g yi else yi) m y.
Proof.
revert y. induction m as [| b m IH]; intros [| yi y] Hlen; try done.
- by exists [].
- injection Hlen as Hlen. destruct (IH y Hlen) as (ys & Hys & Hcount & Hput).
  exists (if b then yi :: ys else ys).
  rewrite (take_mask_cons _ _ _ _ _ Hys), count_cons.
  destruct b; cbn; rewrite ?Hput, ?Hcount; done.
Qed.

(** X23. With a boolean mask of the length of the (non-empty)
  configuration, [adjust_positions] succeeds, keeps the number of
  atoms, and there is one factor alpha such that the y coordinate of
  every atom where the mask is True is multiplied by alpha, its x and
  z being kept, and every atom where the mask is False is left exactly
  where it was. *)
Theorem adjust_positions_only_masked (h0 delta : R) (m : list bool)
(oldpos newpos : list vec3) :
length m = length newpos -> newpos <> [] ->
exists newpos' alpha,
  adjust_positions (__init__ h0 delta (Some m)) oldpos newpos = Ok newpos'
  /\ length newpos' = length newpos
  /\ forall i (b : bool) p p',
       m !! i = Some b -> newpos !! i = Some p -> newpos' !! i = Some p' ->
       p' = if b then vset p 1 (vget p 1 * alpha) else p.
Proof.
intros Hlen Hne. unfold adjust_positions, __init__.
cbn [mask orig_height delta_strain].
destruct (np_max_Ok (map (fun p => vget p 1) newpos)) as [hi Hhi];
  [by destruct newpos |].
destruct (np_min_Ok (map (fun p => vget p 1) newpos)) as [lo Hlo];
  [by destruct newpos |].
rewrite Hhi, Hlo. cbn [rbind].
set (alpha := (1 + ((hi - lo) / h0 - 1 + delta))
              / (1 + ((hi - lo) / h0 - 1))).
destruct (masked_update m (fun yi => yi * alpha)
            (map (fun p => vget p 1) newpos))
  as (ys & Hys & Hcount & Hput); [by rewrite length_map |].
rewrite Hys. cbn [rbind].
rewrite setitem_mask_run, Hput by (rewrite ?length_map; done).
cbn [rbind]. eexists _, alpha. split; [reflexivity |]. split.
{ rewrite !length_zip_with, length_map. lia. }
intros i b p p' Hb Hp Hp'.
rewrite lookup_zip_with, Hp in Hp'. cbn in Hp'.
rewrite lookup_zip_with, Hb in Hp'. cbn in Hp'.
rewrite list_lookup_fmap, Hp in Hp'. cbn in Hp'.
injection Hp' as <-. destruct b; [done |].
by destruct p as [[a b] c].
Qed.

Lemma adjust_positions_only_masked_witness :
exists newpos' alpha,
  ConstantStrainRate.adjust_positions
    (ConstantStrainRate.__init__ 10 0.01 (Some [true; false]))
    [(0, 0, 0); (0, 11, 0)] [(0, 0, 0); (0, 11, 0)] = Ok newpos'
  /\ length newpos' = 2%nat
  /\ forall i (b : bool) p p',
       [true; false] !! i = Some b ->
       [(0, 0, 0); (0, 11, 0)] !! i = Some p -> newpos' !! i = Some p' ->
       p' = if b then vset p 1 (vget p 1 * alpha) else p.
Proof.
exact (adjust_positions_only_masked 10 0.01 [true; false]
         [(0, 0, 0); (0, 11, 0)] [(0, 0, 0); (0, 11, 0)] eq_refl
         ltac:(discriminate)).
Defined.

End strain_rate.

(** ** The elastic constants of the ideal brittle solid *)

(** X24. The elastic constants of [IdealBrittleSolid] are mutually
    consistent, but one of them cannot be obtained: for nonzero spring
    constant and lattice constant, [get_poisson_ratio] is
    lambda / (2 (lambda + mu)) for the Lame constants (lambda, mu) of
    [get_elastic_moduli]; [get_youngs_modulus] raises [NameError]
    ([sqrt] is not bound in idealbrittlesolid.py), and with [sqrt] bound
    to the square root it would return
    mu (3 lambda + 2 mu) / (lambda + mu). *)
Theorem ideal_brittle_solid_constants
  (parameters : IdealBrittleSolid.parameters_t) :
  IdealBrittleSolid.k parameters <> 0 ->
  IdealBrittleSolid.a parameters <> 0 ->
  let lam := fst (IdealBrittleSolid.get_elastic_moduli parameters) in
  let mu := snd (IdealBrittleSolid.get_elastic_moduli parameters) in
  IdealBrittleSolid.get_youngs_modulus parameters = Raise (NameError "sqrt")
  /\ IdealBrittleSolid.get_youngs_modulus_in (Some sqrt) parameters
     = Ok (mu * (3 * lam + 2 * mu) / (lam + mu))
  /\ IdealBrittleSolid.get_poisson_ratio parameters
     = lam / (2 * (lam + mu)).
Proof.
  intros Hk Ha. cbn zeta.
  unfold IdealBrittleSolid.get_elastic_moduli,
    IdealBrittleSolid.get_youngs_modulus,
    IdealBrittleSolid.get_youngs_modulus_in,
    IdealBrittleSolid.get_poisson_ratio.
  cbn [fst snd global_sqrt rbind].
  assert (Hs : sqrt 3 <> 0).
  { pose proof (sqrt_lt_R0 3 ltac:(lra)). lra. }
  assert (Hsk : sqrt 3 * IdealBrittleSolid.k parameters
                + sqrt 3 * IdealBrittleSolid.k parameters <> 0).
  { intros Hz. apply (Rmult_integral_contrapositive_currified _ _ Hs Hk).
    lra. }
  split; [done |]. split.
  - f_equal. field. by split.
  - replace 0.25 with (/ 4) by lra. field. by split.
Qed.

Lemma ideal_brittle_solid_constants_witness :
  let lam := fst (IdealBrittleSolid.get_elastic_moduli
                    IdealBrittleSolid.default_parameters) in
  let mu := snd (IdealBrittleSolid.get_elastic_moduli
                   IdealBrittleSolid.default_parameters) in
  IdealBrittleSolid.get_youngs_modulus IdealBrittleSolid.default_parameters
  = Raise (NameError "sqrt")
  /\ IdealBrittleSolid.get_youngs_modulus_in (Some sqrt)
       IdealBrittleSolid.default_parameters
     = Ok (mu * (3 * lam + 2 * mu) / (lam + mu))
  /\ IdealBrittleSolid.get_poisson_ratio IdealBrittleSolid.default_parameters
     = lam / (2 * (lam + mu)).
Proof.
  exact (ideal_brittle_solid_constants IdealBrittleSolid.default_parameters
           ltac:(cbn; lra) ltac:(cbn; lra)).
Defined.
(** ** The tip fits without a mask *)

(** X25. The default [mask=None] of the two tip fits cannot be used:
    called without a mask, [crack_tip_position] and
    [crack_tip_position_y] raise [NameError] for every input (the default
    is built from [len(a)], and no [a] is in scope), before the solver is
    run.  Called with a mask, [crack_tip_position_y] returns the solver's
    y0 when the solver's status is 1, 2, 3 or 4 and raises
    [RuntimeError('Could not find crack tip')] otherwise. *)
Theorem crack_tip_position_needs_mask `{External}
  (self : CubicCrystalCrack.self_t) (x y ref_x ref_y : list R) (x0 y0 k : R) :
  CubicCrystalCrack.crack_tip_position self x y ref_x ref_y x0 y0 k None
  = Raise (NameError "a")
  /\ CubicCrystalCrack.crack_tip_position_y self x y ref_x ref_y x0 y0 k None
     = Raise (NameError "a")
  /\ forall (mask : list bool) (out : leastsq_out) (y1 : R),
       leastsq (fun r0 => match r0 with
                          | [y0] => CubicCrystalCrack._residual_z self y0 x0
                                      x y ref_x ref_y k mask
                          | _ => Raise (TypeError "not a scalar")
                          end)
               [y0] = Ok out ->
       lsq_x out = [y1] ->
       CubicCrystalCrack.crack_tip_position_y self x y ref_x ref_y x0 y0 k
         (Some mask)
       = if bool_decide (lsq_ier out ∈ [1; 2; 3; 4]%Z)
         then Ok y1
         else Raise (RuntimeError "Could not find crack tip").
Proof.
  split; [reflexivity |]. split; [reflexivity |].
  intros mask out y1 Hsolve Hy.
  unfold CubicCrystalCrack.crack_tip_position_y.
  cbn [CubicCrystalCrack.default_mask rbind].
  rewrite Hsolve. cbn [rbind]. rewrite Hy.
  repeat case_bool_decide; done.
Qed.

Section guesses.
Context `{External}.

(** X26. The fallbacks of the parameter guess.  Without
  [initial_params] and [fix_params], on a non-empty configuration whose
  [info] has none of K, OrigHeight, sigma0, YoungsModulus and CrackPos,
  the [KeyError] of the K guess is caught, but its handler evaluates
  [1.0 * MPA_SQRT_M], a name the module never binds: the guess raises
  [NameError('MPA_SQRT_M')] and [atoms] and the arrays are left
  untouched.  Were the name bound to a number m, the fit would start
  from K = 1.0 * m, sxx0 = syy0 = sxy0 = 0,
  x0 = min x + (max x - min x) / 3 and y0 = 0. *)
Theorem starting_params_fallbacks (w : world) (lo hi : R) :
info (atoms w) !! "K" = None ->
info (atoms w) !! "OrigHeight" = None ->
info (atoms w) !! "sigma0" = None ->
info (atoms w) !! "YoungsModulus" = None ->
info (atoms w) !! "CrackPos" = None ->
np_min (map (fun p => vget p 0) (positions (atoms w))) = Ok lo ->
np_max (map (fun p => vget p 0) (positions (atoms w))) = Ok hi ->
starting_params None ∅ w
= (w, match MPA_SQRT_M with
      | None => Raise (NameError "MPA_SQRT_M")
      | Some m =>
          Ok (<["y0" := 0]> (<["x0" := lo + (hi - lo) / 3]>
              (<["sxy0" := 0]> (<["sxx0" := 0]> (<["syy0" := 0]>
              (<["K" := 1.0 * m]> ∅))))))
      end).
Proof.
intros HK Hh Hs HE Hc Hlo Hhi.
unfold starting_params. cbv zeta.
rewrite bool_decide_eq_true_2 by done.
unfold bind at 1. unfold guess_K, bind at 1, get_atoms. rewrite HK.
unfold try_except_KeyError, bind at 1, get_stress_intensity_factor,
  get_stress_intensity_factor_in, bind at 1, get_energy_release_rate,
  bind at 1, get_strain, bind at 1, info_get at 1, getitem.
rewrite Hh. unfold bind at 1, lift at 1, lookup_global.
destruct MPA_SQRT_M as [m |]; [| reflexivity].
unfold ret at 1.
rewrite bool_decide_eq_true_2 by done. cbn [orb].
unfold bind at 1. unfold guess_sigma0, bind at 1, get_atoms. rewrite Hs.
unfold try_except_KeyError, bind at 1, info_get at 1, getitem.
rewrite HE. unfold ret at 1.
rewrite bool_decide_eq_true_2 by done. cbn [orb].
unfold bind at 1. unfold guess_position, try_except_KeyError, bind at 1,
  info_get at 1, getitem.
rewrite Hc. unfold bind, get_atoms, lift. rewrite Hlo, Hhi.
unfold ret, update. by rewrite (left_id ∅ (∪)).
Qed.

End guesses.


Lemma starting_params_fallbacks_witness :
  @starting_params (unbound gives_up) None ∅ blank_pair_world
  = (blank_pair_world, Raise (NameError "MPA_SQRT_M"))
  /\ @starting_params gives_up None ∅ blank_pair_world
     = (blank_pair_world,
        Ok (<["y0" := 0]> (<["x0" := 0 + (3 - 0) / 3]>
            (<["sxy0" := 0]> (<["sxx0" := 0]> (<["syy0" := 0]>
            (<["K" := 1.0 * 1]> ∅))))))).
Proof.
  split.
  - exact (@starting_params_fallbacks (unbound gives_up) blank_pair_world 0 3
             eq_refl eq_refl eq_refl eq_refl eq_refl
             (np_min_pair 0 3 ltac:(lra)) (np_max_pair 0 3 ltac:(lra))).
  - exact (@starting_params_fallbacks gives_up blank_pair_world 0 3
             eq_refl eq_refl eq_refl eq_refl eq_refl
             (np_min_pair 0 3 ltac:(lra)) (np_max_pair 0 3 ltac:(lra))).
Defined.
